(** * BIST analyzer: indicator library, structural analysis, harmonic matcher,
      scoring engine and scan orchestrator

    A shallow embedding of [src/bist_analyzer.py], [src/data_fetcher.py],
    the scan criteria of [src/app.py] and [src/tools/parse_tickers.py].

    Numbers.  The program computes on IEEE doubles held in pandas Series.
    Here a finite double is an exact rational ([Q]); the special values a
    division can produce (NaN, the two infinities) are constructors of
    [fl].  Rounding error is therefore outside the model; NaN and division
    by zero are inside it.

    Frames.  A pandas DataFrame of bars is a [list Bar]; positional access
    [series.iloc[i]] is [nth].  The fetcher's [_clean_data] keeps only rows
    whose five columns are present and positive, so a bar's fields are
    finite rationals.

    Exceptions.  Where a function's [try/except] matters the model returns
    an [outcome]; a Python [None] is Rocq's [None]. *)

From Stdlib Require Import String.
From Stdlib Require Import List Bool Arith Lia ZArith QArith Qabs Qround Lqa.
From Stdlib Require Import DecimalString.
From Stdlib Require Import Sorting.Permutation Sorting.Sorted.
From Stdlib Require OrderedTypeEx.
Import ListNotations.

Local Open Scope Q_scope.

(* ================================================================== *)
(** ** Numbers *)

Module Num.

(** Boolean comparisons of rationals (Python's [<], [<=] on finite floats). *)
Definition Qlt_bool (x y : Q) : bool := negb (Qle_bool y x).

(** A Python float: a finite value, an infinity or NaN. *)
Inductive fl : Type :=
| Fin (q : Q)
| PInf
| NInf
| NaN.

Definition is_nan (x : fl) : bool :=
  match x with NaN => true | _ => false end.

(** [pd.isna] on a scalar. *)
Definition isna := is_nan.

(** Sign of a rational as a comparison with zero. *)
Definition Qpos_bool (q : Q) : bool := Qlt_bool 0 q.
Definition Qneg_bool (q : Q) : bool := Qlt_bool q 0.
Definition Qzero_bool (q : Q) : bool := Qeq_bool q 0.

(** IEEE comparisons: every comparison with NaN is false. *)
Definition fle (x y : fl) : bool :=
  match x, y with
  | NaN, _ | _, NaN => false
  | NInf, _ => true
  | _, PInf => true
  | PInf, _ => false
  | _, NInf => false
  | Fin a, Fin b => Qle_bool a b
  end.

Definition flt (x y : fl) : bool :=
  match x, y with
  | NaN, _ | _, NaN => false
  | PInf, _ => false
  | _, NInf => false
  | NInf, _ => true
  | _, PInf => true
  | Fin a, Fin b => Qlt_bool a b
  end.

Definition fge (x y : fl) : bool := fle y x.
Definition fgt (x y : fl) : bool := flt y x.

(** [x == 0] on a float. *)
Definition fzero (x : fl) : bool :=
  match x with Fin q => Qzero_bool q | _ => false end.

Definition fneg (x : fl) : fl :=
  match x with
  | Fin q => Fin (- q)
  | PInf => NInf
  | NInf => PInf
  | NaN => NaN
  end.

Definition fadd (x y : fl) : fl :=
  match x, y with
  | NaN, _ | _, NaN => NaN
  | PInf, NInf | NInf, PInf => NaN
  | PInf, _ | _, PInf => PInf
  | NInf, _ | _, NInf => NInf
  | Fin a, Fin b => Fin (a + b)
  end.

Definition fsub (x y : fl) : fl := fadd x (fneg y).

Definition fmul (x y : fl) : fl :=
  match x, y with
  | NaN, _ | _, NaN => NaN
  | Fin a, Fin b => Fin (a * b)
  | Fin a, PInf | PInf, Fin a =>
      if Qzero_bool a then NaN else if Qpos_bool a then PInf else NInf
  | Fin a, NInf | NInf, Fin a =>
      if Qzero_bool a then NaN else if Qpos_bool a then NInf else PInf
  | PInf, PInf | NInf, NInf => PInf
  | PInf, NInf | NInf, PInf => NInf
  end.

(** numpy/pandas division: [x/0] is an infinity of the sign of [x], [0/0]
    is NaN, a finite value over an infinity is 0. *)
Definition fdiv (x y : fl) : fl :=
  match x, y with
  | NaN, _ | _, NaN => NaN
  | Fin a, Fin b =>
      if Qzero_bool b then
        if Qzero_bool a then NaN else if Qpos_bool a then PInf else NInf
      else Fin (a / b)
  | Fin _, PInf | Fin _, NInf => Fin 0
  | PInf, Fin b => if Qneg_bool b then NInf else PInf
  | NInf, Fin b => if Qneg_bool b then PInf else NInf
  | PInf, PInf | PInf, NInf | NInf, PInf | NInf, NInf => NaN
  end.

(** [Series.fillna(v)] on one entry. *)
Definition fillna (v : Q) (x : fl) : fl :=
  match x with NaN => Fin v | _ => x end.

(** [lo <= x <= hi] for a float between two rationals. *)
Definition in_range (lo hi : Q) (x : fl) : Prop :=
  match x with Fin q => lo <= q /\ q <= hi | _ => False end.

End Num.
Import Num.

(* ================================================================== *)
(** ** Series and frames *)

Module Frame.

(** One row of the cleaned OHLCV frame. *)
Record Bar : Type := mkBar
  { open : Q; high : Q; low : Q; close : Q; volume : Q }.

Definition DataFrame := list Bar.

(** [series.iloc[i]] for an index the caller keeps in range. *)
Definition iloc (s : list Q) (i : nat) : Q := nth i s 0.

Definition bar0 : Bar := mkBar 0 0 0 0 0.
Definition row (data : DataFrame) (i : nat) : Bar := nth i data bar0.

Definition col (f : Bar -> Q) (data : DataFrame) : list Q := map f data.

(** [data.iloc[a:b]] with [0 <= a]. *)
Definition slice {A} (l : list A) (a b : nat) : list A :=
  firstn (b - a) (skipn a l).

(** [series.tail(n)]. *)
Definition tail {A} (l : list A) (n : nat) : list A :=
  skipn (length l - n) l.

Definition Qsum (l : list Q) : Q := fold_right Qplus 0 l.

Definition Qmean (l : list Q) : Q := Qsum l / inject_Z (Z.of_nat (length l)).

(** Equality of floats up to the representation of a rational. *)
Definition fl_eq (x y : fl) : Prop :=
  match x, y with
  | Fin a, Fin b => a == b
  | PInf, PInf | NInf, NInf | NaN, NaN => True
  | _, _ => False
  end.

Definition fsum (l : list fl) : fl := fold_right fadd (Fin 0) l.

Definition any_nan (l : list fl) : bool := existsb is_nan l.

Definition of_nat_Q (n : nat) : Q := inject_Z (Z.of_nat n).

(** [series.rolling(window=w).mean()]: NaN until [w] observations are
    available (and everywhere for [w = 0]) and whenever the window holds a
    NaN; otherwise the mean of the last [w] entries. *)
Definition rolling_mean_at (w : nat) (s : list fl) (i : nat) : fl :=
  if (w =? 0)%nat then NaN
  else if (i + 1 <? w)%nat then NaN
  else
    let win := slice s (i + 1 - w) (i + 1) in
    if any_nan win then NaN else fdiv (fsum win) (Fin (of_nat_Q w)).

Definition rolling_mean (w : nat) (s : list fl) : list fl :=
  map (rolling_mean_at w s) (seq 0 (length s)).

(** [series.iloc[-1]] of a non-empty float series. *)
Definition last_fl (s : list fl) : fl := last s NaN.

End Frame.
Import Frame.

(* ================================================================== *)
(** ** Indicator library *)

Module Indicators.

(** One iteration of the loop of [_calculate_obv]: the state is the running
    [obv_value] and the list [obv] built so far. *)
Definition obv_step (data : DataFrame) (st : Q * list Q) (i : nat) : Q * list Q :=
  let '(obv_value, obv) := st in
  let obv_value' :=
    if (i =? 0)%nat then volume (row data i)
    else
      let prev_close := close (row data (i - 1)) in
      let curr_close := close (row data i) in
      let curr_volume := volume (row data i) in
      if Qlt_bool prev_close curr_close then obv_value + curr_volume
      else if Qlt_bool curr_close prev_close then obv_value - curr_volume
      else obv_value in
  (obv_value', obv ++ [obv_value']).

Definition obv_loop (data : DataFrame) (n : nat) : Q * list Q :=
  fold_left (obv_step data) (seq 0 n) (0, []).

(** [_calculate_obv(data)]. *)
Definition _calculate_obv (data : DataFrame) : list Q :=
  snd (obv_loop data (length data)).

(** Typical price of a bar, [(high + low + close) / 3]. *)
Definition typical_price (b : Bar) : Q := (high b + low b + close b) / 3.

(** Element-wise product of two aligned series. *)
Fixpoint mul_series (a b : list Q) : list Q :=
  match a, b with
  | x :: a', y :: b' => x * y :: mul_series a' b'
  | _, _ => []
  end.

(** Body of the loop of [_calculate_vwap] at index [i]. *)
Definition vwap_at (data : DataFrame) (period : nat) (i : nat) : Q :=
  let start_idx := (i + 1 - period)%nat in
  let period_data := slice data start_idx (i + 1) in
  if (0 <? length period_data)%nat then
    let tp := map typical_price period_data in
    let vol := map volume period_data in
    if Qlt_bool 0 (Qsum vol) then Qsum (mul_series tp vol) / Qsum vol
    else last tp 0
  else typical_price (row data i).

(** [_calculate_vwap(data, period)]; [max(0, i - period + 1)] is the
    truncated subtraction [i + 1 - period]. *)
Definition _calculate_vwap (data : DataFrame) (period : nat) : list Q :=
  map (vwap_at data period) (seq 0 (length data)).

(** [prices.diff()]: NaN first, then the successive differences. *)
Definition diff (prices : list Q) : list fl :=
  match prices with
  | [] => []
  | p0 :: rest =>
      NaN :: map (fun pq => Fin (snd pq - fst pq)) (combine prices rest)
  end.

(** [delta.where(delta > 0, 0)] and [-delta.where(delta < 0, 0)]. *)
Definition gain_of (d : fl) : fl := if fgt d (Fin 0) then d else Fin 0.
Definition loss_of (d : fl) : fl := fneg (if flt d (Fin 0) then d else Fin 0).

Definition rsi_of (gain loss : fl) : fl :=
  let rs := fdiv gain loss in
  fsub (Fin 100) (fdiv (Fin 100) (fadd (Fin 1) rs)).

(** The series [100 - 100 / (1 + gain / loss)] both definitions of
    [_calculate_rsi] build before they part. *)
Definition rsi_raw (prices : list Q) (period : nat) : list fl :=
  let delta := diff prices in
  let gain := rolling_mean period (map gain_of delta) in
  let loss := rolling_mean period (map loss_of delta) in
  map (fun gl => rsi_of (fst gl) (snd gl)) (combine gain loss).

(** [_calculate_rsi(prices, period)] as defined with the indicators
    (the definition that returns the whole series, NaN filled with 50). *)
Definition _calculate_rsi (prices : list Q) (period : nat) : list fl :=
  map (fillna 50) (rsi_raw prices period).

(** [_sma(series, window)]: the rolling mean (no exception arises for a
    window that is a natural number). *)
Definition _sma (series : list fl) (window : nat) : option (list fl) :=
  Some (rolling_mean window series).

End Indicators.
Import Indicators.

(* ================================================================== *)
(** ** Structural analysis: swing points and local minima *)

Module Structure.

Inductive SwingType : Type := high_type | low_type.

(** The dict [_find_swing_points] appends: index, price and type. *)
Record SwingPoint : Type := mkSwing
  { index : nat; price : Q; type : SwingType }.

(** [j for j in range(i - window, i + window + 1) if j != i]. *)
Definition neighbours (i window : nat) : list nat :=
  filter (fun j => negb (j =? i)%nat) (seq (i - window) (window + window + 1)).

Definition is_high (prices : list Q) (window i : nat) : bool :=
  forallb (fun j => Qle_bool (iloc prices j) (iloc prices i)) (neighbours i window).

Definition is_low (prices : list Q) (window i : nat) : bool :=
  forallb (fun j => Qle_bool (iloc prices i) (iloc prices j)) (neighbours i window).

Definition swing_at (prices : list Q) (window i : nat) : list SwingPoint :=
  if is_high prices window i || is_low prices window i then
    [mkSwing i (iloc prices i)
       (if is_high prices window i then high_type else low_type)]
  else [].

(** [_find_swing_points(prices, window)]: the candidates are
    [range(window, len(prices) - window)]. *)
Definition _find_swing_points (prices : list Q) (window : nat) : list SwingPoint :=
  flat_map (swing_at prices window)
    (seq window (length prices - window - window)).

(** The inner loop of [_find_local_minima]: [is_minimum] is cleared by the
    first neighbour [j] with [series[j] <= series[i]]. *)
Definition is_minimum (series : list Q) (window i : nat) : bool :=
  forallb (fun j => negb (Qle_bool (iloc series j) (iloc series i)))
    (neighbours i window).

(** [_find_local_minima(series, window)]. *)
Definition _find_local_minima (series : list Q) (window : nat) : list nat :=
  filter (is_minimum series window)
    (seq window (length series - window - window)).

End Structure.
Import Structure.

(* ================================================================== *)
(** ** Harmonic pattern matcher *)

Module Harmonic.

(** The four leg ratios; each is 0 when its denominator leg is flat. *)
Record Ratios : Type := mkRatios
  { AB_XA : Q; BC_AB : Q; CD_BC : Q; AD_XA : Q }.

Definition leg_ratios (X A B C D : Q) : Ratios :=
  mkRatios
    (if Qlt_bool 0 (Qabs (A - X)) then Qabs (B - A) / Qabs (A - X) else 0)
    (if Qlt_bool 0 (Qabs (B - A)) then Qabs (C - B) / Qabs (B - A) else 0)
    (if Qlt_bool 0 (Qabs (C - B)) then Qabs (D - C) / Qabs (C - B) else 0)
    (if Qlt_bool 0 (Qabs (A - X)) then Qabs (D - A) / Qabs (A - X) else 0).

(** [abs(ratio - target) <= tolerance_ratio]. *)
Definition near (ratio target tolerance_ratio : Q) : bool :=
  Qle_bool (Qabs (ratio - target)) tolerance_ratio.

(** The checks of [_check_gartley_pattern] on the computed ratios. *)
Definition gartley_checks (r : Ratios) (tolerance : Q) : bool :=
  let tolerance_ratio := tolerance / 100 in
  let ab_check := near (AB_XA r) 0.618 tolerance_ratio in
  let bc_check := near (BC_AB r) 0.382 tolerance_ratio
                  || near (BC_AB r) 0.886 tolerance_ratio in
  let cd_check := near (CD_BC r) 1.272 tolerance_ratio
                  || near (CD_BC r) 1.618 tolerance_ratio in
  let ad_check := near (AD_XA r) 0.786 tolerance_ratio in
  ab_check && bc_check && cd_check && ad_check.

Definition bat_checks (r : Ratios) (tolerance : Q) : bool :=
  let tolerance_ratio := tolerance / 100 in
  let ab_check := near (AB_XA r) 0.382 tolerance_ratio
                  || near (AB_XA r) 0.500 tolerance_ratio in
  let ad_check := near (AD_XA r) 0.886 tolerance_ratio in
  ab_check && ad_check.

Definition butterfly_checks (r : Ratios) (tolerance : Q) : bool :=
  let tolerance_ratio := tolerance / 100 in
  let ab_check := near (AB_XA r) 0.786 tolerance_ratio in
  let ad_check := near (AD_XA r) 1.272 tolerance_ratio
                  || near (AD_XA r) 1.618 tolerance_ratio in
  ab_check && ad_check.

Definition crab_checks (r : Ratios) (tolerance : Q) : bool :=
  let tolerance_ratio := tolerance / 100 in
  let ab_check := near (AB_XA r) 0.382 tolerance_ratio
                  || near (AB_XA r) 0.618 tolerance_ratio in
  let ad_check := near (AD_XA r) 1.618 tolerance_ratio in
  ab_check && ad_check.

(** The common frame of the four [_check_*_pattern] methods: fewer than
    five points give [False]; unpacking anything but five prices raises,
    and the handler returns [False]. *)
Definition check_pattern (checks : Ratios -> Q -> bool)
    (points : list SwingPoint) (tolerance : Q) : bool :=
  if (length points <? 5)%nat then false
  else
    match map price points with
    | [X; A; B; C; D] => checks (leg_ratios X A B C D) tolerance
    | _ => false
    end.

Definition _check_gartley_pattern := check_pattern gartley_checks.
Definition _check_bat_pattern := check_pattern bat_checks.
Definition _check_butterfly_pattern := check_pattern butterfly_checks.
Definition _check_crab_pattern := check_pattern crab_checks.

(** [swing_points[-5:]]. *)
Definition last5 {A} (l : list A) : list A := tail l 5.

(** [_detect_harmonic_pattern(data, pattern_type, tolerance, lookback_period)]. *)
Definition _detect_harmonic_pattern (data : DataFrame) (pattern_type : string)
    (tolerance : Q) (lookback_period : nat) : bool :=
  if (length data <? lookback_period)%nat || (lookback_period <? 20)%nat then false
  else
    let recent_data := tail data lookback_period in
    let closes := col close recent_data in
    let swing_points := _find_swing_points closes 5 in
    if (length swing_points <? 5)%nat then false
    else
      let points := last5 swing_points in
      if String.eqb pattern_type "Otomatik" then
        _check_gartley_pattern points tolerance
        || _check_bat_pattern points tolerance
        || _check_butterfly_pattern points tolerance
        || _check_crab_pattern points tolerance
      else if String.eqb pattern_type "Gartley" then
        _check_gartley_pattern points tolerance
      else if String.eqb pattern_type "Bat" then
        _check_bat_pattern points tolerance
      else if String.eqb pattern_type "Butterfly" then
        _check_butterfly_pattern points tolerance
      else if String.eqb pattern_type "Crab" then
        _check_crab_pattern points tolerance
      else false.

End Harmonic.
Import Harmonic.

(* ================================================================== *)
(** ** Python values and exceptions *)

Module Py.

(** The result of running a piece of code that may raise. *)
Inductive outcome (A : Type) : Type :=
| Ok (a : A)
| Raise (e : string).
Arguments Ok {A} a.
Arguments Raise {A} e.

Definition bind {A B} (c : outcome A) (k : A -> outcome B) : outcome B :=
  match c with
  | Ok a => k a
  | Raise e => Raise e
  end.

Notation "x <- c ;; k" := (bind c (fun x => k))
  (at level 61, c at next level, right associativity).

(** A Python value that is a float or [None]. *)
Definition pyfloat := option fl.

Definition not_none (v : pyfloat) : bool :=
  match v with Some _ => true | None => false end.

(** Truth value of a float-or-None: [None] and zero are false, NaN is true. *)
Definition truthy (v : pyfloat) : bool :=
  match v with Some x => negb (fzero x) | None => false end.

(** [a or b] on values. *)
Definition py_or (a b : pyfloat) : pyfloat := if truthy a then a else b.

(** Comparing [None] with a number raises [TypeError]. *)
Definition compare (op : fl -> fl -> bool) (v : pyfloat) (t : fl) : outcome bool :=
  match v with
  | Some x => Ok (op x t)
  | None => Raise "TypeError"
  end.

(** [c and k], where [k] is evaluated only when [c] holds. *)
Definition and_then (c : bool) (k : outcome bool) : outcome bool :=
  if c then k else Ok false.

(** [2 if excellent else (1 if good else 0)]. *)
Definition tier (excellent good : outcome bool) : outcome nat :=
  e <- excellent ;;
  if e then Ok 2%nat
  else g <- good ;; Ok (if g then 1%nat else 0%nat).

(** A dict of numeric settings and [d.get(key, default)]. *)
Definition dict := list (string * Q).

Fixpoint get (d : dict) (key : string) (default : Q) : Q :=
  match d with
  | [] => default
  | (k, v) :: d' => if String.eqb k key then v else get d' key default
  end.

End Py.
Import Py.

(* ================================================================== *)
(** ** Data fetcher *)

Module Fetcher.

(** One row of the provider's history: a time stamp and the five columns,
    each a finite value or missing (NaN). *)
Record RawRow : Type := mkRaw
  { timestamp : Z;
    raw_open : option Q; raw_high : option Q; raw_low : option Q;
    raw_close : option Q; raw_volume : option Q }.

(** The filters of [_clean_data] on one row: close and volume present,
    the five columns positive (a comparison with NaN is false) and
    [high >= low]. *)
Definition clean_row (r : RawRow) : option (Z * Bar) :=
  match raw_open r, raw_high r, raw_low r, raw_close r, raw_volume r with
  | Some o, Some h, Some l, Some c, Some v =>
      if Qlt_bool 0 v && Qlt_bool 0 c && Qlt_bool 0 h && Qlt_bool 0 l
         && Qlt_bool 0 o && Qle_bool l h
      then Some (timestamp r, mkBar o h l c v)
      else None
  | _, _, _, _, _ => None
  end.

(** [data.sort_index()]: ascending by time stamp.  Rows with equal stamps
    keep their order, so an index that is already monotonic is left as it
    is, as pandas leaves it.  (For an index that is not monotonic pandas
    does not promise the order of rows with equal stamps.) *)
Fixpoint insert_by_time (x : Z * Bar) (l : list (Z * Bar)) : list (Z * Bar) :=
  match l with
  | [] => [x]
  | y :: l' => if (fst x <=? fst y)%Z then x :: l else y :: insert_by_time x l'
  end.

Definition sort_index (l : list (Z * Bar)) : list (Z * Bar) :=
  fold_right insert_by_time [] l.

(** [_clean_data(data)] on a non-empty history. *)
Definition _clean_data (rows : list RawRow) : DataFrame :=
  map snd
    (sort_index
       (flat_map (fun r => match clean_row r with Some b => [b] | None => [] end)
          rows)).

(** [get_stock_data(symbol, period, interval)] given what
    [ticker.history] does: it raises, or returns rows. *)
Definition get_stock_data (history : outcome (list RawRow)) : option DataFrame :=
  match history with
  | Raise _ => None
  | Ok [] => None
  | Ok (r :: rows) => Some (_clean_data (r :: rows))
  end.

End Fetcher.
Import Fetcher.

(* ================================================================== *)
(** ** Scoring engine *)

Module Scoring.

(** The keys of yfinance's [info] dict the program reads. *)
Record Info : Type := mkInfo
  { trailingPE : pyfloat; forwardPE : pyfloat; priceToBook : pyfloat;
    marketCap : pyfloat; returnOnEquity : pyfloat; debtToEquity : pyfloat;
    revenueGrowth : pyfloat; profitMargins : pyfloat; dividendYield : pyfloat;
    enterpriseToEbitda : pyfloat; enterpriseValue : pyfloat; ebitda : pyfloat }.

(** The entries of [market_data] that [analyze_single_stock] reads with
    [fundamentals.get]. *)
Record Fundamentals : Type := mkFundamentals
  { pe_ratio : pyfloat; pb_ratio : pyfloat; roe : pyfloat;
    debt_equity_ratio : pyfloat; revenue_growth : pyfloat;
    profit_margin : pyfloat; dividend_yield : pyfloat }.

(** [_calculate_rsi(prices, period=14)] as the class defines it a second
    time, next to the scoring helpers.  The later [def] rebinds the method
    name, so this is the definition a call [self._calculate_rsi(...)]
    reaches: the last value of the raw series, without [fillna], and 50 only
    for an empty series. *)
Definition _calculate_rsi (prices : list Q) (period : nat) : fl :=
  match rsi_raw prices period with
  | [] => Fin 50
  | _ :: _ => last_fl (rsi_raw prices period)
  end.

(** [v and lo < v < hi]. *)
Definition strict_check (v : pyfloat) (hi : Q) : bool :=
  truthy v &&
  match v with
  | Some x => flt (Fin 0) x && flt x (Fin hi)
  | None => false
  end.

(** The part of [get_fundamental_data] after the price history is in hand:
    [info] is [None] when reading [ticker.info] raised.  A missing or
    out-of-range P/E or P/B returns [None]; the other ratios default to 0. *)
Definition fundamentals_of_info (info : option Info) : option Fundamentals :=
  match info with
  | None => None
  | Some info =>
      let pe := py_or (trailingPE info) (forwardPE info) in
      if strict_check pe 1000 then
        let pb := priceToBook info in
        if strict_check pb 100 then
          Some (mkFundamentals pe pb
                  (py_or (returnOnEquity info) (Some (Fin 0)))
                  (py_or (debtToEquity info) (Some (Fin 0)))
                  (py_or (revenueGrowth info) (Some (Fin 0)))
                  (py_or (profitMargins info) (Some (Fin 0)))
                  (option_map (fun x => fmul x (Fin 100))
                     (py_or (dividendYield info) (Some (Fin 0)))))
        else None
      else None
  end.

(** [get_fundamental_data(symbol, period)] given what the two providers
    return for the symbol. *)
Definition get_fundamental_data (data : option DataFrame) (info : option Info)
  : option Fundamentals :=
  match data with
  | None => None
  | Some [] => None
  | Some (_ :: _) => fundamentals_of_info info
  end.

(** The thresholds [analyze_single_stock] reads from [scoring_params]. *)
Record Thresholds : Type := mkThresholds
  { pe_excellent : Q; pe_good : Q; pb_excellent : Q; pb_good : Q;
    roe_excellent : Q; roe_good : Q; margin_excellent : Q; margin_good : Q;
    debt_excellent : Q; debt_good : Q; rsi_good_min : Q; rsi_good_max : Q;
    sma_tolerance : Q; volume_multiplier : Q; macd_tolerance : Q }.

Definition thresholds_of (scoring_params : option dict) : Thresholds :=
  let scoring_params := match scoring_params with Some d => d | None => [] end in
  mkThresholds
    (get scoring_params "pe_excellent" 8.0) (get scoring_params "pe_good" 15.0)
    (get scoring_params "pb_excellent" 1.0) (get scoring_params "pb_good" 2.0)
    (get scoring_params "roe_excellent" 15.0) (get scoring_params "roe_good" 10.0)
    (get scoring_params "margin_excellent" 10.0) (get scoring_params "margin_good" 5.0)
    (get scoring_params "debt_excellent" 1.0) (get scoring_params "debt_good" 2.0)
    (get scoring_params "rsi_good_min" 40.0) (get scoring_params "rsi_good_max" 60.0)
    (get scoring_params "sma_tolerance" 2.0) (get scoring_params "volume_multiplier" 1.2)
    (get scoring_params "macd_tolerance" 0.01).

(** Everything the scoring block (from the comment [--- Scoring ---] to the
    returned dict) reads. *)
Record Snapshot : Type := mkSnapshot
  { fundamentals : Fundamentals;
    ev_ebitda : pyfloat;
    rev_growth_3y : pyfloat;
    ni_growth_3y : pyfloat;
    current_ratio : pyfloat;
    ocf_last : pyfloat;
    ni_vals : option (list Q);
    current_price : fl;
    sma200 : option (list fl);
    sma50 : option (list fl);
    rsi : fl;
    macd_line : option (list fl);
    macd_signal : option (list fl);
    vol20 : option (list fl);
    volume_last : fl }.

(** One row of a breakdown table: criterion and awarded points. *)
Record Row : Type := mkRow { Kriter : string; Puan : nat }.

Record ScoreResult : Type := mkScoreResult
  { symbol : string;
    fundamental_points : nat;
    technical_points : nat;
    total_points : nat;
    recommendation : string;
    fundamental_breakdown : list Row;
    technical_breakdown : list Row;
    r_price : fl;
    r_pe_ratio : pyfloat;
    r_pb_ratio : pyfloat }.

(** [2 if v is not None and v <op> excellent else
       (1 if v is not None and v <= good else 0)]. *)
Definition guarded_tier (op : fl -> fl -> bool) (v : pyfloat) (excellent good : Q)
  : outcome nat :=
  tier (and_then (not_none v) (compare op v (Fin excellent)))
       (and_then (not_none v) (compare fle v (Fin good))).

(** [v * 100 if v is not None and v < 1 else v], then [None] becomes 0. *)
Definition as_percent (v : pyfloat) : outcome pyfloat :=
  small <- and_then (not_none v) (compare flt v (Fin 1)) ;;
  let pct := if small then option_map (fun x => fmul x (Fin 100)) v else v in
  Ok (match pct with None => Some (Fin 0) | Some _ => pct end).

(** [v if v is not None else 0]. *)
Definition or_zero (v : pyfloat) : pyfloat :=
  match v with None => Some (Fin 0) | Some _ => v end.

(** [2 if v >= excellent else (1 if v <op> good else 0)]. *)
Definition plain_tier (op : fl -> fl -> bool) (v : pyfloat) (excellent good : Q)
  : outcome nat :=
  tier (compare fge v (Fin excellent)) (compare op v (Fin good)).

(** [ni_vals and ni_vals[-1] and ni_vals[-1] > 0] as a truth value. *)
Definition ni_positive (ni_vals : option (list Q)) : bool :=
  match ni_vals with
  | None | Some [] => false
  | Some (x :: l) =>
      let v := last (x :: l) 0 in negb (Qzero_bool v) && Qlt_bool 0 v
  end.

Definition ocf_tier (ocf_last : pyfloat) (ni_vals : option (list Q)) : outcome nat :=
  tier
    (c <- and_then (not_none ocf_last) (compare fgt ocf_last (Fin 0)) ;;
     Ok (c && ni_positive ni_vals))
    (and_then (not_none ocf_last) (compare fgt ocf_last (Fin 0))).

(** The ten fundamental criteria, in the order the source scores them. *)
Definition fundamental_rows (th : Thresholds) (s : Snapshot) : outcome (list Row) :=
  let f := fundamentals s in
  pe_pts <- guarded_tier fle (pe_ratio f) (pe_excellent th) (pe_good th) ;;
  pb_pts <- guarded_tier flt (pb_ratio f) (pb_excellent th) (pb_good th) ;;
  ev_ebitda_pts <- guarded_tier flt (ev_ebitda s) 6 8 ;;
  npm_pct <- as_percent (profit_margin f) ;;
  npm_pts <- plain_tier fge npm_pct (margin_excellent th) (margin_good th) ;;
  sg_pts <- plain_tier fge (or_zero (rev_growth_3y s)) 10 5 ;;
  ng_pts <- plain_tier fgt (or_zero (ni_growth_3y s)) 10 0 ;;
  roe_pct <- as_percent (roe f) ;;
  roe_pts <- plain_tier fge roe_pct (roe_excellent th) (roe_good th) ;;
  de_pts <- guarded_tier flt (debt_equity_ratio f) (debt_excellent th) (debt_good th) ;;
  cr_pts <- plain_tier fge (or_zero (current_ratio s)) 1.5 1.0 ;;
  ocf_pts <- ocf_tier (ocf_last s) (ni_vals s) ;;
  Ok [ mkRow "F/K Oranı" pe_pts;
       mkRow "PD/DD Oranı" pb_pts;
       mkRow "FD/FAVÖK" ev_ebitda_pts;
       mkRow "Net Kâr Marjı (%)" npm_pts;
       mkRow "Satış Büyümesi 3Y (%)" sg_pts;
       mkRow "Net Kâr Büyümesi 3Y (%)" ng_pts;
       mkRow "ROE (%)" roe_pts;
       mkRow "Borç/Özkaynak" de_pts;
       mkRow "Cari Oran" cr_pts;
       mkRow "Faaliyet Nakit Akımı" ocf_pts ].

(** [series is not None and not np.isnan(series.iloc[-1])]: the last value
    when the criterion can be scored. *)
Definition last_defined (series : option (list fl)) : option fl :=
  match series with
  | None => None
  | Some l => if is_nan (last_fl l) then None else Some (last_fl l)
  end.

(** [2 if cond else 0]. *)
Definition two_if (cond : bool) : nat := if cond then 2%nat else 0%nat.

(** The five technical criteria. *)
Definition technical_rows (th : Thresholds) (s : Snapshot) : list Row :=
  let p200_pts :=
    match last_defined (sma200 s) with
    | Some m => two_if (fgt (current_price s) m)
    | None => 0%nat
    end in
  let p50_pts :=
    match last_defined (sma50 s) with
    | Some m => two_if (fgt (current_price s) m)
    | None => 0%nat
    end in
  let rsi_pts :=
    if fge (rsi s) (Fin (rsi_good_max th)) then 2%nat
    else if fle (Fin (rsi_good_min th)) (rsi s) && fle (rsi s) (Fin (rsi_good_max th))
         then 1%nat else 0%nat in
  let macd_pts :=
    match macd_line s, macd_signal s with
    | Some ml, Some ms => two_if (fgt (last_fl ml) (last_fl ms))
    | _, _ => 0%nat
    end in
  let vol_pts :=
    match last_defined (vol20 s) with
    | Some m => two_if (fgt (volume_last s) (fmul m (Fin (volume_multiplier th))))
    | None => 0%nat
    end in
  [ mkRow "Fiyat > SMA200" p200_pts;
    mkRow "Fiyat > SMA50" p50_pts;
    mkRow "RSI(14)" rsi_pts;
    mkRow "MACD" macd_pts;
    mkRow "Hacim > 20G Ort." vol_pts ].

Definition sum_points (rows : list Row) : nat :=
  fold_left (fun acc r => (acc + Puan r)%nat) rows 0%nat.

(** The recommendation mapping; the labels are the source's:
    Güçlü Al = strong buy, Al = buy, Tut = hold, Sat = sell,
    Güçlü Sat = strong sell. *)
Definition recommend (total_points : nat) : string :=
  if (20 <=? total_points)%nat then "Güçlü Al"
  else if (16 <=? total_points)%nat then "Al"
  else if (12 <=? total_points)%nat then "Tut"
  else if (8 <=? total_points)%nat then "Sat"
  else "Güçlü Sat".

(** The scoring block of [analyze_single_stock]. *)
Definition score (sym : string) (th : Thresholds) (s : Snapshot) : outcome ScoreResult :=
  fundamental_breakdown <- fundamental_rows th s ;;
  let fundamental_points := sum_points fundamental_breakdown in
  let fundamental_points :=
    if (20 <? fundamental_points)%nat then 20%nat else fundamental_points in
  let technical_breakdown := technical_rows th s in
  let technical_points := sum_points technical_breakdown in
  let total_points := (fundamental_points + technical_points)%nat in
  Ok (mkScoreResult sym fundamental_points technical_points total_points
        (recommend total_points) fundamental_breakdown technical_breakdown
        (current_price s) (pe_ratio (fundamentals s)) (pb_ratio (fundamentals s))).

(** [series.ewm(span=span, adjust=False).mean()]: seeded with the first
    value, then [y = (1 - alpha) * y_prev + alpha * x], [alpha = 2/(span+1)]. *)
Fixpoint ewm_from (alpha prev : Q) (xs : list Q) : list Q :=
  match xs with
  | [] => []
  | x :: tl =>
      let y := (1 - alpha) * prev + alpha * x in
      y :: ewm_from alpha y tl
  end.

(** [_ema(series, span)]; pandas rejects a span below 1 and the handler
    returns [None]. *)
Definition _ema (series : list Q) (span : nat) : option (list Q) :=
  if (span <? 1)%nat then None
  else
    let alpha := 2 / (of_nat_Q span + 1) in
    Some (match series with
          | [] => []
          | x0 :: tl => x0 :: ewm_from alpha x0 tl
          end).

(** Element-wise difference of two aligned series. *)
Fixpoint sub_series (a b : list Q) : list Q :=
  match a, b with
  | x :: a', y :: b' => x - y :: sub_series a' b'
  | _, _ => []
  end.

(** [_macd(close_series)]: line, signal and histogram, or three [None]. *)
Definition _macd (close_series : list Q)
  : option (list Q) * option (list Q) * option (list Q) :=
  match _ema close_series 12, _ema close_series 26 with
  | Some ema12, Some ema26 =>
      let macd_line := sub_series ema12 ema26 in
      match _ema macd_line 9 with
      | Some signal => (Some macd_line, Some signal, Some (sub_series macd_line signal))
      | None => (None, None, None)
      end
  | _, _ => (None, None, None)
  end.

(** The growth rates [_avg_yoy_growth] collects: one for each consecutive
    pair whose earlier value is non-zero and above 1e-6 in absolute value. *)
Fixpoint yoy_growths (vals : list Q) : list Q :=
  match vals with
  | prev :: ((cur :: _) as tl) =>
      (if negb (Qzero_bool prev) && Qlt_bool 1e-6 (Qabs prev)
       then [(cur - prev) / Qabs prev] else [])
      ++ yoy_growths tl
  | _ => []
  end.

(** [_avg_yoy_growth(series_vals)]. *)
Definition _avg_yoy_growth (series_vals : option (list Q)) : pyfloat :=
  match series_vals with
  | None => None
  | Some vals =>
      if (length vals <? 3)%nat then None
      else
        match yoy_growths vals with
        | [] => None
        | growths => Some (Fin (Qmean growths * 100))
        end
  end.

(** The annual rows [analyze_single_stock] takes from the financial
    statements with [_last_n_annual]: each is [None] or a list of values. *)
Record Statements : Type := mkStatements
  { rev_vals : option (list Q); st_ni_vals : option (list Q);
    ca_vals : option (list Q); cl_vals : option (list Q);
    ocf_vals : option (list Q) }.

(** What the external providers return for one symbol: the price history
    ([None] for a failed or empty fetch), the [info] dict ([None] when
    reading it raises) and the statement rows. *)
Record Provider : Type := mkProvider
  { stock_data : string -> option DataFrame;
    ticker_info : string -> option Info;
    statements : string -> Statements }.

(** [vals[-1] if vals else None]. *)
Definition last_or_none (vals : option (list Q)) : pyfloat :=
  match vals with
  | None | Some [] => None
  | Some (x :: l) => Some (Fin (last (x :: l) 0))
  end.

(** EV/EBITDA: the reported ratio, else enterprise value over EBITDA when
    both are present and non-zero; [None] when reading [info] raises. *)
Definition ev_ebitda_of (info : option Info) : pyfloat :=
  match info with
  | None => None
  | Some info =>
      let ev_ebitda := enterpriseToEbitda info in
      if negb (truthy ev_ebitda) then
        match enterpriseValue info, ebitda info with
        | Some ev, Some eb =>
            if truthy (Some ev) && truthy (Some eb) && negb (fzero eb)
            then Some (fdiv ev eb) else ev_ebitda
        | _, _ => ev_ebitda
        end
      else ev_ebitda
  end.

(** Current ratio from the last current assets and liabilities. *)
Definition current_ratio_of (st : Statements) : pyfloat :=
  match last_or_none (ca_vals st), last_or_none (cl_vals st) with
  | Some ca, Some cl =>
      if truthy (Some ca) && truthy (Some cl) && negb (fzero cl)
      then Some (fdiv ca cl) else None
  | _, _ => None
  end.

(** [analyze_single_stock(symbol, period, scoring_params)]. *)
Definition analyze_single_stock (pv : Provider) (sym : string)
    (scoring_params : option dict) : outcome (option ScoreResult) :=
  let th := thresholds_of scoring_params in
  match get_fundamental_data (stock_data pv sym) (ticker_info pv sym) with
  | None => Ok None
  | Some fundamentals =>
      match stock_data pv sym with
      | None => Ok None
      | Some data =>
          if (length data <? 50)%nat then Ok None
          else
            let close := col Frame.close data in
            let volume := col Frame.volume data in
            let current_price := Fin (last close 0) in
            let sma50 := _sma (map Fin close) 50 in
            let sma200 :=
              if (200 <=? length close)%nat then _sma (map Fin close) 200 else None in
            let rsi := _calculate_rsi close 14 in
            let '(macd_line, macd_signal, macd_hist) := _macd close in
            let vol20 := rolling_mean 20 (map Fin volume) in
            let st := statements pv sym in
            let rev_growth_3y := _avg_yoy_growth (rev_vals st) in
            let ni_growth_3y := _avg_yoy_growth (st_ni_vals st) in
            r <- score sym th
                   (mkSnapshot fundamentals (ev_ebitda_of (ticker_info pv sym))
                      rev_growth_3y ni_growth_3y (current_ratio_of st)
                      (last_or_none (ocf_vals st)) (st_ni_vals st)
                      current_price sma200 sma50 rsi
                      (option_map (map Fin) macd_line)
                      (option_map (map Fin) macd_signal)
                      (Some vol20) (Fin (last volume 0))) ;;
            Ok (Some r)
      end
  end.

End Scoring.
Import Scoring.

(* ================================================================== *)
(** ** Vocabulary of the statements *)

Module Spec.

(** Every bar has a non-negative volume (the fetcher keeps [volume > 0]). *)
Definition volumes_nonneg (data : DataFrame) : Prop :=
  forall i, (i < length data)%nat -> 0 <= volume (row data i).

Definition strictly_rising (data : DataFrame) : Prop :=
  forall i, (S i < length data)%nat -> close (row data i) < close (row data (S i)).

Definition strictly_falling (data : DataFrame) : Prop :=
  forall i, (S i < length data)%nat -> close (row data (S i)) < close (row data i).


(** [j] is one of the [2w] neighbours of the candidate [i]. *)
Definition neighbour (w i j : nat) : Prop :=
  (i - w <= j)%nat /\ (j <= i + w)%nat /\ j <> i.

(** Extremum tests among the [2w + 1] centered bars. *)
Definition weak_max (s : list Q) (w i : nat) : Prop :=
  forall j, neighbour w i j -> iloc s j <= iloc s i.

Definition weak_min (s : list Q) (w i : nat) : Prop :=
  forall j, neighbour w i j -> iloc s i <= iloc s j.

Definition strict_max (s : list Q) (w i : nat) : Prop :=
  forall j, neighbour w i j -> iloc s j < iloc s i.

Definition strict_min (s : list Q) (w i : nat) : Prop :=
  forall j, neighbour w i j -> iloc s i < iloc s j.

(** [i] is an index that keeps [w] bars on either side. *)
Definition interior (s : list Q) (w i : nat) : Prop :=
  (w <= i)%nat /\ (i + w < length s)%nat.

(** A ratio lies within [tolerance] percent points of one of the targets. *)
Definition within (ratio : Q) (targets : list Q) (tolerance : Q) : Prop :=
  exists t, In t targets /\ Qabs (ratio - t) <= tolerance / 100.

(** A harmonic template in the spec's words: the ratios it requires, each
    with its admissible targets. *)
Definition Template := list ((Ratios -> Q) * list Q).

Definition gartley_template : Template :=
  [ (AB_XA, [0.618]); (BC_AB, [0.382; 0.886]);
    (CD_BC, [1.272; 1.618]); (AD_XA, [0.786]) ].




(** Every required ratio is within tolerance of one of its targets. *)
Definition template_matches (tpl : Template) (r : Ratios) (tolerance : Q) : Prop :=
  forall proj targets, In (proj, targets) tpl -> within (proj r) targets tolerance.

(** The rolling averages of gains and of losses [_calculate_rsi] divides. *)
Definition avg_gain (prices : list Q) (period i : nat) : fl :=
  rolling_mean_at period (map gain_of (diff prices)) i.

Definition avg_loss (prices : list Q) (period i : nat) : fl :=
  rolling_mean_at period (map loss_of (diff prices)) i.

Definition rising_prices (prices : list Q) : Prop :=
  forall i, (S i < length prices)%nat -> iloc prices i < iloc prices (S i).

(** Gain and loss of bar [j] as rationals: what [delta.where(delta > 0, 0)]
    and [-delta.where(delta < 0, 0)] hold at position [j] (the first delta
    is NaN and becomes 0). *)
Definition gain_at (prices : list Q) (j : nat) : Q :=
  match j with
  | O => 0
  | S k =>
      let d := iloc prices (S k) - iloc prices k in
      if Qlt_bool 0 d then d else 0
  end.

Definition loss_at (prices : list Q) (j : nat) : Q :=
  match j with
  | O => - 0
  | S k =>
      let d := iloc prices (S k) - iloc prices k in
      - (if Qlt_bool d 0 then d else 0)
  end.

(** A value is present and passes the comparison with the threshold. *)
Definition meets (op : fl -> fl -> bool) (v : pyfloat) (t : Q) : bool :=
  match v with Some x => op x (Fin t) | None => false end.

(** The percent form of a margin or return: a fraction below 1 is scaled by
    100, a missing value counts as 0. *)
Definition pct (v : pyfloat) : pyfloat :=
  match v with
  | Some x => if flt x (Fin 1) then Some (fmul x (Fin 100)) else Some x
  | None => Some (Fin 0)
  end.

(** The price is above the last value of a moving average that is defined. *)
Definition above (x : fl) (series : option (list fl)) : bool :=
  match last_defined series with
  | Some m => fgt x m
  | None => false
  end.

(** The last volume is above the defined 20-bar average times the factor. *)
Definition volume_above (th : Thresholds) (s : Snapshot) : bool :=
  match last_defined (vol20 s) with
  | Some m => fgt (volume_last s) (fmul m (Fin (volume_multiplier th)))
  | None => false
  end.

Definition macd_positive (s : Snapshot) : bool :=
  match macd_line s, macd_signal s with
  | Some ml, Some ms => fgt (last_fl ml) (last_fl ms)
  | _, _ => false
  end.

(** The snapshot meets the "excellent" bound of each of the ten fundamental
    and five technical criteria. *)
Definition all_excellent (th : Thresholds) (s : Snapshot) : bool :=
  let f := fundamentals s in
  meets fle (pe_ratio f) (pe_excellent th)
  && meets flt (pb_ratio f) (pb_excellent th)
  && meets flt (ev_ebitda s) 6
  && meets fge (pct (profit_margin f)) (margin_excellent th)
  && meets fge (rev_growth_3y s) 10
  && meets fge (ni_growth_3y s) 10
  && meets fge (pct (roe f)) (roe_excellent th)
  && meets flt (debt_equity_ratio f) (debt_excellent th)
  && meets fge (current_ratio s) 1.5
  && (meets fgt (ocf_last s) 0 && ni_positive (ni_vals s))
  && above (current_price s) (sma200 s)
  && above (current_price s) (sma50 s)
  && fge (rsi s) (Fin (rsi_good_max th))
  && macd_positive s
  && volume_above th s.

(** The snapshot meets neither the "excellent" nor the "good" bound of any
    criterion. *)
Definition meets_none (th : Thresholds) (s : Snapshot) : bool :=
  let f := fundamentals s in
  negb (meets fle (pe_ratio f) (pe_excellent th) || meets fle (pe_ratio f) (pe_good th))
  && negb (meets flt (pb_ratio f) (pb_excellent th) || meets fle (pb_ratio f) (pb_good th))
  && negb (meets flt (ev_ebitda s) 6 || meets fle (ev_ebitda s) 8)
  && negb (meets fge (pct (profit_margin f)) (margin_excellent th)
           || meets fge (pct (profit_margin f)) (margin_good th))
  && negb (meets fge (or_zero (rev_growth_3y s)) 10
           || meets fge (or_zero (rev_growth_3y s)) 5)
  && negb (meets fge (or_zero (ni_growth_3y s)) 10
           || meets fgt (or_zero (ni_growth_3y s)) 0)
  && negb (meets fge (pct (roe f)) (roe_excellent th)
           || meets fge (pct (roe f)) (roe_good th))
  && negb (meets flt (debt_equity_ratio f) (debt_excellent th)
           || meets fle (debt_equity_ratio f) (debt_good th))
  && negb (meets fge (or_zero (current_ratio s)) 1.5
           || meets fge (or_zero (current_ratio s)) 1.0)
  && negb (meets fgt (ocf_last s) 0)
  && negb (above (current_price s) (sma200 s))
  && negb (above (current_price s) (sma50 s))
  && negb (fge (rsi s) (Fin (rsi_good_max th))
           || (fle (Fin (rsi_good_min th)) (rsi s)
               && fle (rsi s) (Fin (rsi_good_max th))))
  && negb (macd_positive s)
  && negb (volume_above th s).

(** [2 if excellent else (1 if good else 0)] on truth values. *)
Definition tier_points (excellent good : bool) : nat :=
  if excellent then 2%nat else if good then 1%nat else 0%nat.

(** The points of the ten fundamental criteria, read off the snapshot. *)
Definition fundamental_points_of (th : Thresholds) (s : Snapshot) : list nat :=
  let f := fundamentals s in
  [ tier_points (meets fle (pe_ratio f) (pe_excellent th))
                (meets fle (pe_ratio f) (pe_good th));
    tier_points (meets flt (pb_ratio f) (pb_excellent th))
                (meets fle (pb_ratio f) (pb_good th));
    tier_points (meets flt (ev_ebitda s) 6) (meets fle (ev_ebitda s) 8);
    tier_points (meets fge (pct (profit_margin f)) (margin_excellent th))
                (meets fge (pct (profit_margin f)) (margin_good th));
    tier_points (meets fge (or_zero (rev_growth_3y s)) 10)
                (meets fge (or_zero (rev_growth_3y s)) 5);
    tier_points (meets fge (or_zero (ni_growth_3y s)) 10)
                (meets fgt (or_zero (ni_growth_3y s)) 0);
    tier_points (meets fge (pct (roe f)) (roe_excellent th))
                (meets fge (pct (roe f)) (roe_good th));
    tier_points (meets flt (debt_equity_ratio f) (debt_excellent th))
                (meets fle (debt_equity_ratio f) (debt_good th));
    tier_points (meets fge (or_zero (current_ratio s)) 1.5)
                (meets fge (or_zero (current_ratio s)) 1.0);
    tier_points (meets fgt (ocf_last s) 0 && ni_positive (ni_vals s))
                (meets fgt (ocf_last s) 0) ].

(** The points of the five technical criteria. *)
Definition technical_points_of (th : Thresholds) (s : Snapshot) : list nat :=
  [ two_if (above (current_price s) (sma200 s));
    two_if (above (current_price s) (sma50 s));
    tier_points (fge (rsi s) (Fin (rsi_good_max th)))
                (fle (Fin (rsi_good_min th)) (rsi s)
                 && fle (rsi s) (Fin (rsi_good_max th)));
    two_if (macd_positive s);
    two_if (volume_above th s) ].

(** The criteria of the fundamental table, in the order they are scored. *)
Definition fundamental_names : list string :=
  [ "F/K Oranı"; "PD/DD Oranı"; "FD/FAVÖK"; "Net Kâr Marjı (%)";
    "Satış Büyümesi 3Y (%)"; "Net Kâr Büyümesi 3Y (%)"; "ROE (%)";
    "Borç/Özkaynak"; "Cari Oran"; "Faaliyet Nakit Akımı" ]%string.

Definition rows_of (names : list string) (points : list nat) : list Row :=
  map (fun kp => mkRow (fst kp) (snd kp)) (combine names points).

(** The points a breakdown table awards for a criterion. *)
Fixpoint points_for (rows : list Row) (criterion : string) : option nat :=
  match rows with
  | [] => None
  | r :: rows' =>
      if String.eqb (Kriter r) criterion then Some (Puan r)
      else points_for rows' criterion
  end.

(** The results the per-item work returns, in the order of the items. *)
Definition succeeded {A R} (analyze : A -> outcome (option R)) (items : list A)
  : list R :=
  flat_map (fun x => match analyze x with Ok (Some r) => [r] | _ => [] end) items.

(** The item fails: its work raises or returns [None]. *)
Definition failed {A R} (analyze : A -> outcome (option R)) (x : A) : bool :=
  match analyze x with Ok (Some _) => false | _ => true end.

(** The lines the handler prints: one per item whose work raises. *)
Definition raised {A R} (analyze : A -> outcome (option R))
    (diagnostic : A -> string -> string) (items : list A) : list string :=
  flat_map (fun x => match analyze x with Raise e => [diagnostic x e] | _ => [] end)
    items.

(** The invariant of a cleaned frame: every bar has five positive columns
    and [low <= high]. *)
Definition well_formed_bar (b : Bar) : Prop :=
  0 < open b /\ 0 < high b /\ 0 < low b /\ 0 < close b /\ 0 < volume b
  /\ low b <= high b.

End Spec.
Import Spec.

(* ================================================================== *)
(** ** The dict [analyze_stock_volume] returns *)

Module ScanResult.

Record t : Type := mk
  { symbol : string;
    current_volume : fl;
    volume_sma : fl;
    volume_ma : fl;
    current_price : fl;
    volume_trend : string;
    volume_ratio : fl;
    volume_progression_check : bool;
    ema_short : fl;
    ema_long : fl;
    golden_cross : bool;
    golden_cross_recent : bool;
    macd_line : fl;
    macd_histogram : fl;
    macd_zero_breakout : bool;
    macd_zero_breakout_recent : bool;
    macd_histogram_positive : bool;
    sideways_movement : bool;
    vwap : fl;
    vwap_support_test : bool;
    vwap_breakout_recent : bool;
    rising_bottoms : bool;
    rsi : fl;
    obv : fl;
    triple_volume_confirmed : bool;
    rsi_in_range : bool;
    obv_at_peak : bool;
    triangle_detected : bool;
    volume_declined : bool;
    breakout_confirmed : bool;
    breakout_direction_correct : bool;
    rsi_divergence_detected : bool;
    rsi_oversold : bool;
    resistance_broken : bool;
    volume_confirmed_breakout : bool;
    bb_squeeze_detected : bool;
    upper_band_broken : bool;
    volume_confirmed_squeeze : bool;
    consecutive_upper_closes : bool;
    fib_retracement_detected : bool;
    harmonic_pattern_detected : bool;
    fib_support_confirmed : bool;
    volume_confirmed_fib : bool;
    data_points : nat;
    last_update : Z }.

(** The result with [last_update] set to [now]. *)
Definition with_time (now : Z) (r : t) : t :=
  mk (symbol r) (current_volume r) (volume_sma r) (volume_ma r) (current_price r)
     (volume_trend r) (volume_ratio r) (volume_progression_check r) (ema_short r)
     (ema_long r) (golden_cross r) (golden_cross_recent r) (macd_line r)
     (macd_histogram r) (macd_zero_breakout r) (macd_zero_breakout_recent r)
     (macd_histogram_positive r) (sideways_movement r) (vwap r)
     (vwap_support_test r) (vwap_breakout_recent r) (rising_bottoms r) (rsi r)
     (obv r) (triple_volume_confirmed r) (rsi_in_range r) (obv_at_peak r)
     (triangle_detected r) (volume_declined r) (breakout_confirmed r)
     (breakout_direction_correct r) (rsi_divergence_detected r) (rsi_oversold r)
     (resistance_broken r) (volume_confirmed_breakout r) (bb_squeeze_detected r)
     (upper_band_broken r) (volume_confirmed_squeeze r)
     (consecutive_upper_closes r) (fib_retracement_detected r)
     (harmonic_pattern_detected r) (fib_support_confirmed r)
     (volume_confirmed_fib r) (data_points r) now.

(** The result with its time stamp blanked. *)
Definition without_time (r : t) : t := with_time 0%Z r.

End ScanResult.

(* ================================================================== *)
(** ** Pattern scanners: [analyze_stock_volume] *)

Module Scanner.

(** The keyword arguments of [analyze_stock_volume]. *)
Record Params : Type := mkParams
  { period : string; interval : string;
    sma_period : nat; ema_short : nat; ema_long : nat; volume_period : nat;
    macd_fast : nat; macd_slow : nat; macd_signal : nat;
    sideways_days : nat; sideways_threshold : Q;
    vwap_period : nat; support_tolerance : Q; bottom_lookback : nat;
    volume_avg_period : nat; volume_multiplier_triple : Q;
    rsi_period : nat; rsi_min : Q; rsi_max : Q;
    obv_period : nat; obv_threshold : Q;
    triangle_period : nat; convergence_threshold : Q;
    volume_decline_period : nat; volume_decline_threshold : Q;
    breakout_volume_increase : Q; breakout_direction : string;
    divergence_period : nat; min_divergence_strength : Q;
    resistance_period : nat; resistance_breakout_percent : Q;
    volume_breakout_multiplier : Q; rsi_oversold_threshold : Q;
    bb_period : nat; bb_std_dev : Q; squeeze_period : nat;
    squeeze_percentile : Q; upper_band_breakout_percent : Q;
    volume_squeeze_multiplier : Q; consecutive_days : nat;
    fib_lookback_period : nat; fib_retracement_min : Q;
    fib_retracement_max : Q; fib_support_tolerance : Q;
    harmonic_pattern_type : string; harmonic_tolerance : Q;
    fib_volume_multiplier : Q; trend_strength_days : nat;
    periods_to_check : nat }.

(** The defaults of the signature. *)
Definition default_params : Params :=
  mkParams "5d" "1d" 10 50 200 20 12 26 9 5 2.0 20 1.0 10 20 2.0 14 60 70
    20 95 20 3.0 10 20 40 "Yukarı" 20 0.6 10 1.5 1.5 30 20 2.0 6 10 1.0 1.5 2
    50 38.2 50.0 2.0 "Otomatik" 5.0 1.3 10 3.

(** [series.ewm(span=span).mean()] with pandas' default [adjust=True]: the
    weighted mean with weights [(1 - alpha)^k], kept as a running numerator
    and denominator. *)
Fixpoint ewm_adjust_from (w num den : Q) (xs : list Q) : list Q :=
  match xs with
  | [] => []
  | x :: tl =>
      let num' := x + w * num in
      let den' := 1 + w * den in
      num' / den' :: ewm_adjust_from w num' den' tl
  end.

(** pandas raises [ValueError] for a span below 1. *)
Definition ewm_mean (span : nat) (xs : list Q) : option (list Q) :=
  if (span <? 1)%nat then None
  else Some (ewm_adjust_from (1 - 2 / (of_nat_Q span + 1)) 0 0 xs).

(** Reductions of a series of finite values: NaN on an empty series. *)
Definition fmean (l : list Q) : fl :=
  match l with [] => NaN | _ :: _ => Fin (Qmean l) end.

Definition Qmax (a b : Q) : Q := if Qlt_bool a b then b else a.
Definition Qmin (a b : Q) : Q := if Qlt_bool b a then b else a.

Definition fmax (l : list Q) : fl :=
  match l with [] => NaN | x :: l' => Fin (fold_left Qmax l' x) end.

Definition fmin (l : list Q) : fl :=
  match l with [] => NaN | x :: l' => Fin (fold_left Qmin l' x) end.

(** [series.min()] of a float series, NaN entries skipped. *)
Definition fmin_skipna (l : list fl) : fl :=
  fold_left
    (fun acc x =>
       if is_nan x then acc
       else if is_nan acc then x
       else if flt x acc then x else acc)
    l NaN.

(** [series.iloc[-k:]]: the last [k] entries, the whole series for [k = 0]. *)
Definition last_k {A} (l : list A) (k : nat) : list A :=
  if (k =? 0)%nat then l else tail l k.

(** [series.iloc[-(k+1):-1]]: the [k] entries before the last one. *)
Definition before_last {A} (l : list A) (k : nat) : list A :=
  slice l (length l - (k + 1)) (length l - 1).

(** [series.iloc[-i]] for [1 <= i <= len(series)]. *)
Definition from_end (s : list Q) (i : nat) : Q := iloc s (length s - i).

(** [_calculate_trend(values)]. *)
Fixpoint count_moves (values : list Q) : nat * nat :=
  match values with
  | prev :: ((cur :: _) as tl) =>
      let '(increases, decreases) := count_moves tl in
      if Qlt_bool prev cur then (S increases, decreases)
      else if Qlt_bool cur prev then (increases, S decreases)
      else (increases, decreases)
  | _ => (0%nat, 0%nat)
  end.

Definition _calculate_trend (values : list Q) : string :=
  if (length values <? 2)%nat then "Belirsiz"
  else
    let '(increases, decreases) := count_moves values in
    if (decreases <? increases)%nat then "Yükseliş"
    else if (increases <? decreases)%nat then "Düşüş"
    else "Yatay".

(** [all(values[i] > values[i-1])] over consecutive entries, as the loop
    with [break] computes it. *)
Fixpoint strictly_increasing (values : list Q) : bool :=
  match values with
  | prev :: ((cur :: _) as tl) =>
      if Qle_bool cur prev then false else strictly_increasing tl
  | _ => true
  end.

(** [all(values[i] >= values[i-1])]. *)
Fixpoint non_decreasing (values : list Q) : bool :=
  match values with
  | prev :: ((cur :: _) as tl) => Qle_bool prev cur && non_decreasing tl
  | _ => true
  end.

(** [_check_rising_bottoms(data, lookback_period)]. *)
Definition _check_rising_bottoms (data : DataFrame) (lookback_period : nat) : bool :=
  if (length data <? lookback_period + 5)%nat then false
  else
    let lows := col low (tail data (lookback_period + 5)) in
    let bottoms :=
      filter (fun i => Qlt_bool (iloc lows i) (iloc lows (i - 1))
                       && Qlt_bool (iloc lows i) (iloc lows (i + 1)))
             (seq 1 (length lows - 1 - 1)) in
    if (length bottoms <? 2)%nat then false
    else
      match tail bottoms 2 with
      | [b0; b1] => Qlt_bool (iloc lows b0) (iloc lows b1)
      | _ => false
      end.

(** [_detect_triangle_formation(data, period, convergence_threshold)]; the
    two trend slopes it computes are not used in the result. *)
Definition _detect_triangle_formation (data : DataFrame) (period : nat)
    (convergence_threshold : Q) : bool :=
  let recent_data := tail data period in
  if (length recent_data <? 10)%nat then false
  else
    let highs := col high recent_data in
    let lows := col low recent_data in
    let price_range_start := iloc highs 0 - iloc lows 0 in
    let price_range_end := last highs 0 - last lows 0 in
    if Qlt_bool 0 price_range_start then
      let convergence_percent :=
        (price_range_start - price_range_end) / price_range_start * 100 in
      Qle_bool convergence_threshold convergence_percent
    else false.

(** [_check_volume_decline(data, period, threshold)]. *)
Definition _check_volume_decline (data : DataFrame) (period : nat) (threshold : Q)
  : bool :=
  if (length data <? period)%nat then false
  else
    let recent := col volume (tail data period) in
    let early_volume := fmean (firstn (period / 2) recent) in
    let late_volume := fmean (tail recent (period / 2)) in
    if fgt early_volume (Fin 0) then
      let decline_percent :=
        fmul (fdiv (fsub early_volume late_volume) early_volume) (Fin 100) in
      fge decline_percent (Fin threshold)
    else false.

(** All but the last entry, [series.iloc[:-1]]. *)
Definition but_last {A} (l : list A) : list A := firstn (length l - 1) l.

(** [_check_breakout_with_volume(data, current_volume, threshold)]: the
    confirmation flag and the direction ("up", "down" or [None]). *)
Definition _check_breakout_with_volume (data : DataFrame) (current_volume : Q)
    (volume_increase_threshold : Q) : bool * option string :=
  if (length data <? 5)%nat then (false, None)
  else
    let recent_data := tail data 5 in
    let current_price := last (col close recent_data) 0 in
    let recent_volume_avg := fmean (but_last (col volume recent_data)) in
    let volume_breakout :=
      if fgt recent_volume_avg (Fin 0) then
        fge (fmul (fdiv (fsub (Fin current_volume) recent_volume_avg)
                        recent_volume_avg) (Fin 100))
            (Fin volume_increase_threshold)
      else false in
    let recent_high := fmax (but_last (col high recent_data)) in
    let recent_low := fmin (but_last (col low recent_data)) in
    if fgt (Fin current_price) recent_high then (volume_breakout && true, Some "up"%string)
    else if flt (Fin current_price) recent_low
         then (volume_breakout && true, Some "down"%string)
    else (volume_breakout && false, None).

(** [_find_local_minima] on a float series (the RSI column). *)
Definition local_minima_fl (series : list fl) (window : nat) : list nat :=
  filter
    (fun i => forallb (fun j => negb (fle (nth j series NaN) (nth i series NaN)))
                      (neighbours i window))
    (seq window (length series - window - window)).

(** [_detect_rsi_divergence(data, period, min_strength, rsi_period)]; [rsi]
    is the frame's RSI column. *)
Definition _detect_rsi_divergence (data : DataFrame) (rsi : list fl) (period : nat)
    (min_strength : Q) : bool :=
  if (length data <? period)%nat then false
  else
    let prices := col low (tail data period) in
    let rsi_values := tail rsi period in
    let price_lows := _find_local_minima prices 3 in
    let rsi_lows := local_minima_fl rsi_values 3 in
    if (length price_lows <? 2)%nat || (length rsi_lows <? 2)%nat then false
    else
      let last_price_low := iloc prices (last price_lows 0%nat) in
      let prev_price_low := iloc prices (nth (length price_lows - 2) price_lows 0%nat) in
      let last_rsi_low := nth (last rsi_lows 0%nat) rsi_values NaN in
      let prev_rsi_low := nth (nth (length rsi_lows - 2) rsi_lows 0%nat) rsi_values NaN in
      let price_divergence := Qlt_bool last_price_low prev_price_low in
      let rsi_divergence := fgt last_rsi_low prev_rsi_low in
      if price_divergence && rsi_divergence then
        let price_change :=
          fdiv (Fin (Qabs (last_price_low - prev_price_low))) (Fin prev_price_low) in
        let rsi_change :=
          fdiv (match fsub last_rsi_low prev_rsi_low with
                | Fin d => Fin (Qabs d)
                | NInf => PInf
                | x => x
                end) (Fin 100) in
        let divergence_strength :=
          if fgt price_change (Fin 0) then
            fdiv rsi_change (if fgt (Fin 0.001) price_change then Fin 0.001
                             else price_change)
          else Fin 0 in
        fge divergence_strength (Fin min_strength)
      else false.

(** [_check_resistance_breakout(data, period, breakout_percent)]. *)
Definition _check_resistance_breakout (data : DataFrame) (period : nat)
    (breakout_percent : Q) : bool :=
  if (length data <? period + 1)%nat then false
  else
    let resistance_level := fmax (col high (before_last data period)) in
    let current_price := last (col close data) 0 in
    let breakout_threshold :=
      fmul resistance_level (Fin (1 + breakout_percent / 100)) in
    fge (Fin current_price) breakout_threshold.

(** [_check_volume_confirmation_breakout(data, current_volume, multiplier)];
    [iloc[-6:-1]] is the five bars before the last one, fewer on a frame of
    five bars. *)
Definition _check_volume_confirmation_breakout (data : DataFrame)
    (current_volume : Q) (multiplier : Q) : bool :=
  if (length data <? 5)%nat then false
  else
    let avg_volume := fmean (col volume (before_last data 5)) in
    fge (Fin current_volume) (fmul avg_volume (Fin multiplier)).

(** [_detect_fibonacci_retracement(data, lookback, min, max, tolerance)].
    [idxmax]/[idxmin] give the first position of the extremum; on an empty
    window they raise and the handler returns [False]. *)
Fixpoint first_index_of (x : Q) (l : list Q) : nat :=
  match l with
  | [] => 0%nat
  | y :: l' => if Qeq_bool y x then 0%nat else S (first_index_of x l')
  end.

Definition _detect_fibonacci_retracement (data : DataFrame) (lookback_period : nat)
    (min_retracement max_retracement tolerance : Q) : bool :=
  if (length data <? lookback_period)%nat then false
  else
    let recent_data := tail data lookback_period in
    let highs := col high recent_data in
    let lows := col low recent_data in
    let closes := col close recent_data in
    match fmax highs, fmin lows with
    | Fin swing_high, Fin swing_low =>
        let swing_high_idx := first_index_of swing_high highs in
        let swing_low_idx := first_index_of swing_low lows in
        if (swing_low_idx <=? swing_high_idx)%nat then false
        else
          let price_range := swing_high - swing_low in
          let fib_382 := swing_high - price_range * 0.382 in
          let fib_500 := swing_high - price_range * 0.500 in
          let fib_618 := swing_high - price_range * 0.618 in
          let current_price := last closes 0 in
          let target_min_level := swing_high - price_range * min_retracement / 100 in
          let target_max_level := swing_high - price_range * max_retracement / 100 in
          let tolerance_range := price_range * tolerance / 100 in
          let near_382 := Qle_bool (Qabs (current_price - fib_382)) tolerance_range in
          let near_500 := Qle_bool (Qabs (current_price - fib_500)) tolerance_range in
          let near_618 := Qle_bool (Qabs (current_price - fib_618)) tolerance_range in
          let in_range := Qle_bool target_max_level current_price
                          && Qle_bool current_price target_min_level in
          let near_fib_level := near_382 || near_500 || near_618 in
          in_range && near_fib_level
    | _, _ => false
    end.

(** [_check_fibonacci_support(data, lookback, min, max, tolerance)]. *)
Definition _check_fibonacci_support (data : DataFrame) (lookback_period : nat) : bool :=
  if (length data <? lookback_period + 5)%nat then false
  else
    let recent_data := tail data 10 in
    let lows := col low recent_data in
    let closes := col close recent_data in
    let recent_lows := tail lows 5 in
    let higher_lows := non_decreasing recent_lows in
    let current_price := last closes 0 in
    let price_recovery := fgt (Fin current_price) (fmul (fmin lows) (Fin 1.01)) in
    higher_lows && price_recovery.

Section Bollinger.

(** The square root of floating-point arithmetic, which has no exact
    counterpart on rationals; the three Bollinger checks are stated for any
    such function. *)
Variable sqrt : Q -> Q.

(** [series.rolling(window=w).std()] (sample standard deviation). *)
Definition rolling_std_at (w : nat) (s : list Q) (i : nat) : fl :=
  if (w =? 0)%nat || (i + 1 <? w)%nat || (w =? 1)%nat then NaN
  else
    let win := slice s (i + 1 - w) (i + 1) in
    let m := Qmean win in
    Fin (sqrt (Qsum (map (fun x => (x - m) * (x - m)) win) / of_nat_Q (w - 1))).

(** [sma + std * std_dev] at index [i]. *)
Definition upper_band_at (close : list Q) (period : nat) (std_dev : Q) (i : nat) : fl :=
  fadd (rolling_mean_at period (map Fin close) i)
       (fmul (rolling_std_at period close i) (Fin std_dev)).

Definition lower_band_at (close : list Q) (period : nat) (std_dev : Q) (i : nat) : fl :=
  fsub (rolling_mean_at period (map Fin close) i)
       (fmul (rolling_std_at period close i) (Fin std_dev)).

Definition band_width_at (close : list Q) (period : nat) (std_dev : Q) (i : nat) : fl :=
  fmul (fdiv (fsub (upper_band_at close period std_dev i)
                   (lower_band_at close period std_dev i))
             (rolling_mean_at period (map Fin close) i))
       (Fin 100).

(** Ascending insertion sort of the values that are not NaN. *)
Fixpoint insert_fl (x : fl) (l : list fl) : list fl :=
  match l with
  | [] => [x]
  | y :: l' => if fle x y then x :: l else y :: insert_fl x l'
  end.

Definition sort_fl (l : list fl) : list fl :=
  fold_right insert_fl [] (filter (fun x => negb (is_nan x)) l).

(** [series.quantile(q)] with linear interpolation, NaN entries dropped;
    NaN on an empty series. *)
Definition quantile (l : list fl) (q : Q) : fl :=
  let vals := sort_fl l in
  match vals with
  | [] => NaN
  | _ :: _ =>
      let pos := q * of_nat_Q (length vals - 1) in
      let lo := Z.to_nat (Qfloor pos) in
      let frac := pos - inject_Z (Qfloor pos) in
      let a := nth lo vals NaN in
      let b := nth (Nat.min (lo + 1) (length vals - 1)) vals NaN in
      if Qzero_bool frac then a
      else fadd a (fmul (fsub b a) (Fin frac))
  end.

(** [_detect_bollinger_squeeze(data, period, std_dev, squeeze_months,
    percentile)]; a quantile outside [0, 1] raises and gives [False]. *)
Definition _detect_bollinger_squeeze (data : DataFrame) (period : nat) (std_dev : Q)
    (squeeze_months : nat) (percentile : Q) : bool :=
  if (length data <? period * 22 * squeeze_months)%nat then false
  else
    let close_prices := col close data in
    let band_width :=
      map (band_width_at close_prices period std_dev) (seq 0 (length data)) in
    let squeeze_days := (squeeze_months * 22)%nat in
    let historical_width :=
      if (squeeze_days <=? length band_width)%nat then last_k band_width squeeze_days
      else band_width in
    match band_width with
    | [] => false
    | _ :: _ =>
        let current_width := last_fl band_width in
        let q := percentile / 100 in
        if Qlt_bool q 0 || Qlt_bool 1 q then false
        else fle current_width (quantile historical_width q)
    end.

(** [_check_upper_band_breakout(data, period, std_dev, breakout_percent)]. *)
Definition _check_upper_band_breakout (data : DataFrame) (period : nat) (std_dev : Q)
    (breakout_percent : Q) : bool :=
  if (length data <? period)%nat then false
  else
    match data with
    | [] => false
    | _ :: _ =>
        let close_prices := col close data in
        let upper_band := upper_band_at close_prices period std_dev (length data - 1) in
        let current_price := last close_prices 0 in
        let breakout_threshold := fmul upper_band (Fin (1 + breakout_percent / 100)) in
        fge (Fin current_price) breakout_threshold
    end.

(** [_check_consecutive_upper_closes(data, period, std_dev, days)]: the
    running count is reset by a close below 98% of the upper band. *)
Definition _check_consecutive_upper_closes (data : DataFrame) (period : nat)
    (std_dev : Q) (days : nat) : bool :=
  if (length data <? Nat.max period days)%nat then false
  else
    let close_prices := col close data in
    let n := length data in
    let recent := last_k (seq 0 n) days in
    let consecutive_count :=
      fold_left
        (fun count i =>
           if fge (Fin (iloc close_prices i))
                  (fmul (upper_band_at close_prices period std_dev i) (Fin 0.98))
           then S count else 0%nat)
        recent 0%nat in
    (days <=? consecutive_count)%nat.

End Bollinger.

(** [a] crossed above [b] within the last five bars: for some [i] in
    [range(1, min(6, len))], [a[-(i+1)] <= b[-(i+1)]] and [a[-i] > b[-i]]. *)
Definition crossed_above (a b : list Q) : bool :=
  existsb
    (fun i => Qle_bool (from_end a (i + 1)) (from_end b (i + 1))
              && Qlt_bool (from_end b i) (from_end a i))
    (seq 1 (Nat.min 6 (length a) - 1)).

(** Decimal digits of a natural number, as an f-string prints it. *)
Definition str_of_nat (n : nat) : string := NilEmpty.string_of_uint (Nat.to_uint n).

Section Analyze.

Variable sqrt : Q -> Q.

(** The body of [analyze_stock_volume] once the frame is fetched: [None]
    stands for the [return None] statements and for an exception caught by
    the handler around the whole body.  [now] is the value of
    [datetime.now()] at the call. *)
Definition analyze_frame (now : Z) (sym : string) (p : Params) (data : DataFrame)
  : option ScanResult.t :=
  if (length data <? sma_period p)%nat then None
  else
    let volumes := col volume data in
    let closes := col close data in
    let volume_sma_col := rolling_mean (sma_period p) (map Fin volumes) in
    match ewm_mean (ema_short p) closes, ewm_mean (ema_long p) closes,
          ewm_mean (macd_fast p) closes, ewm_mean (macd_slow p) closes with
    | Some ema_short_col, Some ema_long_col, Some macd_ema_fast, Some macd_ema_slow =>
      let volume_ma_col := rolling_mean (volume_period p) (map Fin volumes) in
      let macd_line_col := sub_series macd_ema_fast macd_ema_slow in
      match ewm_mean (macd_signal p) macd_line_col with
      | None => None
      | Some macd_signal_col =>
        let macd_histogram_col := sub_series macd_line_col macd_signal_col in
        let vwap_col := _calculate_vwap data (vwap_period p) in
        let rsi_value := Scoring._calculate_rsi closes (rsi_period p) in
        let rsi_col := map (fun _ => rsi_value) data in
        let obv_col := _calculate_obv data in
        match data with
        | [] => None
        | _ :: _ =>
          let n := length data in
          let current_volume := last volumes 0 in
          let volume_sma := last_fl volume_sma_col in
          let current_price := last closes 0 in
          let ema_short_current := last ema_short_col 0 in
          let ema_long_current := last ema_long_col 0 in
          let volume_ma_current := last_fl volume_ma_col in
          let macd_line_current := last macd_line_col 0 in
          let macd_histogram_current := last macd_histogram_col 0 in
          let vwap_current := last vwap_col 0 in
          let rsi_current := last_fl rsi_col in
          let obv_current := last obv_col 0 in
          (* volume progression *)
          let required_periods := (periods_to_check p + 1)%nat in
          let '(volume_progression_check, volume_trend) :=
            if (required_periods <=? n)%nat then
              if strictly_increasing (tail volumes required_periods)
              then (true, (str_of_nat (periods_to_check p) ++ " Periyot Artış ✓")%string)
              else (false, "Artış Yok ✗"%string)
            else if (3 <=? n)%nat then (false, _calculate_trend (tail volumes 3))
            else (false, "Yetersiz Veri"%string) in
          (* EMA golden cross *)
          let '(golden_cross, golden_cross_recent) :=
            if (Nat.max (ema_short p) (ema_long p) + 5 <=? n)%nat then
              (Qlt_bool ema_long_current ema_short_current,
               crossed_above ema_short_col ema_long_col)
            else (false, false) in
          (* MACD zero-line breakout *)
          let macd_histogram_positive := Qlt_bool 0 macd_histogram_current in
          let '(macd_zero_breakout, macd_zero_breakout_recent) :=
            if (Nat.max (macd_fast p) (macd_slow p) + macd_signal p + 5 <=? n)%nat then
              (Qlt_bool 0 macd_line_current,
               crossed_above macd_line_col (map (fun _ => 0) macd_line_col))
            else (false, false) in
          (* sideways movement *)
          let sideways_movement :=
            if (sideways_days p + 5 <=? n)%nat then
              let sideways_period := tail closes (sideways_days p + 1) in
              if (1 <? length sideways_period)%nat then
                let price_max := fmax sideways_period in
                let price_min := fmin sideways_period in
                fle (fmul (fdiv (fsub price_max price_min) price_min) (Fin 100))
                    (Fin (sideways_threshold p))
              else false
            else false in
          (* VWAP support test and rising bottoms *)
          let '(vwap_support_test, vwap_breakout_recent, rising_bottoms) :=
            if (vwap_period p + bottom_lookback p <=? n)%nat then
              let recent_data := tail data 10 in
              let recent_vwap := tail vwap_col 10 in
              let m := length recent_data in
              let vwap_below_count :=
                length
                  (filter
                     (fun i => Qlt_bool (low (row recent_data i))
                                 (iloc recent_vwap i * (1 - support_tolerance p / 100)))
                     (seq 0 m)) in
              let vwap_above_recent :=
                existsb
                  (fun i => (m - 3 <=? i)%nat
                            && Qlt_bool (iloc recent_vwap i) (close (row recent_data i)))
                  (seq 0 m) in
              ((0 <? vwap_below_count)%nat && vwap_above_recent,
               Qlt_bool vwap_current current_price,
               _check_rising_bottoms data (bottom_lookback p))
            else (false, false, false) in
          (* triple volume confirmation *)
          let '(triple_volume_confirmed, rsi_in_range, obv_at_peak) :=
            if (Nat.max (volume_avg_period p) (Nat.max (rsi_period p) (obv_period p))
                <=? n)%nat then
              let volume_ma_triple := fmean (tail volumes (volume_avg_period p)) in
              let obv_period_data := tail obv_col (obv_period p) in
              let obv_percentile :=
                fmul (fdiv (fsub (Fin obv_current) (fmin obv_period_data))
                           (fsub (fmax obv_period_data) (fmin obv_period_data)))
                     (Fin 100) in
              (fge (Fin current_volume)
                   (fmul volume_ma_triple (Fin (volume_multiplier_triple p))),
               fle (Fin (rsi_min p)) rsi_current && fle rsi_current (Fin (rsi_max p)),
               fge obv_percentile (Fin (obv_threshold p)))
            else (false, false, false) in
          (* triangle breakout *)
          let '(triangle_detected, volume_declined, breakout_confirmed,
                breakout_direction_correct) :=
            if (triangle_period p <=? n)%nat then
              let '(confirmed, detected) :=
                _check_breakout_with_volume data current_volume
                  (breakout_volume_increase p) in
              let is_dir d :=
                match detected with Some x => String.eqb x d | None => false end in
              (_detect_triangle_formation data (triangle_period p)
                 (convergence_threshold p),
               _check_volume_decline data (volume_decline_period p)
                 (volume_decline_threshold p),
               confirmed,
               if String.eqb (breakout_direction p) "Her İkisi" then confirmed
               else if String.eqb (breakout_direction p) "Yukarı"
                    then confirmed && is_dir "up"%string
               else if String.eqb (breakout_direction p) "Aşağı"
                    then confirmed && is_dir "down"%string
               else false)
            else (false, false, false, false) in
          (* RSI divergence and resistance breakout *)
          let '(rsi_divergence_detected, rsi_oversold, resistance_broken,
                volume_confirmed_breakout) :=
            if (divergence_period p <=? n)%nat then
              (_detect_rsi_divergence data rsi_col (divergence_period p)
                 (min_divergence_strength p),
               fle (fmin_skipna (last_k rsi_col (divergence_period p)))
                   (Fin (rsi_oversold_threshold p)),
               _check_resistance_breakout data (resistance_period p)
                 (resistance_breakout_percent p),
               _check_volume_confirmation_breakout data current_volume
                 (volume_breakout_multiplier p))
            else (false, false, false, false) in
          (* Bollinger squeeze and breakout *)
          let '(bb_squeeze_detected, upper_band_broken, volume_confirmed_squeeze,
                consecutive_upper_closes) :=
            if (bb_period p <=? n)%nat then
              (_detect_bollinger_squeeze sqrt data (bb_period p) (bb_std_dev p)
                 (squeeze_period p) (squeeze_percentile p),
               _check_upper_band_breakout sqrt data (bb_period p) (bb_std_dev p)
                 (upper_band_breakout_percent p),
               _check_volume_confirmation_breakout data current_volume
                 (volume_squeeze_multiplier p),
               _check_consecutive_upper_closes sqrt data (bb_period p) (bb_std_dev p)
                 (consecutive_days p))
            else (false, false, false, false) in
          (* Fibonacci retest and harmonic pattern *)
          let '(fib_retracement_detected, harmonic_pattern_detected,
                fib_support_confirmed, volume_confirmed_fib) :=
            if (fib_lookback_period p <=? n)%nat then
              (_detect_fibonacci_retracement data (fib_lookback_period p)
                 (fib_retracement_min p) (fib_retracement_max p)
                 (fib_support_tolerance p),
               _detect_harmonic_pattern data (harmonic_pattern_type p)
                 (harmonic_tolerance p) (fib_lookback_period p),
               _check_fibonacci_support data (fib_lookback_period p),
               _check_volume_confirmation_breakout data current_volume
                 (fib_volume_multiplier p))
            else (false, false, false, false) in
          (* validate data *)
          if isna (Fin current_volume) || isna volume_sma || fzero volume_sma then None
          else
            Some (ScanResult.mk sym (Fin current_volume) volume_sma volume_ma_current
                    (Fin current_price) volume_trend
                    (fdiv (Fin current_volume) volume_sma)
                    volume_progression_check (Fin ema_short_current)
                    (Fin ema_long_current) golden_cross golden_cross_recent
                    (Fin macd_line_current) (Fin macd_histogram_current)
                    macd_zero_breakout macd_zero_breakout_recent
                    macd_histogram_positive sideways_movement (Fin vwap_current)
                    vwap_support_test vwap_breakout_recent rising_bottoms
                    rsi_current (Fin obv_current) triple_volume_confirmed
                    rsi_in_range obv_at_peak triangle_detected volume_declined
                    breakout_confirmed breakout_direction_correct
                    rsi_divergence_detected rsi_oversold resistance_broken
                    volume_confirmed_breakout bb_squeeze_detected upper_band_broken
                    volume_confirmed_squeeze consecutive_upper_closes
                    fib_retracement_detected harmonic_pattern_detected
                    fib_support_confirmed volume_confirmed_fib n now)
        end
      end
    | _, _, _, _ => None
    end.

(** [analyze_stock_volume(symbol, ...)]: [fetched] is what
    [data_fetcher.get_stock_data(symbol, period, interval)] returns. *)
Definition analyze_stock_volume (now : Z) (fetched : option DataFrame)
    (sym : string) (p : Params) : option ScanResult.t :=
  match fetched with
  | None => None
  | Some data => analyze_frame now sym p data
  end.

End Analyze.

End Scanner.

(* ================================================================== *)
(** ** Scan orchestrator *)

Module Orchestrator.

Section Loop.

Context {A R : Type}.

(** The per-item work inside the [try]: it raises, returns [None] or
    returns a result. *)
Variable analyze : A -> outcome (option R).
(** The filter applied to a result before it is appended. *)
Variable keep : R -> bool.
(** The line printed by the [except] branch. *)
Variable diagnostic : A -> string -> string.

(** One iteration of the [for] loop: the state is the list [results] and
    the lines printed so far. *)
Definition scan_step (st : list R * list string) (item : A) : list R * list string :=
  let '(results, printed) := st in
  match analyze item with
  | Ok (Some r) => if keep r then (results ++ [r], printed) else (results, printed)
  | Ok None => (results, printed)
  | Raise e => (results, printed ++ [diagnostic item e])
  end.

Definition scan_loop (items : list A) : list R * list string :=
  fold_left scan_step items ([], []).

(** [results.sort(key=..., reverse=True)]: a stable descending sort;
    [gt a b] says the key of [a] is greater than the key of [b]. *)
Variable gt : R -> R -> bool.

Fixpoint insert_desc (x : R) (l : list R) : list R :=
  match l with
  | [] => [x]
  | y :: l' => if gt y x then y :: insert_desc x l' else x :: l
  end.

Definition sort_desc (l : list R) : list R := fold_right insert_desc [] l.

End Loop.

(** The filter and the diagnostic line of [batch_analyze]. *)
Definition volume_keep (min_volume_ratio : Q) (analysis : ScanResult.t) : bool :=
  fge (ScanResult.volume_ratio analysis) (Fin min_volume_ratio).

Definition batch_diagnostic (sym e : string) : string :=
  ("Error in batch analysis for " ++ sym ++ ": " ++ e)%string.

Definition volume_ratio_gt (a b : ScanResult.t) : bool :=
  fgt (ScanResult.volume_ratio a) (ScanResult.volume_ratio b).

(** [batch_analyze(symbols, period, interval, sma_period, min_volume_ratio)];
    [analyze] is the call [self.analyze_stock_volume(symbol, period,
    interval, sma_period)]. *)
Definition batch_analyze (analyze : string -> outcome (option ScanResult.t))
    (symbols : list string) (min_volume_ratio : Q)
  : list ScanResult.t * list string :=
  let '(results, printed) :=
    scan_loop analyze (volume_keep min_volume_ratio) batch_diagnostic symbols in
  (sort_desc volume_ratio_gt results, printed).

(** The key [(total_points, fundamental_points)], compared as tuples. *)
Definition score_gt (a b : ScoreResult) : bool :=
  (total_points b <? total_points a)%nat
  || ((total_points a =? total_points b)%nat
      && (fundamental_points b <? fundamental_points a)%nat).

(** The body of the [try] of [analyze_stocks_comprehensive] for the item
    [(idx, symbol)]: the optional progress callback, then the analysis. *)
Definition comprehensive_item
    (analyze : string -> outcome (option ScoreResult))
    (progress_callback : option (nat -> nat -> string -> outcome unit))
    (total : nat) (item : nat * string) : outcome (option ScoreResult) :=
  _ <- match progress_callback with
       | Some f => f (fst item) total (snd item)
       | None => Ok tt
       end ;;
  analyze (snd item).

(** The filter and the diagnostic line of [analyze_stocks_comprehensive]. *)
Definition points_keep (min_total_points : nat) (res : ScoreResult) : bool :=
  (min_total_points <=? total_points res)%nat.

Definition comprehensive_diagnostic (item : nat * string) (e : string) : string :=
  ("Comprehensive scan error on " ++ snd item ++ ": " ++ e)%string.

(** [len(stocks) if limit is None else min(limit, len(stocks))]. *)
Definition scan_total (stocks : list string) (limit : option nat) : nat :=
  match limit with
  | None => length stocks
  | Some l => Nat.min l (length stocks)
  end.

(** [enumerate(stocks[:total], start=1)]. *)
Definition enumerate_from_1 (stocks : list string) (total : nat)
  : list (nat * string) :=
  combine (seq 1 total) (firstn total stocks).

(** [analyze_stocks_comprehensive(period, min_total_points,
    progress_callback, limit, sleep_sec, scoring_params)]; [stocks] is what
    [self.get_bist_stocks()] returns and [analyze] is the call
    [self.analyze_single_stock(symbol, period, scoring_params)]. *)
Definition analyze_stocks_comprehensive (stocks : list string)
    (analyze : string -> outcome (option ScoreResult))
    (min_total_points : nat)
    (progress_callback : option (nat -> nat -> string -> outcome unit))
    (limit : option nat) : list ScoreResult * list string :=
  match stocks with
  | [] => ([], [])
  | _ :: _ =>
      let total := scan_total stocks limit in
      let '(results, printed) :=
        scan_loop (comprehensive_item analyze progress_callback total)
          (points_keep min_total_points) comprehensive_diagnostic
          (enumerate_from_1 stocks total) in
      (sort_desc score_gt results, printed)
  end.

End Orchestrator.
Import Orchestrator.

(* ================================================================== *)
(** ** Scan criteria of the user interface ([src/app.py]) *)

Module App.

(** The keyword arguments that decide [criteria_met] in
    [apply_scan_criteria]; an absent key is [None]. *)
Record Kwargs : Type := mkKwargs
  { volume_threshold : option Q;
    volume_confirmation : option bool;
    vol_confirm_vwap : option bool;
    vol_multiplier_vwap : option Q }.

(** [kwargs.get(key, default)]. *)
Definition kwargs_get {A} (v : option A) (default : A) : A :=
  match v with Some x => x | None => default end.

(** [volume_ratio >= min_volume_multiplier and volume_progression]. *)
Definition both_criteria (volume_ratio : fl) (volume_progression : bool)
    (min_volume_multiplier : Q) : bool :=
  fge volume_ratio (Fin min_volume_multiplier) && volume_progression.

(** [apply_scan_criteria(analysis, volume_ratio, volume_progression,
    min_volume_multiplier, scan_type, stock, **kwargs)]: the flag
    [criteria_met] it returns.  The row of formatted strings returned with
    it does not enter the decision and is left out. *)
Definition apply_scan_criteria (analysis : ScanResult.t) (volume_ratio : fl)
    (volume_progression : bool) (min_volume_multiplier : Q) (scan_type : string)
    (kwargs : Kwargs) : bool :=
  if String.eqb scan_type "3_period_increase" then
    both_criteria volume_ratio volume_progression min_volume_multiplier
  else if String.eqb scan_type "ema_golden_cross" then
    let volume_threshold := kwargs_get (volume_threshold kwargs) 50 in
    let volume_ma := ScanResult.volume_ma analysis in
    let current_volume := ScanResult.current_volume analysis in
    let volume_explosion :=
      if fgt volume_ma (Fin 0) then
        fge (fmul (fdiv (fsub current_volume volume_ma) volume_ma) (Fin 100))
            (Fin volume_threshold)
      else false in
    ScanResult.golden_cross_recent analysis && volume_explosion
  else if String.eqb scan_type "macd_zero_breakout" then
    let volume_ok :=
      if kwargs_get (volume_confirmation kwargs) true
      then fge volume_ratio (Fin 1.2) else true in
    ScanResult.macd_zero_breakout_recent analysis
    && ScanResult.macd_histogram_positive analysis
    && ScanResult.sideways_movement analysis && volume_ok
  else if String.eqb scan_type "vwap_support_test" then
    let volume_ok_vwap :=
      if kwargs_get (vol_confirm_vwap kwargs) true
      then fge volume_ratio (Fin (kwargs_get (vol_multiplier_vwap kwargs) 1.5))
      else true in
    ScanResult.vwap_support_test analysis
    && ScanResult.vwap_breakout_recent analysis
    && ScanResult.rising_bottoms analysis && volume_ok_vwap
  else if String.eqb scan_type "triple_volume_confirmation" then
    ScanResult.triple_volume_confirmed analysis
    && ScanResult.rsi_in_range analysis && ScanResult.obv_at_peak analysis
  else if String.eqb scan_type "triangle_breakout" then
    ScanResult.triangle_detected analysis
    && ScanResult.volume_declined analysis
    && ScanResult.breakout_direction_correct analysis
  else if String.eqb scan_type "rsi_divergence_breakout" then
    ScanResult.rsi_divergence_detected analysis
    && ScanResult.rsi_oversold analysis
    && ScanResult.resistance_broken analysis
    && ScanResult.volume_confirmed_breakout analysis
  else if String.eqb scan_type "bollinger_squeeze_breakout" then
    ScanResult.bb_squeeze_detected analysis
    && ScanResult.upper_band_broken analysis
    && ScanResult.volume_confirmed_squeeze analysis
    && ScanResult.consecutive_upper_closes analysis
  else if String.eqb scan_type "fibonacci_harmonic_pattern" then
    ScanResult.fib_retracement_detected analysis
    && ScanResult.harmonic_pattern_detected analysis
    && ScanResult.fib_support_confirmed analysis
    && ScanResult.volume_confirmed_fib analysis
  else if String.eqb scan_type "future_scan_3" then false
  else both_criteria volume_ratio volume_progression min_volume_multiplier.

(** The body of the loop of [run_analysis] for one symbol, given what
    [analyze_stock_volume] returned for it: whether a row is appended to
    [results]. *)
Definition run_analysis_selects (analysis : option ScanResult.t)
    (min_volume_multiplier : Q) (scan_type : string) (kwargs : Kwargs) : bool :=
  match analysis with
  | None => false
  | Some a =>
      if fgt (ScanResult.current_volume a) (Fin 0) then
        let volume_ratio :=
          fdiv (ScanResult.current_volume a) (ScanResult.volume_sma a) in
        let volume_progression := ScanResult.volume_progression_check a in
        apply_scan_criteria a volume_ratio volume_progression
          min_volume_multiplier scan_type kwargs
      else false
  end.

End App.
Import App.

(* ================================================================== *)
(** ** Summary statistics of a batch *)

Module Summary.







End Summary.
Import Summary.

(* ================================================================== *)
(** ** Fundamental screen *)

Module Screen.

(** The entries of the dict [get_fundamental_data] returns that the screen
    reads: the price-derived figures, the market capitalisation and the
    ratios taken from [info]. *)
Record MarketData : Type := mkMarketData
  { md_symbol : string;
    md_price : fl;
    avg_volume : fl;
    price_change_1m : fl;
    price_change_3m : fl;
    price_change_6m : fl;
    market_cap_est : fl;
    ratios : Fundamentals }.

(** [((current_price - close.iloc[-k]) / close.iloc[-k] * 100)
     if len(data) > k else 0]. *)
Definition price_change (close : list Q) (k : nat) : fl :=
  if (k <? length close)%nat then
    let current_price := Fin (last close 0) in
    let past := Fin (Scanner.from_end close k) in
    fmul (fdiv (fsub current_price past) past) (Fin 100)
  else Fin 0.

(** [get_fundamental_data(symbol, period)] with every entry the screen
    reads; [data] and [info] are what the two providers return. *)
Definition get_fundamental_data (symbol : string) (data : option DataFrame)
    (info : option Info) : option MarketData :=
  match data with
  | None => None
  | Some [] => None
  | Some (b :: d) =>
      let close := col Frame.close (b :: d) in
      let current_price := Fin (last close 0) in
      match info, fundamentals_of_info info with
      | Some i, Some f =>
          let market_cap := marketCap i in
          let cap :=
            match market_cap with
            | Some m => if truthy market_cap && fgt m (Fin 0) then m
                        else fmul current_price (Fin 1000000)
            | None => fmul current_price (Fin 1000000)
            end in
          Some (mkMarketData symbol current_price
                  (Scanner.fmean (col Frame.volume (b :: d)))
                  (price_change close 22) (price_change close 66)
                  (price_change close 132) cap f)
      | _, _ => None
      end
  end.

(** [lo <= v <= hi]; a missing value makes the comparison raise, which the
    handler of [_passes_fundamental_criteria] turns into [False]. *)
Definition between (lo : Q) (v : pyfloat) (hi : Q) : bool :=
  match v with
  | Some x => fle (Fin lo) x && fle x (Fin hi)
  | None => false
  end.

Definition at_most (v : pyfloat) (hi : Q) : bool :=
  match v with Some x => fle x (Fin hi) | None => false end.

Definition at_least (v : pyfloat) (lo : Q) : bool :=
  match v with Some x => fge x (Fin lo) | None => false end.

(** [_passes_fundamental_criteria(data, scan_type, params)]. *)
Definition _passes_fundamental_criteria (data : MarketData) (scan_type : string)
    (params : dict) : bool :=
  let f := ratios data in
  let market_cap := market_cap_est data in
  let min_market_cap := get params "min_market_cap" 100 * 1000000 in
  let max_market_cap := get params "max_market_cap" 100000 * 1000000 in
  if flt market_cap (Fin min_market_cap) || fgt market_cap (Fin max_market_cap)
  then false
  else if String.eqb scan_type "low_pe" then
    between (get params "min_pe" 0) (pe_ratio f) (get params "max_pe" 15)
  else if String.eqb scan_type "high_roe" then
    between (get params "min_roe" 15) (roe f) (get params "max_roe" 100)
  else if String.eqb scan_type "low_pb" then
    between (get params "min_pb" 0) (pb_ratio f) (get params "max_pb" 2)
  else if String.eqb scan_type "dividend" then
    between (get params "min_dividend" 3) (dividend_yield f)
      (get params "max_dividend" 20)
  else if String.eqb scan_type "low_debt" then
    between (get params "min_debt_equity" 0) (debt_equity_ratio f)
      (get params "max_debt_equity" 1)
  else if String.eqb scan_type "revenue_growth" then
    between (get params "min_revenue_growth" 10) (revenue_growth f)
      (get params "max_revenue_growth" 50)
  else if String.eqb scan_type "profit_margin" then
    between (get params "min_profit_margin" 10) (profit_margin f)
      (get params "max_profit_margin" 40)
  else if String.eqb scan_type "combined_value" then
    at_most (pe_ratio f) (get params "max_pe" 15)
    && at_most (pb_ratio f) (get params "max_pb" 2)
    && at_least (roe f) (get params "min_roe" 15)
    && at_most (debt_equity_ratio f) (get params "max_debt_equity" 1)
  else if String.eqb scan_type "high_volume" then
    fge (avg_volume data) (Fin (get params "min_volume" 1000000))
  else if String.eqb scan_type "momentum" then
    fge (price_change_1m data) (Fin (get params "min_momentum" 10))
  else if String.eqb scan_type "value" then
    at_most (pe_ratio f) (get params "max_pe" 15)
    && at_most (pb_ratio f) (get params "max_pb" 2)
  else if String.eqb scan_type "growth" then
    fge (price_change_3m data) (Fin 15) && fge (price_change_6m data) (Fin 25)
  else true.

(** Sum and difference of entries; [None] when an entry is missing (the
    key function raises). *)
Definition add_opt (a b : pyfloat) : pyfloat :=
  match a, b with Some x, Some y => Some (fadd x y) | _, _ => None end.

Definition sub_opt (a b : pyfloat) : pyfloat :=
  match a, b with Some x, Some y => Some (fsub x y) | _, _ => None end.

(** The sort key of [_sort_fundamental_results] for a scan type and whether
    the order is descending ([reverse=True]); [None] for a scan type that
    leaves the list as it is. *)
Definition sort_key (scan_type : string)
  : option (bool * (MarketData -> pyfloat)) :=
  let f := ratios in
  if String.eqb scan_type "low_pe" then Some (false, fun x => pe_ratio (f x))
  else if String.eqb scan_type "high_roe" then Some (true, fun x => roe (f x))
  else if String.eqb scan_type "low_pb" then Some (false, fun x => pb_ratio (f x))
  else if String.eqb scan_type "dividend"
       then Some (true, fun x => dividend_yield (f x))
  else if String.eqb scan_type "low_debt"
       then Some (false, fun x => debt_equity_ratio (f x))
  else if String.eqb scan_type "revenue_growth"
       then Some (true, fun x => revenue_growth (f x))
  else if String.eqb scan_type "profit_margin"
       then Some (true, fun x => profit_margin (f x))
  else if String.eqb scan_type "combined_value" then
    Some (false, fun x =>
            add_opt (sub_opt (add_opt (pe_ratio (f x)) (pb_ratio (f x))) (roe (f x)))
                    (debt_equity_ratio (f x)))
  else if String.eqb scan_type "high_volume"
       then Some (true, fun x => Some (avg_volume x))
  else if String.eqb scan_type "momentum"
       then Some (true, fun x => Some (price_change_1m x))
  else if String.eqb scan_type "value"
       then Some (false, fun x => add_opt (pe_ratio (f x)) (pb_ratio (f x)))
  else if String.eqb scan_type "growth"
       then Some (true, fun x => Some (fadd (price_change_3m x) (price_change_6m x)))
  else None.

(** The order [sorted] puts two results in: [before reverse key a b] says
    [a] has to come before [b]. *)
Definition before (reverse : bool) (key : MarketData -> pyfloat)
    (a b : MarketData) : bool :=
  match key a, key b with
  | Some x, Some y => if reverse then fgt x y else flt x y
  | _, _ => false
  end.

(** [_sort_fundamental_results(results, scan_type)]: a stable sort by the
    key of the scan type; when a key cannot be computed the handler returns
    the list unsorted.  (With keys that are all comparable, that is without
    NaN, this is the list Python's [sorted] returns.) *)
Definition _sort_fundamental_results (results : list MarketData)
    (scan_type : string) : list MarketData :=
  match sort_key scan_type with
  | None => results
  | Some (reverse, key) =>
      if forallb (fun x => not_none (key x)) results
      then sort_desc (before reverse key) results
      else results
  end.

(** The body of the [try] of the loop of [screen_stocks_fundamental] for the
    item [(i, symbol)]: the optional progress callback, then the data of the
    symbol. *)
Definition screen_item (fetch : string -> option MarketData)
    (progress_callback : option (nat -> nat -> string -> outcome unit))
    (total : nat) (item : nat * string) : outcome (option MarketData) :=
  _ <- match progress_callback with
       | Some f => f (fst item) total (snd item)
       | None => Ok tt
       end ;;
  Ok (fetch (snd item)).

Definition screen_diagnostic (item : nat * string) (e : string) : string :=
  (snd item ++ ": Hata - " ++ e)%string.

(** [screen_stocks_fundamental(scan_type, params, progress_callback,
    restrict_symbols)]; [stocks] is the list the function settles on and
    [fetch] the call [self.get_fundamental_data(symbol, period)]. *)
Definition screen_stocks_fundamental (stocks : list string)
    (fetch : string -> option MarketData) (scan_type : string) (params : dict)
    (progress_callback : option (nat -> nat -> string -> outcome unit))
  : list MarketData :=
  match stocks with
  | [] => []
  | _ :: _ =>
      let total_stocks := length stocks in
      let results :=
        fst (scan_loop (screen_item fetch progress_callback total_stocks)
               (fun data => _passes_fundamental_criteria data scan_type params)
               screen_diagnostic
               (enumerate_from_1 stocks total_stocks)) in
      firstn 50 (_sort_fundamental_results results scan_type)
  end.

End Screen.

(* ================================================================== *)
(** ** Ticker lists ([get_bist_stocks], [tools/parse_tickers.py]) *)

Module Tickers.

(** A character of [[A-Z0-9]]. *)
Definition is_upper_alnum (c : Ascii.ascii) : bool :=
  let n := Ascii.nat_of_ascii c in
  ((65 <=? n)%nat && (n <=? 90)%nat) || ((48 <=? n)%nat && (n <=? 57)%nat).

Fixpoint all_upper_alnum (s : string) : bool :=
  match s with
  | EmptyString => true
  | String c s' => is_upper_alnum c && all_upper_alnum s'
  end.

(** [re.fullmatch(r'[A-Z0-9]{lo,6}', s)].  The characters the pattern admits
    are ASCII, so the test is the same on the bytes of the text. *)
Definition is_ticker (lo : nat) (s : string) : bool :=
  (lo <=? String.length s)%nat && (String.length s <=? 6)%nat
  && all_upper_alnum s.

(** [s in {...}]. *)
Definition member (s : string) (set : list string) : bool :=
  existsb (String.eqb s) set.

(** [sorted(list(set(out)))]: the distinct strings in lexicographic order of
    their characters. *)
Fixpoint insert_sorted (s : string) (l : list string) : list string :=
  match l with
  | [] => [s]
  | t :: l' =>
      match String.compare s t with
      | Lt => s :: l
      | Eq => l
      | Gt => t :: insert_sorted s l'
      end
  end.

Definition sorted_set (l : list string) : list string :=
  fold_right insert_sorted [] l.

Section Text.

(** [(line or '').strip().upper()] on Unicode text, which has no exact
    counterpart on byte strings; the functions below are stated for any
    such normalisation. *)
Variable normalize : string -> string.

(** The loop shared by [parse_symbols] and [_load_override_tickers_file]:
    normalise the line, skip it when it is empty, a comment or an excluded
    tag, keep it when it is 2 to 6 characters of [[A-Z0-9]]. *)
Definition keep_line (skip_comments : bool) (exclude : list string) (s : string)
  : bool :=
  negb (String.eqb s "")
  && negb (skip_comments && String.prefix "#" s)
  && negb (member s exclude)
  && is_ticker 2 s.

(** [parse_symbols(text)] of [tools/parse_tickers.py]; [lines] is
    [text.splitlines()]. *)
Definition parse_symbols (lines : list string) : list string :=
  sorted_set
    (filter (keep_line false ["G"; "D"; "REIT"; "CEF"]%string)
       (map normalize lines)).

(** [_load_override_tickers_file(path)]; [file] is [None] when the file does
    not exist or reading it raises, else its lines. *)
Definition _load_override_tickers_file (file : option (list string)) : list string :=
  match file with
  | None => []
  | Some lines =>
      sorted_set
        (filter (keep_line true ["REIT"; "CEF"; "ETF"; "WARRANT"; "FON"; "FUND"]%string)
           (map normalize lines))
  end.

(** [get_bist_stocks()], given the override file and what the two fetches
    and the curated list return. *)
Definition get_bist_stocks (file : option (list string))
    (scanner_list components_list manual_list : list string) : list string :=
  let override := _load_override_tickers_file file in
  if (50 <=? length override)%nat then override
  else
    let merged :=
      sorted_set
        (filter (is_ticker 1)
           (map normalize (scanner_list ++ components_list ++ manual_list))) in
    if (550 <=? length scanner_list)%nat then scanner_list else merged.

End Text.

End Tickers.

(* ================================================================== *)
(** ** Further vocabulary of the statements *)

Module Vocabulary.

(** The rows of a history that pass the filters of [_clean_data], with
    their time stamps, in the order of the history. *)
Definition kept_rows (rows : list RawRow) : list (Z * Bar) :=
  flat_map (fun r => match clean_row r with Some b => [b] | None => [] end) rows.

(** A cleaned bar read back as a row of a history. *)
Definition raw_of (tb : Z * Bar) : RawRow :=
  mkRaw (fst tb) (Some (open (snd tb))) (Some (high (snd tb)))
    (Some (low (snd tb))) (Some (close (snd tb))) (Some (volume (snd tb))).

(** A change of price unit: every price of the bar becomes [k * price + s]. *)
Definition rescale (k s : Q) (b : Bar) : Bar :=
  mkBar (k * open b + s) (k * high b + s) (k * low b + s) (k * close b + s)
    (volume b).

(** Two sets of leg ratios that are equal as rational numbers. *)
Definition ratios_eq (r r' : Ratios) : Prop :=
  AB_XA r == AB_XA r' /\ BC_AB r == BC_AB r' /\ CD_BC r == CD_BC r'
  /\ AD_XA r == AD_XA r'.

(** The snapshot with its four "lower is better" ratios replaced. *)
Definition with_ratios (s : Snapshot) (pe pb de ev : pyfloat) : Snapshot :=
  let f := fundamentals s in
  mkSnapshot
    (mkFundamentals pe pb (roe f) de (revenue_growth f) (profit_margin f)
       (dividend_yield f))
    ev (rev_growth_3y s) (ni_growth_3y s) (current_ratio s) (ocf_last s)
    (ni_vals s) (current_price s) (sma200 s) (sma50 s) (rsi s) (macd_line s)
    (macd_signal s) (vol20 s) (volume_last s).

(** [a] is a finite ratio not above the finite ratio [b], or both are
    missing. *)
Definition ratio_le (a b : pyfloat) : Prop :=
  match a, b with
  | Some (Fin x), Some (Fin y) => x <= y
  | None, None => True
  | _, _ => False
  end.

(** The recommendation labels from worst to best. *)
Definition rank (label : string) : nat :=
  if String.eqb label "Güçlü Al" then 4
  else if String.eqb label "Al" then 3
  else if String.eqb label "Tut" then 2
  else if String.eqb label "Sat" then 1
  else 0.

(** A finite value strictly between 0 and [hi]. *)
Definition strictly_between (hi : Q) (v : pyfloat) : Prop :=
  exists q, v = Some (Fin q) /\ 0 < q /\ q < hi.

(** The result has the volume ratio [q]. *)
Definition ratio_is (q : Q) (r : ScanResult.t) : bool :=
  match ScanResult.volume_ratio r with
  | Fin x => Qeq_bool x q
  | _ => false
  end.

(** The result has the sort key [(total, fundamental)]. *)
Definition key_is (total fundamental : nat) (r : ScoreResult) : bool :=
  (total_points r =? total)%nat && (fundamental_points r =? fundamental)%nat.

End Vocabulary.
Import Vocabulary.

(* ================================================================== *)
(** ** Sample inputs *)

Module Samples.

(** Twelve bars with rising closes and volumes. *)
Definition bars12 : DataFrame :=
  map (fun k =>
         let q := inject_Z (Z.of_nat k) in
         mkBar (10 + q) (11 + q) (9 + q) (10 + q) (100 + 10 * q))
      (seq 0 12).

(** Sixty equal bars. *)
Definition flat_bar : Bar := mkBar 10 11 9 10 1000.
Definition flat_data : DataFrame := repeat flat_bar 60.

(** A stand-in for the floating-point square root where its values do not
    matter. *)
Definition any_sqrt : Q -> Q := fun q => q.

(** [info] dicts: without P/E, and with P/E and P/B only. *)
Definition info_no_pe : Info :=
  mkInfo None None (Some (Fin 1.5)) None None None None None None None None None.

Definition info_ratios_only : Info :=
  mkInfo (Some (Fin 500)) None (Some (Fin 50)) None None None None None None None
    None None.

Definition no_statements : Statements := mkStatements None None None None None.

Definition provider_of (i : Info) : Provider :=
  mkProvider (fun _ => Some flat_data) (fun _ => Some i) (fun _ => no_statements).

(** A snapshot that meets every "excellent" bound of the default
    thresholds, and one that meets no bound. *)
Definition excellent_snapshot : Snapshot :=
  mkSnapshot
    (mkFundamentals (Some (Fin 5)) (Some (Fin 0.5)) (Some (Fin 0.25))
       (Some (Fin 0.5)) (Some (Fin 0)) (Some (Fin 0.2)) (Some (Fin 0)))
    (Some (Fin 4)) (Some (Fin 12)) (Some (Fin 15)) (Some (Fin 2))
    (Some (Fin 100)) (Some [50; 80])
    (Fin 30) (Some [Fin 20]) (Some [Fin 25]) (Fin 65)
    (Some [Fin 1]) (Some [Fin 0.5]) (Some [Fin 1000]) (Fin 1500).

Definition poor_snapshot : Snapshot :=
  mkSnapshot
    (mkFundamentals (Some (Fin 500)) (Some (Fin 50)) (Some (Fin 0))
       (Some (Fin 5)) (Some (Fin 0)) (Some (Fin 0)) (Some (Fin 0)))
    None None None None None None
    (Fin 10) None (Some [Fin 25]) (Fin 30)
    (Some [Fin 0]) (Some [Fin 0.5]) (Some [Fin 1000]) (Fin 900).

(** Ten symbols, three of which fail at the provider. *)
Definition ten_symbols : list string :=
  [ "AKBNK"; "ARCLK"; "ASELS"; "BIMAS"; "EREGL";
    "GARAN"; "KCHOL"; "SISE"; "THYAO"; "TUPRS" ]%string.

Definition failing (sym : string) : bool :=
  String.eqb sym "ASELS" || String.eqb sym "GARAN" || String.eqb sym "THYAO".

Definition sample_analysis (sym : string) : outcome (option ScoreResult) :=
  if failing sym then Raise "ProviderFailure"
  else Ok (Some (mkScoreResult sym 12 6 18 (recommend 18) [] [] (Fin 10)
                   (Some (Fin 9)) (Some (Fin 1.2)))).

(** Three bars with rising closes, and three bars of equal volume. *)
Definition rising_bars : DataFrame :=
  [ mkBar 1 2 1 1 10; mkBar 2 3 2 2 5; mkBar 3 4 3 3 7 ].


(** Ten equal bars, and the volume analysis of any symbol on them. *)
Definition flat10 : DataFrame := repeat flat_bar 10.

Definition flat_analysis (sym : string) : outcome (option ScanResult.t) :=
  Ok (Scanner.analyze_stock_volume any_sqrt 0%Z (Some flat10) sym
        Scanner.default_params).

(** Twenty-four bars whose lows make a lower low: local minima at bars 9
    and 17, the second below the first. *)
Definition wave_closes : list Q :=
  [ 20; 21; 22; 23; 22; 21; 20; 19; 18; 16; 17; 18;
    19; 20; 19; 18; 17; 14; 15; 16; 17; 18; 19; 20 ].

Definition wave_bars : DataFrame :=
  map (fun c => mkBar c (c + 1) (c - 1) c 1000) wave_closes.

(** Six bars that end in a close above the earlier highs on a volume more
    than three times the average of the four bars before. *)
Definition breakout_bars : DataFrame :=
  [ mkBar 10 11 9 10 100; mkBar 10 11 9 10 110; mkBar 10 11 9 10 120;
    mkBar 10 11 9 10 130; mkBar 10 11 9 10 140; mkBar 10 16 10 15 400 ].

(** Thirty-one closes whose swing points are 1000, 2000, 1500, 1800 and
    1114 (bars 5, 10, 15, 20 and 25): AB/XA is 0.5 and AD/XA 0.886, the
    targets of the Bat template. *)
Definition bat_closes : list Q :=
  [ 1500; 1400; 1300; 1200; 1100;
    1000; 1200; 1400; 1600; 1800;
    2000; 1900; 1800; 1700; 1600;
    1500; 1560; 1620; 1680; 1740;
    1800; 1662.8; 1525.6; 1388.4; 1251.2;
    1114; 1214; 1314; 1414; 1514; 1614 ].

Definition bat_bars : DataFrame :=
  map (fun c => mkBar c (c + 10) (c - 10) c 1000) bat_closes.

(** Three well-formed bars with increasing time stamps. *)
Definition clean_stamped : list (Z * Bar) :=
  [ (1%Z, mkBar 10 11 9 10 100); (2%Z, mkBar 10 12 10 11 120);
    (5%Z, mkBar 11 13 11 12 90) ].

(** The default parameters with every exponential-average span set to 1. *)
Definition short_span_params : Scanner.Params :=
  Scanner.mkParams "5d" "1d" 10 1 1 20 1 1 1 5 2.0 20 1.0 10 20 2.0 14 60 70
    20 95 20 3.0 10 20 40 "Yukarı" 20 0.6 10 1.5 1.5 30 20 2.0 6 10 1.0 1.5 2
    50 38.2 50.0 2.0 "Otomatik" 5.0 1.3 10 3.


(** Lines of a ticker list that are already stripped and in upper case, and
    the header the ticker file starts with. *)
Definition ticker_lines : list string :=
  [ "THYAO"; "AKBNK"; "ETF"; "REIT"; "Turk Hava Yollari"; "AKBNK"; "" ]%string.

Definition ticker_header : string :=
  "# Auto-generated from raw_bist_list.txt by tools/parse_tickers.py".

End Samples.
Import Samples.

(* ================================================================== *)
(** * Properties *)

(** ** Comparisons *)

Lemma Qlt_bool_iff x y : Qlt_bool x y = true <-> x < y.
Proof.
  unfold Qlt_bool. rewrite negb_true_iff.
  split; intro H.
  - apply Qnot_le_lt. intro L. apply Qle_bool_iff in L. congruence.
  - apply not_true_is_false. intro L. apply Qle_bool_iff in L. lra.
Qed.

Lemma Qlt_bool_false x y : Qlt_bool x y = false <-> y <= x.
Proof.
  unfold Qlt_bool. rewrite negb_false_iff. apply Qle_bool_iff.
Qed.

(** ** Cleaned frames *)

Lemma clean_row_well_formed r t b :
  clean_row r = Some (t, b) -> well_formed_bar b.
Proof.
  unfold clean_row.
  destruct (raw_open r) as [o|]; [|discriminate].
  destruct (raw_high r) as [h|]; [|discriminate].
  destruct (raw_low r) as [l|]; [|discriminate].
  destruct (raw_close r) as [c|]; [|discriminate].
  destruct (raw_volume r) as [v|]; [|discriminate].
  destruct (_ && _) eqn:E; [|discriminate].
  intro H. injection H as _ <-.
  rewrite !andb_true_iff, !Qlt_bool_iff, Qle_bool_iff in E.
  unfold well_formed_bar. simpl. tauto.
Qed.

Lemma insert_by_time_In x y l : In x (insert_by_time y l) -> x = y \/ In x l.
Proof.
  induction l as [|z l IH]; simpl.
  - intros [<-|[]]. left. reflexivity.
  - destruct (fst y <=? fst z)%Z; simpl.
    + intros [<-|H]; [left; reflexivity|right; exact H].
    + intros [<-|H]; [right; left; reflexivity|].
      destruct (IH H) as [->|H']; [left; reflexivity|right; right; exact H'].
Qed.

Lemma sort_index_In x l : In x (sort_index l) -> In x l.
Proof.
  induction l as [|y l IH]; simpl; [tauto|].
  intro H. apply insert_by_time_In in H. destruct H as [->|H]; [left; reflexivity|].
  right. apply IH. exact H.
Qed.

(** Every bar the fetcher hands over is well formed; in particular its
    volume is positive. *)
Lemma clean_data_well_formed rows b :
  In b (_clean_data rows) -> well_formed_bar b.
Proof.
  unfold _clean_data. rewrite in_map_iff. intros ([t b'] & <- & H).
  apply sort_index_In in H. apply in_flat_map in H. destruct H as (r & _ & H).
  destruct (clean_row r) as [[t' b'']|] eqn:E; simpl in H; [|contradiction].
  destruct H as [H|[]]. injection H as <- <-.
  eapply clean_row_well_formed. exact E.
Qed.

Lemma fetched_volumes_nonneg history data :
  get_stock_data history = Some data -> volumes_nonneg data.
Proof.
  unfold get_stock_data. destruct history as [[|r rows]|e]; try discriminate.
  intro H. injection H as <-. intros i Hi.
  assert (Hin : In (row (_clean_data (r :: rows)) i) (_clean_data (r :: rows)))
    by (apply nth_In; exact Hi).
  apply clean_data_well_formed in Hin. unfold well_formed_bar in Hin. lra.
Qed.

(** ** On-balance volume *)

Section ObvFacts.
Variable data : DataFrame.

Lemma obv_loop_S n :
  obv_loop data (S n) = obv_step data (obv_loop data n) n.
Proof.
  unfold obv_loop. rewrite seq_S, fold_left_app. reflexivity.
Qed.

Lemma obv_loop_length n : length (snd (obv_loop data n)) = n.
Proof.
  induction n as [|n IH]; [reflexivity|].
  rewrite obv_loop_S. destruct (obv_loop data n) as [v l]. simpl in *.
  rewrite length_app. simpl. lia.
Qed.

Lemma obv_loop_snd_S n :
  snd (obv_loop data (S n)) = snd (obv_loop data n) ++ [fst (obv_loop data (S n))].
Proof.
  rewrite obv_loop_S. destruct (obv_loop data n) as [v l]. reflexivity.
Qed.

Lemma obv_loop_nth_stable n m i :
  (i < n)%nat -> (n <= m)%nat ->
  nth i (snd (obv_loop data m)) 0 = nth i (snd (obv_loop data n)) 0.
Proof.
  intros Hi Hnm. induction Hnm as [|m Hnm IH]; [reflexivity|].
  rewrite obv_loop_snd_S, app_nth1; [exact IH|].
  rewrite obv_loop_length. lia.
Qed.

Lemma obv_loop_nth_last n :
  nth n (snd (obv_loop data (S n))) 0 = fst (obv_loop data (S n)).
Proof.
  rewrite obv_loop_snd_S, app_nth2; rewrite obv_loop_length; [|lia].
  rewrite Nat.sub_diag. reflexivity.
Qed.

Lemma obv_loop_fst_S n :
  fst (obv_loop data (S (S n))) =
  let prev := fst (obv_loop data (S n)) in
  let prev_close := close (row data n) in
  let curr_close := close (row data (S n)) in
  let curr_volume := volume (row data (S n)) in
  if Qlt_bool prev_close curr_close then prev + curr_volume
  else if Qlt_bool curr_close prev_close then prev - curr_volume
  else prev.
Proof.
  rewrite (obv_loop_S (S n)). destruct (obv_loop data (S n)) as [v l].
  cbn [obv_step fst Nat.eqb]. rewrite Nat.sub_succ, Nat.sub_0_r. reflexivity. 
Qed.

Lemma obv_nth i :
  (i < length data)%nat ->
  nth i (_calculate_obv data) 0 = fst (obv_loop data (S i)).
Proof.
  intro Hi. unfold _calculate_obv.
  rewrite (obv_loop_nth_stable (S i)) by lia. apply obv_loop_nth_last.
Qed.
End ObvFacts.

(** C5.  OBV is a running total seeded with the first bar's volume: a bar
    adds its volume when its close is above the previous close, subtracts it
    when below and leaves the total unchanged on a tie.  With non-negative
    volumes the series is therefore non-decreasing when closes rise strictly
    and non-increasing when they fall strictly. *)
Theorem obv_running_total (data : DataFrame) :
  let obv := _calculate_obv data in
  length obv = length data
  /\ (forall b rest, data = b :: rest -> nth 0 obv 0 = volume b)
  /\ (forall i, (S i < length data)%nat ->
        let prev_close := close (row data i) in
        let curr_close := close (row data (S i)) in
        let curr_volume := volume (row data (S i)) in
        (prev_close < curr_close -> nth (S i) obv 0 = nth i obv 0 + curr_volume)
        /\ (curr_close < prev_close -> nth (S i) obv 0 = nth i obv 0 - curr_volume)
        /\ (curr_close == prev_close -> nth (S i) obv 0 = nth i obv 0))
  /\ (volumes_nonneg data -> strictly_rising data ->
        forall i, (S i < length data)%nat -> nth i obv 0 <= nth (S i) obv 0)
  /\ (volumes_nonneg data -> strictly_falling data ->
        forall i, (S i < length data)%nat -> nth (S i) obv 0 <= nth i obv 0).
Proof.
  cbv zeta.
  assert (Hrec : forall i, (S i < length data)%nat ->
        (close (row data i) < close (row data (S i)) ->
           nth (S i) (_calculate_obv data) 0 = nth i (_calculate_obv data) 0 + volume (row data (S i)))
        /\ (close (row data (S i)) < close (row data i) ->
           nth (S i) (_calculate_obv data) 0 = nth i (_calculate_obv data) 0 - volume (row data (S i)))
        /\ (close (row data (S i)) == close (row data i) ->
           nth (S i) (_calculate_obv data) 0 = nth i (_calculate_obv data) 0)).
  { intros i Hi. rewrite !obv_nth by lia. rewrite obv_loop_fst_S. cbv zeta.
    destruct (Qlt_bool (close (row data i)) (close (row data (S i)))) eqn:E1;
    [apply Qlt_bool_iff in E1 | apply Qlt_bool_false in E1];
    (destruct (Qlt_bool (close (row data (S i))) (close (row data i))) eqn:E2;
    [apply Qlt_bool_iff in E2 | apply Qlt_bool_false in E2]);
    repeat split; intros; try reflexivity; lra. }
  split; [unfold _calculate_obv; apply obv_loop_length|].
  split.
  { intros b rest ->. rewrite obv_nth by (simpl; lia). reflexivity. }
  split; [exact Hrec|].
  split; intros Hv Hm i Hi; destruct (Hrec i Hi) as (Hup & Hdn & _);
    specialize (Hv (S i) Hi); specialize (Hm i Hi).
  - rewrite (Hup Hm). lra.
  - rewrite (Hdn Hm). lra.
Qed.

(** ** Lists, slices and sums *)

Section ListFacts.
Context {A : Type}.



Lemma last_as_nth (l : list A) d :
  last l d = nth (length l - 1) l d.
Proof.
  induction l as [|x [|y l] IH]; try reflexivity.
  change (last (x :: y :: l) d) with (last (y :: l) d). rewrite IH.
  simpl. rewrite Nat.sub_0_r. reflexivity.
Qed.

End ListFacts.

Lemma In_slice {A} (l : list A) a b x : In x (slice l a b) -> In x l.
Proof.
  unfold slice. intro H.
  rewrite <- (firstn_skipn a l). apply in_or_app. right.
  rewrite <- (firstn_skipn (b - a) (skipn a l)). apply in_or_app. left. exact H.
Qed.

Lemma map_slice {A B} (f : A -> B) (l : list A) a b :
  map f (slice l a b) = slice (map f l) a b.
Proof. unfold slice. rewrite <- firstn_map, <- skipn_map. reflexivity. Qed.

Lemma nth_map_seq {B} (f : nat -> B) n i d :
  (i < n)%nat -> nth i (map f (seq 0 n)) d = f i.
Proof.
  intro Hi. rewrite (nth_indep _ d (f 0%nat)) by (rewrite length_map, length_seq; exact Hi).
  rewrite map_nth, seq_nth by exact Hi. reflexivity.
Qed.

Section VwapFacts.

Lemma Qsum_app l1 l2 : Qsum (l1 ++ l2) == Qsum l1 + Qsum l2.
Proof.
  induction l1 as [|x l1 IH]; simpl; [ring|]. rewrite IH. ring.
Qed.



Lemma of_nat_Q_pos n : (0 < n)%nat -> 0 < of_nat_Q n.
Proof.
  intro H. unfold of_nat_Q. change 0 with (inject_Z 0). rewrite <- Zlt_Qlt. lia.
Qed.

Lemma fsum_Fin (l : list Q) : fsum (map Fin l) = Fin (Qsum l).
Proof.
  induction l as [|x l IH]; [reflexivity|]. simpl. rewrite IH. reflexivity.
Qed.

Lemma any_nan_Fin (l : list Q) : any_nan (map Fin l) = false.
Proof. induction l as [|x l IH]; [reflexivity|exact IH]. Qed.

Variable data : DataFrame.
Variable period : nat.



End VwapFacts.


(** ** Swing points *)

Section SwingFacts.

Variable prices : list Q.
Variable window : nat.

Lemma neighbours_In i j :
  (window <= i)%nat -> In j (neighbours i window) <-> neighbour window i j.
Proof.
  intro Hw. unfold neighbours, neighbour.
  rewrite filter_In, in_seq, negb_true_iff, Nat.eqb_neq. lia.
Qed.

Lemma is_high_iff i :
  (window <= i)%nat -> is_high prices window i = true <-> weak_max prices window i.
Proof.
  intro Hw. unfold is_high, weak_max. rewrite forallb_forall.
  split; intros H j Hj.
  - apply Qle_bool_iff, H, neighbours_In; assumption.
  - apply Qle_bool_iff, H, neighbours_In; assumption.
Qed.

Lemma is_low_iff i :
  (window <= i)%nat -> is_low prices window i = true <-> weak_min prices window i.
Proof.
  intro Hw. unfold is_low, weak_min. rewrite forallb_forall.
  split; intros H j Hj.
  - apply Qle_bool_iff, H, neighbours_In; assumption.
  - apply Qle_bool_iff, H, neighbours_In; assumption.
Qed.

Lemma is_minimum_iff i :
  (window <= i)%nat -> is_minimum prices window i = true <-> strict_min prices window i.
Proof.
  intro Hw. unfold is_minimum, strict_min. rewrite forallb_forall.
  split; intros H j Hj.
  - apply neighbours_In in Hj; [|exact Hw]. apply H in Hj.
    apply Qlt_bool_iff. exact Hj.
  - apply Qlt_bool_iff. apply H, neighbours_In; assumption.
Qed.

Lemma candidate_iff i :
  In i (seq window (length prices - window - window)) <-> interior prices window i.
Proof. rewrite in_seq. unfold interior. lia. Qed.

End SwingFacts.

(** C3 (as the code has it).  [_find_swing_points] returns a point for the
    index [i] exactly when [i] keeps [window] bars on either side and its
    price is a maximum or a minimum among the [2*window + 1] centered bars,
    ties included; it is labelled high when it is such a maximum and low
    otherwise.  [_find_local_minima] returns [i] exactly when [i] is interior
    and strictly below each of its neighbours.  Neither returns an index
    within [window] bars of an end of the series. *)
Theorem swing_points_characterised (prices : list Q) (window : nat) :
  (forall p, In p (_find_swing_points prices window) <->
     interior prices window (index p)
     /\ price p = iloc prices (index p)
     /\ ((type p = high_type /\ weak_max prices window (index p))
         \/ (type p = low_type /\ weak_min prices window (index p)
             /\ ~ weak_max prices window (index p))))
  /\ (forall i, In i (_find_local_minima prices window) <->
        interior prices window i /\ strict_min prices window i)
  /\ (forall p, In p (_find_swing_points prices window) ->
        (window <= index p)%nat /\ (index p + window < length prices)%nat)
  /\ (forall i, In i (_find_local_minima prices window) ->
        (window <= i)%nat /\ (i + window < length prices)%nat).
Proof.
  assert (Hsw : forall p, In p (_find_swing_points prices window) <->
     interior prices window (index p)
     /\ price p = iloc prices (index p)
     /\ ((type p = high_type /\ weak_max prices window (index p))
         \/ (type p = low_type /\ weak_min prices window (index p)
             /\ ~ weak_max prices window (index p)))).
  { intro p. unfold _find_swing_points. rewrite in_flat_map. split.
    - intros (i & Hi & Hp). apply candidate_iff in Hi.
      assert (Hw : (window <= i)%nat) by apply Hi.
      unfold swing_at in Hp.
      destruct (is_high prices window i) eqn:Eh; simpl in Hp.
      + destruct Hp as [<-|[]]. simpl. repeat split; try apply Hi.
        left. split; [reflexivity|]. apply is_high_iff; assumption.
      + destruct (is_low prices window i) eqn:El; simpl in Hp; [|contradiction].
        destruct Hp as [<-|[]]. simpl. repeat split; try apply Hi.
        right. split; [reflexivity|]. split; [apply is_low_iff; assumption|].
        intro Hmax. apply is_high_iff in Hmax; [congruence|assumption].
    - intros (Hi & Hp & Hk). exists (index p).
      split; [apply candidate_iff; exact Hi|].
      assert (Hw : (window <= index p)%nat) by apply Hi.
      unfold swing_at. destruct p as [i pr ty]. simpl in *. subst pr.
      destruct Hk as [(-> & Hmax)|(-> & Hmin & Hnmax)].
      + apply is_high_iff in Hmax; [|exact Hw]. rewrite Hmax. simpl. left. reflexivity.
      + apply is_low_iff in Hmin; [|exact Hw]. rewrite Hmin.
        destruct (is_high prices window i) eqn:Eh.
        * exfalso. apply Hnmax. apply is_high_iff; assumption.
        * simpl. left. reflexivity. }
  assert (Hmn : forall i, In i (_find_local_minima prices window) <->
        interior prices window i /\ strict_min prices window i).
  { intro i. unfold _find_local_minima. rewrite filter_In, candidate_iff.
    split; intros (Hi & Hm); (split; [exact Hi|]).
    - apply is_minimum_iff in Hm; [exact Hm|apply Hi].
    - apply is_minimum_iff; [apply Hi|exact Hm]. }
  split; [exact Hsw|]. split; [exact Hmn|].
  split.
  - intros p Hp. apply Hsw in Hp. apply Hp.
  - intros i Hi. apply Hmn in Hi. apply Hi.
Qed.

(** C3, counterexample.  The series 1, 1, 1 with window 1: the middle bar is returned as a swing
    high although it is no strict maximum, and it is a minimum among its
    neighbours that is not returned as a swing low. *)
Lemma swing_high_not_strict :
  In (mkSwing 1 1 high_type) (_find_swing_points [1; 1; 1] 1)
  /\ ~ strict_max [1; 1; 1] 1 1
  /\ weak_min [1; 1; 1] 1 1
  /\ ~ In (mkSwing 1 1 low_type) (_find_swing_points [1; 1; 1] 1).
Proof.
  split; [left; reflexivity|].
  split.
  { intro H. specialize (H 0%nat). unfold neighbour, iloc in H. simpl in H.
    assert (1 < 1) by (apply H; lia). lra. }
  split.
  { intros j (H1 & H2 & H3). unfold iloc.
    destruct j as [|[|[|j]]]; simpl; try lra; lia. }
  intros [H|[]]. discriminate H.
Qed.

(** ** Harmonic templates *)

Section HarmonicFacts.

Lemma near_iff ratio target tol :
  near ratio target tol = true <-> Qabs (ratio - target) <= tol.
Proof. apply Qle_bool_iff. Qed.

Lemma within_one ratio a tolerance :
  within ratio [a] tolerance <-> near ratio a (tolerance / 100) = true.
Proof.
  rewrite near_iff. unfold within. split.
  - intros (t & [<-|[]] & H). exact H.
  - intro H. exists a. split; [left; reflexivity|exact H].
Qed.

Lemma within_two ratio a b tolerance :
  within ratio [a; b] tolerance <->
  near ratio a (tolerance / 100) || near ratio b (tolerance / 100) = true.
Proof.
  rewrite orb_true_iff, !near_iff. unfold within. split.
  - intros (t & [<-|[<-|[]]] & H); [left|right]; exact H.
  - intros [H|H]; [exists a|exists b]; (split; [simpl; tauto|exact H]).
Qed.

Lemma gartley_checks_iff r tolerance :
  gartley_checks r tolerance = true <-> template_matches gartley_template r tolerance.
Proof.
  unfold gartley_checks, template_matches, gartley_template. cbv zeta.
  rewrite !andb_true_iff, <- !within_one, <- !within_two. split.
  - intros (((H1 & H2) & H3) & H4) proj targets Hin. simpl in Hin.
    destruct Hin as [E|[E|[E|[E|[]]]]]; injection E as <- <-; assumption.
  - intro H. repeat split; apply H; simpl; tauto.
Qed.




Lemma check_pattern_five checks pX pA pB pC pD tolerance :
  check_pattern checks [pX; pA; pB; pC; pD] tolerance
  = checks (leg_ratios (price pX) (price pA) (price pB) (price pC) (price pD))
      tolerance.
Proof. reflexivity. Qed.

End HarmonicFacts.


(** The four leg ratios are the absolute price-distance ratios, and 0 when
    the leg in the denominator is flat. *)
Lemma leg_ratios_spec (X A B C D : Q) :
  let r := leg_ratios X A B C D in
  (~ A == X -> AB_XA r = Qabs (B - A) / Qabs (A - X))
  /\ (~ B == A -> BC_AB r = Qabs (C - B) / Qabs (B - A))
  /\ (~ C == B -> CD_BC r = Qabs (D - C) / Qabs (C - B))
  /\ (~ A == X -> AD_XA r = Qabs (D - A) / Qabs (A - X))
  /\ (A == X -> AB_XA r = 0 /\ AD_XA r = 0)
  /\ (B == A -> BC_AB r = 0)
  /\ (C == B -> CD_BC r = 0).
Proof.
  assert (Hnz : forall u v, ~ u == v -> Qlt_bool 0 (Qabs (u - v)) = true).
  { intros u v Huv. apply Qlt_bool_iff.
    destruct (Qlt_le_dec 0 (Qabs (u - v))) as [H|H]; [exact H|].
    exfalso. apply Huv. pose proof (Qabs_nonneg (u - v)) as H0.
    assert (Hz : Qabs (u - v) == 0) by lra.
    revert Hz. apply Qabs_case; intros; lra. }
  assert (Hz : forall u v, u == v -> Qlt_bool 0 (Qabs (u - v)) = false).
  { intros u v Huv. apply Qlt_bool_false.
    apply Qabs_case; intros; lra. }
  cbv zeta. unfold leg_ratios. cbn [AB_XA BC_AB CD_BC AD_XA].
  repeat match goal with |- _ /\ _ => split end; intro H;
    first [rewrite (Hnz _ _ H); reflexivity
          | rewrite (Hz _ _ H); try split; reflexivity].
Qed.

Lemma within_zero_tolerance ratio targets :
  within ratio targets 0 -> exists t, In t targets /\ ratio == t.
Proof.
  intros (t & Hin & H). exists t. split; [exact Hin|].
  assert (E : 0 / 100 == 0) by reflexivity. rewrite E in H.
  revert H. apply Qabs_case; intros; lra.
Qed.

Lemma ratio_cross x y c : 0 < y -> x / y == c -> x == c * y.
Proof.
  intros Hy H. rewrite <- H. field. lra.
Qed.

Lemma Qabs_pos_neq u v : ~ u == v -> 0 < Qabs (u - v).
Proof.
  intro H. apply Qabs_case; intros; [|lra].
  destruct (Qeq_dec u v); [contradiction|]. lra.
Qed.

Lemma Qabs_cases u :
  (0 <= u /\ Qabs u == u) \/ (u <= 0 /\ Qabs u == - u).
Proof.
  apply Qabs_case; intro H; [left|right]; split; try exact H; reflexivity.
Qed.

(** X30.  No five prices give the four primary Gartley ratios exactly: the leg
    AD is a signed sum of AB, BC and CD, and no choice of signs and of
    admissible targets gives 0.786 of XA.  At tolerance 0 the Gartley check
    of five points therefore never succeeds. *)
Lemma gartley_exact_unreachable (pX pA pB pC pD : SwingPoint) :
  _check_gartley_pattern [pX; pA; pB; pC; pD] 0 = false.
Proof.
  apply not_true_is_false. intro Hc.
  unfold _check_gartley_pattern in Hc. rewrite check_pattern_five in Hc.
  apply gartley_checks_iff in Hc.
  set (X := price pX) in *. set (A := price pA) in *. set (B := price pB) in *.
  set (C := price pC) in *. set (D := price pD) in *.
  destruct (leg_ratios_spec X A B C D) as (Hab & Hbc & Hcd & Had & Hab0 & Hbc0 & Hcd0).
  cbv zeta in *.
  pose proof (Hc AB_XA [0.618]) as H1.
  pose proof (Hc BC_AB [0.382; 0.886]) as H2.
  pose proof (Hc CD_BC [1.272; 1.618]) as H3.
  pose proof (Hc AD_XA [0.786]) as H4.
  unfold gartley_template in H1, H2, H3, H4.
  apply within_zero_tolerance in H1; [|simpl; tauto].
  apply within_zero_tolerance in H2; [|simpl; tauto].
  apply within_zero_tolerance in H3; [|simpl; tauto].
  apply within_zero_tolerance in H4; [|simpl; tauto].
  destruct H1 as (t1 & [<-|[]] & H1).
  destruct H4 as (t4 & [<-|[]] & H4).
  destruct H2 as (t2 & Hin2 & H2). destruct H3 as (t3 & Hin3 & H3).
  clear Hc.
  destruct (Qeq_dec A X) as [EA|NA].
  { destruct (Hab0 EA) as [E _]. rewrite E in H1. lra. }
  rewrite (Hab NA) in H1. rewrite (Had NA) in H4.
  pose proof (Qabs_pos_neq A X NA) as PA.
  apply ratio_cross in H1; [|exact PA]. apply ratio_cross in H4; [|exact PA].
  clear Hab Had Hab0.
  destruct (Qeq_dec B A) as [EB|NB].
  { destruct (Qabs_cases (B - A)) as [[? Eb]|[? Eb]]; lra. }
  rewrite (Hbc NB) in H2.
  pose proof (Qabs_pos_neq B A NB) as PB.
  apply ratio_cross in H2; [|exact PB].
  assert (Ht2 : 0 < t2) by (simpl in Hin2; destruct Hin2 as [<-|[<-|[]]]; lra).
  clear Hbc Hbc0.
  destruct (Qeq_dec C B) as [EC|NC].
  { destruct (Qabs_cases (C - B)) as [[? Ec]|[? Ec]]; nra. }
  rewrite (Hcd NC) in H3.
  pose proof (Qabs_pos_neq C B NC) as PC.
  apply ratio_cross in H3; [|exact PC].
  clear Hcd Hcd0 Ht2.
  simpl in Hin2, Hin3.
  destruct (Qabs_cases (A - X)) as [[? Ea]|[? Ea]];
  destruct (Qabs_cases (B - A)) as [[? Eb]|[? Eb]];
  destruct (Qabs_cases (C - B)) as [[? Ec]|[? Ec]];
  destruct (Qabs_cases (D - C)) as [[? Ed]|[? Ed]];
  destruct (Qabs_cases (D - A)) as [[? Ee]|[? Ee]];
  revert H1 H2 H3 H4 PA PB PC Ea Eb Ec Ed Ee;
  generalize (Qabs (A - X)) (Qabs (B - A)) (Qabs (C - B)) (Qabs (D - C))
             (Qabs (D - A));
  intros a b c d e; intros;
  destruct Hin2 as [<-|[<-|[]]]; destruct Hin3 as [<-|[<-|[]]]; lra.
Qed.

(** ** Relative strength index *)

Section RsiFacts.

Lemma diffs_nth p0 rest j :
  (j < length rest)%nat ->
  nth j (map (fun pq : Q * Q => Fin (snd pq - fst pq)) (combine (p0 :: rest) rest)) NaN
  = Fin (nth j rest 0 - nth j (p0 :: rest) 0).
Proof.
  revert p0 j. induction rest as [|p1 rest IH]; intros p0 j Hj; [simpl in Hj; lia|].
  destruct j as [|j]; [reflexivity|].
  change (combine (p0 :: p1 :: rest) (p1 :: rest))
    with ((p0, p1) :: combine (p1 :: rest) rest).
  cbn [map nth]. apply IH. simpl in Hj. lia.
Qed.

Lemma diff_length prices : length (diff prices) = length prices.
Proof.
  destruct prices as [|p0 rest]; [reflexivity|].
  unfold diff. cbn [length]. rewrite length_map, length_combine. cbn [length]. lia.
Qed.

Lemma diff_nth_S prices j :
  (S j < length prices)%nat ->
  nth (S j) (diff prices) NaN = Fin (iloc prices (S j) - iloc prices j).
Proof.
  destruct prices as [|p0 rest]; intro Hj; [simpl in Hj; lia|].
  unfold diff, iloc. cbn [nth]. apply diffs_nth. simpl in Hj. lia.
Qed.

Lemma diff_nth_0 prices : nth 0 (diff prices) NaN = NaN.
Proof. destruct prices; reflexivity. Qed.

Lemma gains_as_Q prices :
  map gain_of (diff prices)
  = map Fin (map (gain_at prices) (seq 0 (length prices))).
Proof.
  apply (nth_ext _ _ NaN NaN).
  { rewrite !length_map, length_seq. apply diff_length. }
  intros i Hi. rewrite length_map, diff_length in Hi.
  rewrite (nth_indep (map gain_of (diff prices)) NaN (gain_of NaN))
    by (rewrite length_map, diff_length; exact Hi).
  rewrite (map_nth gain_of).
  rewrite (nth_indep (map Fin _) NaN (Fin 0))
    by (rewrite !length_map, length_seq; exact Hi).
  rewrite (map_nth Fin).
  rewrite (nth_indep (map (gain_at prices) _) 0 (gain_at prices 0))
    by (rewrite length_map, length_seq; exact Hi).
  rewrite (map_nth (gain_at prices)), seq_nth by exact Hi. cbn [Nat.add].
  destruct i as [|j]; [rewrite diff_nth_0; reflexivity|].
  rewrite diff_nth_S by exact Hi. unfold gain_of, gain_at, fgt, flt. cbv zeta.
  destruct (Qlt_bool 0 (iloc prices (S j) - iloc prices j)); reflexivity.
Qed.

Lemma losses_as_Q prices :
  map loss_of (diff prices)
  = map Fin (map (loss_at prices) (seq 0 (length prices))).
Proof.
  apply (nth_ext _ _ NaN NaN).
  { rewrite !length_map, length_seq. apply diff_length. }
  intros i Hi. rewrite length_map, diff_length in Hi.
  rewrite (nth_indep (map loss_of (diff prices)) NaN (loss_of NaN))
    by (rewrite length_map, diff_length; exact Hi).
  rewrite (map_nth loss_of).
  rewrite (nth_indep (map Fin _) NaN (Fin 0))
    by (rewrite !length_map, length_seq; exact Hi).
  rewrite (map_nth Fin).
  rewrite (nth_indep (map (loss_at prices) _) 0 (loss_at prices 0))
    by (rewrite length_map, length_seq; exact Hi).
  rewrite (map_nth (loss_at prices)), seq_nth by exact Hi. cbn [Nat.add].
  destruct i as [|j]; [rewrite diff_nth_0; reflexivity|].
  rewrite diff_nth_S by exact Hi. unfold loss_of, loss_at, flt, fneg. cbv zeta.
  destruct (Qlt_bool (iloc prices (S j) - iloc prices j) 0); reflexivity.
Qed.

Lemma gain_at_nonneg prices j : 0 <= gain_at prices j.
Proof.
  destruct j as [|j]; simpl; [lra|].
  destruct (Qlt_bool 0 (iloc prices (S j) - iloc prices j)) eqn:E; [|lra].
  apply Qlt_bool_iff in E. lra.
Qed.

Lemma loss_at_nonneg prices j : 0 <= loss_at prices j.
Proof.
  destruct j as [|j]; simpl; [lra|].
  destruct (Qlt_bool (iloc prices (S j) - iloc prices j) 0) eqn:E; [|lra].
  apply Qlt_bool_iff in E. lra.
Qed.

Lemma firstn_seq_le k start len :
  (k <= len)%nat -> firstn k (seq start len) = seq start k.
Proof.
  revert start len. induction k as [|k IH]; intros start len Hk; [reflexivity|].
  destruct len as [|len]; [lia|]. simpl. f_equal. apply IH. lia.
Qed.

Lemma slice_map_seq {B} (f : nat -> B) n a b :
  (b <= n)%nat -> slice (map f (seq 0 n)) a b = map f (seq a (b - a)).
Proof.
  intro Hb. unfold slice. rewrite skipn_map, firstn_map. f_equal.
  rewrite skipn_seq, firstn_seq_le by lia. reflexivity.
Qed.

Lemma Qsum_nonneg l : (forall x, In x l -> 0 <= x) -> 0 <= Qsum l.
Proof.
  induction l as [|x l IH]; intro H; simpl; [lra|].
  assert (0 <= x) by (apply H; left; reflexivity).
  assert (0 <= Qsum l) by (apply IH; intros; apply H; right; assumption).
  unfold Qsum in *. lra.
Qed.

Lemma Qsum_zero l : (forall x, In x l -> x == 0) -> Qsum l == 0.
Proof.
  induction l as [|x l IH]; intro H; simpl; [reflexivity|].
  rewrite (H x) by (left; reflexivity).
  fold (Qsum l). rewrite IH by (intros; apply H; right; assumption). ring.
Qed.

Lemma Qsum_pos l : l <> [] -> (forall x, In x l -> 0 < x) -> 0 < Qsum l.
Proof.
  destruct l as [|x l]; intros Hne H; [congruence|]. simpl.
  assert (0 < x) by (apply H; left; reflexivity).
  assert (0 <= Qsum l).
  { apply Qsum_nonneg. intros y Hy. apply Qlt_le_weak, H. right. exact Hy. }
  unfold Qsum in *. lra.
Qed.

(** The rolling mean of a series of finite values. *)
Lemma rolling_mean_at_Fin w (l : list Q) i :
  rolling_mean_at w (map Fin l) i
  = if (w =? 0)%nat then NaN
    else if (i + 1 <? w)%nat then NaN
    else Fin (Qsum (slice l (i + 1 - w) (i + 1)) / of_nat_Q w).
Proof.
  unfold rolling_mean_at.
  destruct (w =? 0)%nat eqn:E0; [reflexivity|].
  destruct (i + 1 <? w)%nat; [reflexivity|]. cbv zeta.
  rewrite <- map_slice, any_nan_Fin, fsum_Fin. unfold fdiv, Qzero_bool.
  apply Nat.eqb_neq in E0.
  assert (Hp : 0 < of_nat_Q w) by (apply of_nat_Q_pos; lia).
  destruct (Qeq_bool (of_nat_Q w) 0) eqn:E; [apply Qeq_bool_iff in E; lra|].
  reflexivity.
Qed.

End RsiFacts.
Section RsiCore.

Lemma Qzero_bool_false q : ~ q == 0 -> Qzero_bool q = false.
Proof.
  intro H. unfold Qzero_bool. apply not_true_is_false. intro E.
  apply Qeq_bool_iff in E. contradiction.
Qed.

Lemma Qzero_bool_true q : q == 0 -> Qzero_bool q = true.
Proof. intro H. unfold Qzero_bool. apply Qeq_bool_iff. exact H. Qed.

Lemma Qdiv_nonneg a b : 0 <= a -> 0 < b -> 0 <= a / b.
Proof. intros Ha Hb. apply Qle_shift_div_l; [exact Hb|]. lra. Qed.

(** RSI from a finite average gain and a positive average loss. *)
Lemma rsi_of_loss_pos G L :
  0 <= G -> 0 < L ->
  exists q, rsi_of (Fin G) (Fin L) = Fin q /\ 0 <= q /\ q < 100.
Proof.
  intros HG HL. unfold rsi_of. cbv zeta. unfold fdiv at 2.
  rewrite (Qzero_bool_false L) by lra. cbn [fadd].
  pose proof (Qdiv_nonneg G L HG HL) as Hx.
  unfold fdiv. rewrite (Qzero_bool_false (1 + G / L)) by lra.
  cbn [fsub fneg fadd]. eexists. split; [reflexivity|].
  assert (H1 : 100 / (1 + G / L) <= 100).
  { apply Qle_shift_div_r; lra. }
  assert (H2 : 0 < 100 / (1 + G / L)).
  { apply Qlt_shift_div_l; lra. }
  lra.
Qed.

(** RSI when the average loss is 0: 100 for a positive gain, NaN for none. *)
Lemma rsi_of_loss_zero_gain_pos G L :
  0 < G -> L == 0 -> fl_eq (rsi_of (Fin G) (Fin L)) (Fin 100).
Proof.
  intros HG HL. unfold rsi_of. cbv zeta. unfold fdiv at 2.
  rewrite (Qzero_bool_true L HL), (Qzero_bool_false G) by lra.
  unfold Qpos_bool. replace (Qlt_bool 0 G) with true
    by (symmetry; apply Qlt_bool_iff; exact HG).
  simpl. lra.
Qed.

Lemma rsi_of_loss_zero_gain_zero G L :
  G == 0 -> L == 0 -> rsi_of (Fin G) (Fin L) = NaN.
Proof.
  intros HG HL. unfold rsi_of. cbv zeta. unfold fdiv at 2.
  rewrite (Qzero_bool_true L HL), (Qzero_bool_true G HG). reflexivity.
Qed.

Lemma rsi_of_NaN_l y : rsi_of NaN y = NaN.
Proof. reflexivity. Qed.

Lemma rsi_of_NaN_r x : rsi_of x NaN = NaN.
Proof. destruct x; reflexivity. Qed.

(** With non-negative averages RSI is NaN or a value of [0, 100]. *)
Lemma rsi_of_range G L :
  0 <= G -> 0 <= L ->
  rsi_of (Fin G) (Fin L) = NaN \/ in_range 0 100 (rsi_of (Fin G) (Fin L)).
Proof.
  intros HG HL.
  destruct (Qlt_le_dec 0 L) as [HLp|HLz].
  - right. destruct (rsi_of_loss_pos G L HG HLp) as (q & -> & H0 & H1).
    simpl. lra.
  - assert (HL0 : L == 0) by lra.
    destruct (Qlt_le_dec 0 G) as [HGp|HGz].
    + right. pose proof (rsi_of_loss_zero_gain_pos G L HGp HL0) as H.
      destruct (rsi_of (Fin G) (Fin L)); simpl in *; try contradiction. lra.
    + left. apply rsi_of_loss_zero_gain_zero; lra.
Qed.

Variable prices : list Q.
Variable period : nat.

Lemma rolling_mean_length w (s : list fl) : length (rolling_mean w s) = length s.
Proof. unfold rolling_mean. rewrite length_map, length_seq. reflexivity. Qed.

Lemma rsi_raw_length : length (rsi_raw prices period) = length prices.
Proof.
  unfold rsi_raw. cbv zeta.
  rewrite length_map, length_combine, !rolling_mean_length, !length_map, diff_length.
  apply Nat.min_id.
Qed.

Lemma rsi_raw_nth i :
  (i < length prices)%nat ->
  nth i (rsi_raw prices period) NaN
  = rsi_of (avg_gain prices period i) (avg_loss prices period i).
Proof.
  intro Hi. pose proof rsi_raw_length as Hlen.
  unfold rsi_raw in *. cbv zeta in *.
  set (f := fun gl : fl * fl => rsi_of (fst gl) (snd gl)) in *.
  rewrite (nth_indep _ NaN (f (NaN, NaN))) by (rewrite Hlen; exact Hi).
  rewrite (map_nth f).
  rewrite combine_nth
    by (rewrite !rolling_mean_length, !length_map; reflexivity).
  unfold f, rolling_mean. cbn [fst snd].
  rewrite !length_map, diff_length.
  rewrite !nth_map_seq by exact Hi. reflexivity.
Qed.

Lemma avg_gain_warm i :
  (i < length prices)%nat -> (1 <= period)%nat -> (period <= i + 1)%nat ->
  avg_gain prices period i
  = Fin (Qsum (map (gain_at prices) (seq (i + 1 - period) period)) / of_nat_Q period).
Proof.
  intros Hi Hp Hw. unfold avg_gain. rewrite gains_as_Q, rolling_mean_at_Fin.
  destruct (period =? 0)%nat eqn:E0; [apply Nat.eqb_eq in E0; lia|].
  destruct (i + 1 <? period)%nat eqn:E1; [apply Nat.ltb_lt in E1; lia|].
  rewrite slice_map_seq by lia.
  replace (i + 1 - (i + 1 - period))%nat with period by lia. reflexivity.
Qed.

Lemma avg_loss_warm i :
  (i < length prices)%nat -> (1 <= period)%nat -> (period <= i + 1)%nat ->
  avg_loss prices period i
  = Fin (Qsum (map (loss_at prices) (seq (i + 1 - period) period)) / of_nat_Q period).
Proof.
  intros Hi Hp Hw. unfold avg_loss. rewrite losses_as_Q, rolling_mean_at_Fin.
  destruct (period =? 0)%nat eqn:E0; [apply Nat.eqb_eq in E0; lia|].
  destruct (i + 1 <? period)%nat eqn:E1; [apply Nat.ltb_lt in E1; lia|].
  rewrite slice_map_seq by lia.
  replace (i + 1 - (i + 1 - period))%nat with period by lia. reflexivity.
Qed.

Lemma avg_cold i :
  (period = 0 \/ i + 1 < period)%nat ->
  avg_gain prices period i = NaN /\ avg_loss prices period i = NaN.
Proof.
  intro H. unfold avg_gain, avg_loss, rolling_mean_at.
  destruct (period =? 0)%nat eqn:E0; [split; reflexivity|].
  destruct (i + 1 <? period)%nat eqn:E1; [split; reflexivity|].
  apply Nat.eqb_neq in E0. apply Nat.ltb_ge in E1. lia.
Qed.

End RsiCore.

Lemma rsi_series_nth prices period i :
  (i < length prices)%nat ->
  nth i (Indicators._calculate_rsi prices period) NaN
  = fillna 50 (rsi_of (avg_gain prices period i) (avg_loss prices period i)).
Proof.
  intro Hi. unfold Indicators._calculate_rsi.
  rewrite (nth_indep _ NaN (fillna 50 NaN))
    by (rewrite length_map, rsi_raw_length; exact Hi).
  rewrite (map_nth (fillna 50)), rsi_raw_nth by exact Hi. reflexivity.
Qed.

Lemma avg_nonneg prices period i :
  (i < length prices)%nat ->
  (avg_gain prices period i = NaN /\ avg_loss prices period i = NaN)
  \/ exists G L, avg_gain prices period i = Fin G /\ avg_loss prices period i = Fin L
                 /\ 0 <= G /\ 0 <= L.
Proof.
  intro Hi.
  destruct (Nat.eq_dec period 0) as [E0|N0]; [left; apply avg_cold; lia|].
  destruct (Nat.lt_ge_cases (i + 1) period) as [Hc|Hw]; [left; apply avg_cold; lia|].
  right. rewrite avg_gain_warm, avg_loss_warm by lia.
  do 2 eexists. split; [reflexivity|]. split; [reflexivity|].
  assert (Hp : 0 < of_nat_Q period) by (apply of_nat_Q_pos; lia).
  split; apply Qdiv_nonneg; try exact Hp; apply Qsum_nonneg; intros x Hx;
    apply in_map_iff in Hx; destruct Hx as (j & <- & _).
  - apply gain_at_nonneg.
  - apply loss_at_nonneg.
Qed.

(** On strictly rising prices every bar after the first has a positive gain
    and no loss. *)
Lemma rising_gain_loss prices j :
  rising_prices prices -> (S j < length prices)%nat ->
  0 < gain_at prices (S j) /\ loss_at prices (S j) == 0.
Proof.
  intros Hr Hj. specialize (Hr j Hj). unfold gain_at, loss_at. cbv zeta.
  assert (E1 : Qlt_bool 0 (iloc prices (S j) - iloc prices j) = true)
    by (apply Qlt_bool_iff; lra).
  assert (E2 : Qlt_bool (iloc prices (S j) - iloc prices j) 0 = false)
    by (apply Qlt_bool_false; lra).
  rewrite E1, E2. split; lra.
Qed.

Lemma rising_rsi_100 prices period i :
  rising_prices prices -> (1 <= period)%nat -> (period <= i)%nat ->
  (i < length prices)%nat ->
  fl_eq (nth i (Indicators._calculate_rsi prices period) NaN) (Fin 100).
Proof.
  intros Hr Hp Hpi Hi. rewrite rsi_series_nth by exact Hi.
  rewrite avg_gain_warm, avg_loss_warm by lia.
  assert (Hq : 0 < of_nat_Q period) by (apply of_nat_Q_pos; lia).
  assert (Hin : forall j, In j (seq (i + 1 - period) period) ->
                 exists k, j = S k /\ (S k < length prices)%nat).
  { intros j Hj. apply in_seq in Hj. destruct j as [|k]; [lia|].
    exists k. split; [reflexivity|lia]. }
  assert (HG : 0 < Qsum (map (gain_at prices) (seq (i + 1 - period) period))).
  { apply Qsum_pos.
    - destruct period; [lia|]. discriminate.
    - intros x Hx. apply in_map_iff in Hx. destruct Hx as (j & <- & Hj).
      destruct (Hin j Hj) as (k & -> & Hk). apply rising_gain_loss; assumption. }
  assert (HL : Qsum (map (loss_at prices) (seq (i + 1 - period) period)) == 0).
  { apply Qsum_zero.
    intros x Hx. apply in_map_iff in Hx. destruct Hx as (j & <- & Hj).
    destruct (Hin j Hj) as (k & -> & Hk). apply rising_gain_loss; assumption. }
  match goal with |- fl_eq (fillna 50 ?r) _ => assert (H : fl_eq r (Fin 100)) end.
  { apply rsi_of_loss_zero_gain_pos.
    - apply Qlt_shift_div_l; lra.
    - rewrite HL. field. lra. }
  destruct (rsi_of _ _); simpl in *; try contradiction. exact H.
Qed.

(** The series-valued definition of [_calculate_rsi] (lines 775-788), which
    the class rebinds further down, so that no call reaches it.  Its series
    has one value per close, each in [0, 100].  An index where the raw RSI
    is undefined (NaN) holds 50: that is so during the warm-up and wherever
    the rolling gain and loss averages are both 0.  A zero loss average with
    a positive gain average gives 100.  On strictly rising closes, with
    [1 <= period < len(prices)], the RSI is 100 at every index from
    [period] on, the last one included. *)
Theorem rsi_series_bounded (prices : list Q) (period : nat) :
  let rsi := Indicators._calculate_rsi prices period in
  length rsi = length prices
  /\ (forall i, (i < length prices)%nat -> in_range 0 100 (nth i rsi NaN))
  /\ (forall i, (i < length prices)%nat ->
        nth i (rsi_raw prices period) NaN = NaN -> nth i rsi NaN = Fin 50)
  /\ (forall i, (i < length prices)%nat ->
        (period = 0 \/ i + 1 < period)%nat -> nth i rsi NaN = Fin 50)
  /\ (forall i g l, (i < length prices)%nat ->
        avg_gain prices period i = Fin g -> avg_loss prices period i = Fin l ->
        l == 0 ->
        (0 < g -> fl_eq (nth i rsi NaN) (Fin 100))
        /\ (g == 0 -> nth i rsi NaN = Fin 50))
  /\ (rising_prices prices -> (1 <= period)%nat ->
        (forall i, (period <= i)%nat -> (i < length prices)%nat ->
           fl_eq (nth i rsi NaN) (Fin 100))
        /\ ((period < length prices)%nat -> fl_eq (last rsi NaN) (Fin 100))).
Proof.
  cbv zeta.
  assert (Hlen : length (Indicators._calculate_rsi prices period) = length prices).
  { unfold Indicators._calculate_rsi. rewrite length_map. apply rsi_raw_length. }
  split; [exact Hlen|].
  split.
  { intros i Hi. rewrite rsi_series_nth by exact Hi.
    destruct (avg_nonneg prices period i Hi) as [[-> ->]|(G & L & -> & -> & HG & HL)].
    - simpl. lra.
    - destruct (rsi_of_range G L HG HL) as [->|H]; [simpl; lra|].
      destruct (rsi_of (Fin G) (Fin L)); simpl in *; try contradiction. exact H. }
  split.
  { intros i Hi Hraw. rewrite rsi_series_nth by exact Hi.
    rewrite rsi_raw_nth in Hraw by exact Hi. rewrite Hraw. reflexivity. }
  split.
  { intros i Hi Hc. rewrite rsi_series_nth by exact Hi.
    destruct (avg_cold prices period i Hc) as [-> ->]. reflexivity. }
  split.
  { intros i g l Hi Hg Hl Hz. rewrite rsi_series_nth by exact Hi. rewrite Hg, Hl.
    split; intro H.
    - pose proof (rsi_of_loss_zero_gain_pos g l H Hz) as E.
      destruct (rsi_of (Fin g) (Fin l)); simpl in *; try contradiction. exact E.
    - rewrite (rsi_of_loss_zero_gain_zero g l H Hz). reflexivity. }
  intros Hr Hp. split.
  { intros i Hpi Hi. apply rising_rsi_100; assumption. }
  intro Hlt. rewrite last_as_nth, Hlen.
  apply rising_rsi_100; try assumption; lia.
Qed.

(** The definition of [_calculate_rsi] that calls reach returns, on a
    series that is not empty, the raw RSI of the last bar. *)
Lemma scalar_rsi_as_last prices period :
  prices <> [] ->
  Scoring._calculate_rsi prices period
  = rsi_of (avg_gain prices period (length prices - 1))
           (avg_loss prices period (length prices - 1)).
Proof.
  intro Hne. unfold Scoring._calculate_rsi.
  pose proof (rsi_raw_length prices period) as Hlen.
  assert (Hpos : (0 < length prices)%nat) by (destruct prices; [congruence|simpl; lia]).
  destruct (rsi_raw prices period) as [|x l] eqn:E; [simpl in Hlen; lia|].
  rewrite <- E. unfold last_fl. rewrite last_as_nth, rsi_raw_length.
  apply rsi_raw_nth. lia.
Qed.

(** C4.  The [_calculate_rsi] that calls reach (lines 1525-1535, rebinding
    the definition at lines 775-788) returns the last raw value without
    filling it.  On every series that is not empty and shorter than the
    period it returns NaN, where each entry of the series-valued definition
    is 50.  On three equal closes with period 2 the loss average of the last
    bar is 0, the series-valued definition holds 50 and the definition that
    runs returns NaN, which is no value of [0, 100]; so it does on three
    closes with the default period 14.  Twelve bars scanned with the default
    parameters come back with NaN as their [rsi]. *)
Theorem rsi_undefined_is_nan :
  (forall prices period, prices <> [] -> (length prices < period)%nat ->
     Scoring._calculate_rsi prices period = NaN
     /\ forall i, (i < length prices)%nat ->
          nth i (Indicators._calculate_rsi prices period) NaN = Fin 50)
  /\ Scoring._calculate_rsi [5; 5; 5] 2 = NaN
  /\ fl_eq (avg_loss [5; 5; 5] 2 2) (Fin 0)
  /\ nth 2 (Indicators._calculate_rsi [5; 5; 5] 2) NaN = Fin 50
  /\ ~ in_range 0 100 (Scoring._calculate_rsi [5; 5; 5] 2)
  /\ Scoring._calculate_rsi [1; 2; 3] 14 = NaN
  /\ option_map ScanResult.rsi
       (Scanner.analyze_stock_volume any_sqrt 0%Z (Some bars12) "AKBNK"
          Scanner.default_params) = Some NaN.
Proof.
  split.
  { intros prices period Hne Hshort.
    assert (Hpos : (0 < length prices)%nat)
      by (destruct prices; [congruence|simpl; lia]).
    split.
    - rewrite scalar_rsi_as_last by exact Hne.
      destruct (avg_cold prices period (length prices - 1)) as [-> _]; [lia|].
      reflexivity.
    - intros i Hi. rewrite rsi_series_nth by exact Hi.
      destruct (avg_cold prices period i) as [-> _]; [lia|]. reflexivity. }
  split; [vm_compute; reflexivity|].
  split; [vm_compute; reflexivity|].
  split; [vm_compute; reflexivity|].
  split; [intro H; vm_compute in H; exact H|].
  split; vm_compute; reflexivity.
Qed.

(** ** Scoring *)

Section ScoringFacts.

Lemma guarded_tier_cases op v e g :
  guarded_tier op v e g
  = Ok (if meets op v e then 2 else if meets fle v g then 1 else 0)%nat.
Proof.
  unfold guarded_tier, tier, and_then, compare, meets, not_none.
  destruct v as [x|]; cbn [bind]; [|reflexivity].
  destruct (op x (Fin e)); [reflexivity|]. cbn [bind].
  destruct (fle x (Fin g)); reflexivity.
Qed.

Lemma plain_tier_cases op x e g :
  plain_tier op (Some x) e g
  = Ok (if meets fge (Some x) e then 2 else if meets op (Some x) g then 1 else 0)%nat.
Proof.
  unfold plain_tier, tier, compare, meets. cbn [bind].
  destruct (fge x (Fin e)); [reflexivity|]. cbn [bind].
  destruct (op x (Fin g)); reflexivity.
Qed.

Lemma as_percent_pct v : as_percent v = Ok (pct v).
Proof.
  unfold as_percent, and_then, compare, pct, not_none.
  destruct v as [x|]; cbn [bind]; [|reflexivity].
  destruct (flt x (Fin 1)); reflexivity.
Qed.

Lemma pct_some v : exists x, pct v = Some x.
Proof.
  destruct v as [x|]; simpl; [|eexists; reflexivity].
  destruct (flt x (Fin 1)); eexists; reflexivity.
Qed.

Lemma or_zero_some v : exists x, or_zero v = Some x.
Proof. destruct v; eexists; reflexivity. Qed.

Lemma ocf_tier_cases ocf ni :
  ocf_tier ocf ni
  = Ok (if meets fgt ocf 0 && ni_positive ni then 2
        else if meets fgt ocf 0 then 1 else 0)%nat.
Proof.
  unfold ocf_tier, tier, and_then, compare, meets, not_none.
  destruct ocf as [x|]; cbn [bind]; [|reflexivity].
  destruct (fgt x (Fin 0)); cbn [bind andb]; [|reflexivity].
  destruct (ni_positive ni); reflexivity.
Qed.

Lemma fundamental_rows_eq th s :
  fundamental_rows th s
  = Ok (rows_of fundamental_names (fundamental_points_of th s)).
Proof.
  unfold fundamental_rows. cbv zeta.
  rewrite !guarded_tier_cases. cbn [bind].
  rewrite !as_percent_pct. cbn [bind].
  destruct (pct_some (profit_margin (fundamentals s))) as (m & Em).
  destruct (pct_some (roe (fundamentals s))) as (r & Er).
  destruct (or_zero_some (rev_growth_3y s)) as (sg & Esg).
  destruct (or_zero_some (ni_growth_3y s)) as (ng & Eng).
  destruct (or_zero_some (current_ratio s)) as (cr & Ecr).
  unfold fundamental_points_of, tier_points. cbv zeta.
  rewrite Em, Er, Esg, Eng, Ecr.
  rewrite !plain_tier_cases. cbn [bind].
  rewrite ocf_tier_cases. cbn [bind].
  reflexivity.
Qed.

Lemma fundamental_rows_ok th s :
  exists rows, fundamental_rows th s = Ok rows
               /\ map Puan rows = fundamental_points_of th s
               /\ length rows = 10%nat.
Proof.
  rewrite fundamental_rows_eq. eexists. split; [reflexivity|].
  split; reflexivity.
Qed.

Lemma technical_rows_points th s :
  map Puan (technical_rows th s) = technical_points_of th s
  /\ length (technical_rows th s) = 5%nat.
Proof.
  unfold technical_rows, technical_points_of, above, volume_above, macd_positive,
    tier_points.
  cbv zeta. cbn [map Puan length].
  split; [|reflexivity].
  destruct (last_defined (sma200 s)), (last_defined (sma50 s)),
    (last_defined (vol20 s)), (macd_line s), (macd_signal s); reflexivity.
Qed.

Lemma sum_points_acc rows acc :
  fold_left (fun a r => (a + Puan r)%nat) rows acc
  = (acc + list_sum (map Puan rows))%nat.
Proof.
  revert acc. induction rows as [|r rows IH]; intro acc; simpl; [lia|].
  rewrite IH. lia.
Qed.

Lemma sum_points_list_sum rows : sum_points rows = list_sum (map Puan rows).
Proof. unfold sum_points. rewrite sum_points_acc. reflexivity. Qed.

Lemma tier_points_le e g : (tier_points e g <= 2)%nat.
Proof. destruct e, g; simpl; lia. Qed.

Lemma two_if_le c : (two_if c <= 2)%nat.
Proof. destruct c; simpl; lia. Qed.

Lemma fundamental_sum_le th s :
  (list_sum (fundamental_points_of th s) <= 20)%nat.
Proof.
  unfold fundamental_points_of. cbv zeta. cbn [list_sum fold_right].
  repeat match goal with
  | |- context [tier_points ?e ?g] =>
      pose proof (tier_points_le e g); generalize dependent (tier_points e g); intros
  end.
  lia.
Qed.

Lemma technical_sum_le th s :
  (list_sum (technical_points_of th s) <= 10)%nat.
Proof.
  unfold technical_points_of. cbn [list_sum fold_right].
  repeat match goal with
  | |- context [tier_points ?e ?g] =>
      pose proof (tier_points_le e g); generalize dependent (tier_points e g); intros
  | |- context [two_if ?c] =>
      pose proof (two_if_le c); generalize dependent (two_if c); intros
  end.
  lia.
Qed.

Lemma recommend_tiers n :
  ((20 <= n)%nat -> recommend n = "Güçlü Al"%string)
  /\ ((16 <= n < 20)%nat -> recommend n = "Al"%string)
  /\ ((12 <= n < 16)%nat -> recommend n = "Tut"%string)
  /\ ((8 <= n < 12)%nat -> recommend n = "Sat"%string)
  /\ ((n < 8)%nat -> recommend n = "Güçlü Sat"%string).
Proof.
  unfold recommend.
  repeat match goal with |- _ /\ _ => split end; intro H;
    repeat match goal with
    | |- context [(?a <=? n)%nat] => destruct (Nat.leb_spec a n)
    end; try reflexivity; lia.
Qed.

End ScoringFacts.

Lemma meets_or_zero op v t :
  meets op v t = true -> meets op (or_zero v) t = true.
Proof. destruct v; simpl; [tauto|discriminate]. Qed.

Lemma all_excellent_points th s :
  all_excellent th s = true ->
  fundamental_points_of th s = repeat 2%nat 10
  /\ technical_points_of th s = repeat 2%nat 5.
Proof.
  unfold all_excellent. cbv zeta. rewrite !andb_true_iff.
  intros ((((((((((((((H1 & H2) & H3) & H4) & H5) & H6) & H7) & H8) & H9)
            & (H10 & H10')) & H11) & H12) & H13) & H14) & H15).
  unfold fundamental_points_of, technical_points_of. cbv zeta.
  rewrite H1, H2, H3, H4, H7, H8, H10, H10', H11, H12, H13, H14, H15.
  rewrite (meets_or_zero _ _ _ H5), (meets_or_zero _ _ _ H6), (meets_or_zero _ _ _ H9).
  split; reflexivity.
Qed.

Lemma meets_none_points th s :
  meets_none th s = true ->
  fundamental_points_of th s = repeat 0%nat 10
  /\ technical_points_of th s = repeat 0%nat 5.
Proof.
  unfold meets_none. cbv zeta. rewrite !andb_true_iff, !negb_true_iff, !orb_false_iff.
  intros ((((((((((((((H1 & H2) & H3) & H4) & H5) & H6) & H7) & H8) & H9)
            & H10) & H11) & H12) & H13) & H14) & H15).
  destruct H1 as [H1 H1'], H2 as [H2 H2'], H3 as [H3 H3'], H4 as [H4 H4'],
    H5 as [H5 H5'], H6 as [H6 H6'], H7 as [H7 H7'], H8 as [H8 H8'],
    H9 as [H9 H9'], H13 as [H13 H13'].
  unfold fundamental_points_of, technical_points_of. cbv zeta.
  rewrite H1, H1', H2, H2', H3, H3', H4, H4', H5, H5', H6, H6', H7, H7',
    H8, H8', H9, H9', H10, H11, H12, H13, H13', H14, H15.
  split; reflexivity.
Qed.

(** C1.  The scoring block never raises; its fundamental total is at most
    20, its technical total at most 10 and the score, their sum, at most
    30.  The recommendation is a function of the score alone: 20 and more is
    Güçlü Al (strong buy), 16 to 19 Al (buy), 12 to 15 Tut (hold), 8 to 11
    Sat (sell), less Güçlü Sat (strong sell).  A snapshot that meets every
    "excellent" bound scores 30 and is a strong buy; one that meets no
    bound scores 0 and is a strong sell. *)
Theorem score_bounded (sym : string) (th : Thresholds) (s : Snapshot) :
  exists r,
    score sym th s = Ok r
    /\ (fundamental_points r <= 20)%nat
    /\ (technical_points r <= 10)%nat
    /\ total_points r = (fundamental_points r + technical_points r)%nat
    /\ (total_points r <= 30)%nat
    /\ recommendation r = recommend (total_points r)
    /\ ((20 <= total_points r)%nat -> recommendation r = "Güçlü Al"%string)
    /\ ((16 <= total_points r < 20)%nat -> recommendation r = "Al"%string)
    /\ ((12 <= total_points r < 16)%nat -> recommendation r = "Tut"%string)
    /\ ((8 <= total_points r < 12)%nat -> recommendation r = "Sat"%string)
    /\ ((total_points r < 8)%nat -> recommendation r = "Güçlü Sat"%string)
    /\ (all_excellent th s = true ->
          total_points r = 30%nat /\ recommendation r = "Güçlü Al"%string)
    /\ (meets_none th s = true ->
          total_points r = 0%nat /\ recommendation r = "Güçlü Sat"%string).
Proof.
  destruct (fundamental_rows_ok th s) as (rows & Erows & Hpts & _).
  destruct (technical_rows_points th s) as (Htech & _).
  pose proof (fundamental_sum_le th s) as Hf.
  pose proof (technical_sum_le th s) as Ht.
  unfold score. rewrite Erows. cbn [bind]. cbv zeta.
  rewrite !sum_points_list_sum, Hpts, Htech.
  eexists. split; [reflexivity|].
  cbn [fundamental_points technical_points total_points recommendation].
  destruct (20 <? list_sum (fundamental_points_of th s))%nat eqn:Ecap;
    [apply Nat.ltb_lt in Ecap; lia|].
  destruct (recommend_tiers
              (list_sum (fundamental_points_of th s)
               + list_sum (technical_points_of th s))) as (T1 & T2 & T3 & T4 & T5).
  repeat match goal with |- _ /\ _ => split end;
    try assumption; try reflexivity; try lia.
  - intro Hall. destruct (all_excellent_points th s Hall) as [-> ->].
    split; reflexivity.
  - intro Hnone. destruct (meets_none_points th s Hnone) as [-> ->].
    split; reflexivity.
Qed.

Section MissingFields.

Lemma fundamentals_of_info_some info f :
  fundamentals_of_info info = Some f ->
  exists i, info = Some i
    /\ strict_check (py_or (trailingPE i) (forwardPE i)) 1000 = true
    /\ strict_check (priceToBook i) 100 = true
    /\ pe_ratio f = py_or (trailingPE i) (forwardPE i)
    /\ pb_ratio f = priceToBook i
    /\ roe f = py_or (returnOnEquity i) (Some (Fin 0))
    /\ debt_equity_ratio f = py_or (debtToEquity i) (Some (Fin 0))
    /\ profit_margin f = py_or (profitMargins i) (Some (Fin 0)).
Proof.
  unfold fundamentals_of_info. destruct info as [i|]; [|discriminate].
  destruct (strict_check (py_or (trailingPE i) (forwardPE i)) 1000) eqn:Epe;
    [|discriminate].
  destruct (strict_check (priceToBook i) 100) eqn:Epb; [|discriminate].
  intro H. injection H as <-. exists i. cbn. repeat split; assumption.
Qed.

Lemma get_fundamental_data_some data info f :
  get_fundamental_data data info = Some f -> fundamentals_of_info info = Some f.
Proof.
  unfold get_fundamental_data. destruct data as [[|b d]|]; try discriminate. tauto.
Qed.

Lemma strict_check_none hi : strict_check None hi = false.
Proof. reflexivity. Qed.

Lemma zero_default_no_points e g :
  0 < e -> 0 < g ->
  tier_points (meets fge (pct (Some (Fin 0))) e) (meets fge (pct (Some (Fin 0))) g)
  = 0%nat.
Proof.
  intros He Hg. unfold pct.
  replace (flt (Fin 0) (Fin 1)) with true by reflexivity.
  unfold meets, fge, fmul, fle.
  assert (H : forall t, 0 < t -> Qle_bool t (0 * 100) = false).
  { intros t Ht. apply not_true_is_false. intro E. apply Qle_bool_iff in E. lra. }
  rewrite (H e He), (H g Hg). reflexivity.
Qed.

Variable pv : Provider.
Variable sym : string.
Variable scoring_params : option dict.

Lemma analyze_single_stock_total :
  exists o, analyze_single_stock pv sym scoring_params = Ok o.
Proof.
  unfold analyze_single_stock. cbv zeta.
  destruct (get_fundamental_data _ _); [|eexists; reflexivity].
  destruct (stock_data pv sym) as [data|]; [|eexists; reflexivity].
  destruct (length data <? 50)%nat; [eexists; reflexivity|].
  destruct (_macd (col close data)) as [[ml ms] mh].
  unfold score. rewrite fundamental_rows_eq.
  cbn [bind]. eexists. reflexivity.
Qed.

(** The result, when there is one, is the score of a snapshot whose
    fundamentals come from [info] and whose statement values come from the
    statement rows. *)
Lemma analyze_single_stock_some r :
  analyze_single_stock pv sym scoring_params = Ok (Some r) ->
  exists f s,
    fundamentals_of_info (ticker_info pv sym) = Some f
    /\ fundamentals s = f
    /\ ev_ebitda s = ev_ebitda_of (ticker_info pv sym)
    /\ rev_growth_3y s = _avg_yoy_growth (rev_vals (statements pv sym))
    /\ ni_growth_3y s = _avg_yoy_growth (st_ni_vals (statements pv sym))
    /\ current_ratio s = current_ratio_of (statements pv sym)
    /\ ocf_last s = last_or_none (ocf_vals (statements pv sym))
    /\ fundamental_breakdown r
       = rows_of fundamental_names
           (fundamental_points_of (thresholds_of scoring_params) s).
Proof.
  unfold analyze_single_stock. cbv zeta.
  destruct (get_fundamental_data _ _) as [f|] eqn:Ef; [|discriminate].
  apply get_fundamental_data_some in Ef.
  destruct (stock_data pv sym) as [data|]; [|discriminate].
  destruct (length data <? 50)%nat; [discriminate|].
  destruct (_macd (col close data)) as [[ml ms] mh].
  match goal with |- context [score ?a ?b ?c] => set (s := c) end.
  unfold score. rewrite fundamental_rows_eq. cbn [bind]. cbv zeta.
  intro H. injection H as <-. exists f, s. cbn. repeat split; assumption.
Qed.

End MissingFields.

Lemma points_for_names p0 p1 p2 p3 p4 p5 p6 p7 p8 p9 :
  let pts := points_for
               (rows_of fundamental_names [p0; p1; p2; p3; p4; p5; p6; p7; p8; p9]) in
  pts "F/K Oranı"%string = Some p0
  /\ pts "PD/DD Oranı"%string = Some p1
  /\ pts "FD/FAVÖK"%string = Some p2
  /\ pts "Net Kâr Marjı (%)"%string = Some p3
  /\ pts "Satış Büyümesi 3Y (%)"%string = Some p4
  /\ pts "Net Kâr Büyümesi 3Y (%)"%string = Some p5
  /\ pts "ROE (%)"%string = Some p6
  /\ pts "Borç/Özkaynak"%string = Some p7
  /\ pts "Cari Oran"%string = Some p8
  /\ pts "Faaliyet Nakit Akımı"%string = Some p9.
Proof. cbv zeta. repeat split; reflexivity. Qed.

(** C8 (as the code has it).  [analyze_single_stock] never raises.  A
    symbol whose [info] lacks both P/E figures, or the price-to-book ratio,
    is dropped: the result is [None].  For a symbol that is scored, a
    missing profit margin or return on equity defaults to 0 and earns no
    point when the thresholds of that criterion are positive, and a missing
    EV/EBITDA, revenue row, net-income row, current-ratio row or operating
    cash-flow row earns no point for its criterion. *)
Theorem missing_fields_score_zero (pv : Provider) (sym : string)
    (scoring_params : option dict) :
  let th := thresholds_of scoring_params in
  let st := statements pv sym in
  (exists o, analyze_single_stock pv sym scoring_params = Ok o)
  /\ (forall i, ticker_info pv sym = Some i ->
        (trailingPE i = None /\ forwardPE i = None) \/ priceToBook i = None ->
        analyze_single_stock pv sym scoring_params = Ok None)
  /\ (forall r i,
        analyze_single_stock pv sym scoring_params = Ok (Some r) ->
        ticker_info pv sym = Some i ->
        let pts := points_for (fundamental_breakdown r) in
        (profitMargins i = None -> 0 < margin_excellent th -> 0 < margin_good th ->
           pts "Net Kâr Marjı (%)"%string = Some 0%nat)
        /\ (returnOnEquity i = None -> 0 < roe_excellent th -> 0 < roe_good th ->
           pts "ROE (%)"%string = Some 0%nat)
        /\ (enterpriseToEbitda i = None ->
            enterpriseValue i = None \/ ebitda i = None ->
           pts "FD/FAVÖK"%string = Some 0%nat)
        /\ (rev_vals st = None -> pts "Satış Büyümesi 3Y (%)"%string = Some 0%nat)
        /\ (st_ni_vals st = None ->
           pts "Net Kâr Büyümesi 3Y (%)"%string = Some 0%nat)
        /\ (ca_vals st = None \/ cl_vals st = None ->
           pts "Cari Oran"%string = Some 0%nat)
        /\ (ocf_vals st = None -> pts "Faaliyet Nakit Akımı"%string = Some 0%nat)).
Proof.
  cbv zeta. split; [apply analyze_single_stock_total|]. split.
  { intros i Hi Hmiss. unfold analyze_single_stock. cbv zeta.
    assert (E : get_fundamental_data (stock_data pv sym) (ticker_info pv sym) = None).
    { unfold get_fundamental_data.
      assert (E : fundamentals_of_info (Some i) = None).
      { unfold fundamentals_of_info.
        destruct Hmiss as [[-> ->]|Hpb]; [reflexivity|]. rewrite Hpb.
        destruct (strict_check _ 1000); reflexivity. }
      rewrite Hi, E. destruct (stock_data pv sym) as [[|b d]|]; reflexivity. }
    rewrite E. reflexivity. }
  intros r i Hr Hi.
  destruct (analyze_single_stock_some pv sym scoring_params r Hr)
    as (f & s & Hf & <- & Hev & Hrev & Hni & Hcr & Hocf & ->).
  rewrite Hi in Hf, Hev.
  destruct (fundamentals_of_info_some _ _ Hf)
    as (i' & Ei & _ & _ & _ & _ & Hroe & _ & Hpm).
  injection Ei as <-.
  unfold fundamental_points_of. cbv zeta.
  match goal with |- context [rows_of fundamental_names
                                [?p0; ?p1; ?p2; ?p3; ?p4; ?p5; ?p6; ?p7; ?p8; ?p9]] =>
    destruct (points_for_names p0 p1 p2 p3 p4 p5 p6 p7 p8 p9)
      as (_ & _ & E2 & E3 & E4 & E5 & E6 & _ & E8 & E9)
  end.
  cbv zeta in E2, E3, E4, E5, E6, E8, E9.
  rewrite E2, E3, E4, E5, E6, E8, E9. clear E2 E3 E4 E5 E6 E8 E9.
  repeat match goal with |- _ /\ _ => split end.
  - intros Hm He Hg. rewrite Hpm, Hm. f_equal. apply zero_default_no_points; assumption.
  - intros Hm He Hg. rewrite Hroe, Hm. f_equal. apply zero_default_no_points; assumption.
  - intros Hm Hm'. rewrite Hev. unfold ev_ebitda_of. rewrite Hm. cbn.
    destruct Hm' as [->| ->]; [reflexivity|].
    destruct (enterpriseValue i); reflexivity.
  - intros Hm. rewrite Hrev, Hm. reflexivity.
  - intros Hm. rewrite Hni, Hm. reflexivity.
  - intros Hm. rewrite Hcr. unfold current_ratio_of.
    destruct Hm as [->| ->]; [reflexivity|].
    cbn. destruct (last_or_none (ca_vals (statements pv sym))); reflexivity.
  - intros Hm. rewrite Hocf, Hm. reflexivity.
Qed.

(** ** Orchestrator *)

Section LoopFacts.

Context {A R : Type}.
Variable analyze : A -> outcome (option R).
Variable keep : R -> bool.
Variable diagnostic : A -> string -> string.

Lemma scan_loop_acc items rs ps :
  fold_left (scan_step analyze keep diagnostic) items (rs, ps)
  = (rs ++ filter keep (succeeded analyze items),
     ps ++ raised analyze diagnostic items).
Proof.
  revert rs ps. induction items as [|x items IH]; intros rs ps.
  - simpl. rewrite !app_nil_r. reflexivity.
  - cbn [fold_left]. unfold scan_step at 2. unfold succeeded, raised.
    cbn [flat_map]. fold (succeeded analyze items).
    fold (raised analyze diagnostic items).
    destruct (analyze x) as [[r|]|e].
    + cbn [app filter]. destruct (keep r); rewrite IH.
      * rewrite <- app_assoc. reflexivity.
      * reflexivity.
    + rewrite IH. reflexivity.
    + rewrite IH, <- app_assoc. reflexivity.
Qed.

Lemma scan_loop_eq items :
  scan_loop analyze keep diagnostic items
  = (filter keep (succeeded analyze items), raised analyze diagnostic items).
Proof. unfold scan_loop. rewrite scan_loop_acc. reflexivity. Qed.

Lemma succeeded_without_failed items :
  succeeded analyze (filter (fun x => negb (failed analyze x)) items)
  = succeeded analyze items.
Proof.
  induction items as [|x items IH]; [reflexivity|].
  unfold succeeded, failed in *. cbn [filter flat_map].
  destruct (analyze x) as [[r|]|e] eqn:E; cbn [negb].
  - cbn [flat_map]. rewrite E, IH. reflexivity.
  - exact IH.
  - exact IH.
Qed.

Lemma succeeded_count items :
  length (succeeded analyze items)
  = (length items - length (filter (failed analyze) items))%nat.
Proof.
  induction items as [|x items IH]; [reflexivity|].
  unfold succeeded, failed in *. cbn [filter flat_map].
  pose proof (filter_length_le
                (fun x => match analyze x with Ok (Some _) => false | _ => true end)
                items) as Hle.
  destruct (analyze x) as [[r|]|e]; cbn [length app]; rewrite ?length_app, IH;
    cbn [length]; lia.
Qed.

Lemma succeeded_In items r :
  In r (succeeded analyze items) <-> exists x, In x items /\ analyze x = Ok (Some r).
Proof.
  unfold succeeded. rewrite in_flat_map. split.
  - intros (x & Hx & Hr). exists x. split; [exact Hx|].
    destruct (analyze x) as [[r'|]|e]; simpl in Hr; try contradiction.
    destruct Hr as [->|[]]. reflexivity.
  - intros (x & Hx & E). exists x. split; [exact Hx|]. rewrite E. left. reflexivity.
Qed.

Lemma filter_all (l : list R) :
  (forall r, In r l -> keep r = true) -> filter keep l = l.
Proof.
  induction l as [|r l IH]; intro H; [reflexivity|]. simpl.
  rewrite (H r) by (left; reflexivity). f_equal. apply IH.
  intros; apply H; right; assumption.
Qed.

Variable gt : R -> R -> bool.

Lemma insert_desc_perm x l : Permutation (insert_desc gt x l) (x :: l).
Proof.
  induction l as [|y l IH]; [reflexivity|]. simpl.
  destruct (gt y x); [|reflexivity].
  rewrite IH. apply perm_swap.
Qed.

Lemma sort_desc_perm l : Permutation (sort_desc gt l) l.
Proof.
  induction l as [|x l IH]; [reflexivity|]. simpl.
  rewrite insert_desc_perm. constructor. exact IH.
Qed.

(** The sorted list is in descending order whenever the comparison is
    asymmetric: no element is followed by a greater one. *)
Lemma insert_desc_sorted x l :
  (forall a b, gt a b = true -> gt b a = false) ->
  Sorted (fun a b => gt b a = false) l ->
  Sorted (fun a b => gt b a = false) (insert_desc gt x l).
Proof.
  intros Hasym Hs. induction l as [|y l IH]; [repeat constructor|].
  simpl. destruct (gt y x) eqn:E.
  - apply Sorted_inv in Hs. destruct Hs as [Hs Hd].
    constructor; [apply IH; exact Hs|].
    destruct l as [|z l]; simpl.
    + constructor. apply Hasym. exact E.
    + destruct (gt z x) eqn:E2.
      * apply HdRel_inv in Hd. constructor. exact Hd.
      * constructor. apply Hasym. exact E.
  - constructor; [exact Hs|]. constructor. exact E.
Qed.

Lemma sort_desc_sorted l :
  (forall a b, gt a b = true -> gt b a = false) ->
  Sorted (fun a b => gt b a = false) (sort_desc gt l).
Proof.
  intro Hasym. induction l as [|x l IH]; [constructor|].
  simpl. apply insert_desc_sorted; assumption.
Qed.

End LoopFacts.

Lemma flt_asym x y : flt x y = true -> flt y x = false.
Proof.
  destruct x as [a| | |], y as [b| | |]; simpl; try congruence.
  rewrite Qlt_bool_iff, Qlt_bool_false. intro H. lra.
Qed.

Lemma volume_ratio_gt_asym a b :
  volume_ratio_gt a b = true -> volume_ratio_gt b a = false.
Proof. unfold volume_ratio_gt, fgt. apply flt_asym. Qed.

Lemma score_gt_asym a b : score_gt a b = true -> score_gt b a = false.
Proof.
  unfold score_gt.
  rewrite orb_true_iff, orb_false_iff, !andb_true_iff, !andb_false_iff,
    !Nat.ltb_lt, !Nat.ltb_ge, Nat.eqb_eq, Nat.eqb_neq.
  lia.
Qed.

Lemma enumerate_length stocks limit :
  length (enumerate_from_1 stocks (scan_total stocks limit)) = scan_total stocks limit.
Proof.
  unfold enumerate_from_1, scan_total.
  rewrite length_combine, length_seq, length_firstn. destruct limit; lia.
Qed.

(** C9 (as the code has it).  Both batch loops run to the end whatever the
    per-symbol work does: they return the kept results of the symbols whose work returned
    one, sorted, and they print one line for each symbol whose work raised.
    The results are those of the batch run on the symbols that did not fail;
    when every result that is returned passes the filter, [n] symbols with
    [k] failures give [n - k] results. *)
Theorem batch_skips_failures :
  (forall (analyze : string -> outcome (option ScanResult.t))
          (symbols : list string) (min_volume_ratio : Q),
     let out := batch_analyze analyze symbols min_volume_ratio in
     Permutation (fst out)
       (filter (volume_keep min_volume_ratio) (succeeded analyze symbols))
     /\ Sorted (fun a b => volume_ratio_gt b a = false) (fst out)
     /\ snd out = raised analyze batch_diagnostic symbols
     /\ fst (batch_analyze analyze
               (filter (fun s => negb (failed analyze s)) symbols) min_volume_ratio)
        = fst out
     /\ ((forall r, In r (succeeded analyze symbols) ->
                    volume_keep min_volume_ratio r = true) ->
         length (fst out)
         = (length symbols - length (filter (failed analyze) symbols))%nat))
  /\ (forall (stocks : list string)
             (analyze : string -> outcome (option ScoreResult))
             (min_total_points : nat)
             (progress_callback : option (nat -> nat -> string -> outcome unit))
             (limit : option nat),
        let total := scan_total stocks limit in
        let items := enumerate_from_1 stocks total in
        let work := comprehensive_item analyze progress_callback total in
        let out := analyze_stocks_comprehensive stocks analyze min_total_points
                     progress_callback limit in
        Permutation (fst out)
          (filter (points_keep min_total_points) (succeeded work items))
        /\ Sorted (fun a b => score_gt b a = false) (fst out)
        /\ snd out = raised work comprehensive_diagnostic items
        /\ ((forall r, In r (succeeded work items) ->
                       points_keep min_total_points r = true) ->
            length (fst out)
            = (total - length (filter (failed work) items))%nat)
        /\ (progress_callback = None -> forall item, work item = analyze (snd item))).
Proof.
  split.
  - intros analyze symbols min_volume_ratio. cbv zeta.
    unfold batch_analyze. rewrite !scan_loop_eq. cbn [fst snd].
    split; [apply sort_desc_perm|].
    split; [apply sort_desc_sorted, volume_ratio_gt_asym|].
    split; [reflexivity|].
    split; [rewrite succeeded_without_failed; reflexivity|].
    intro Hkeep.
    rewrite (Permutation_length (sort_desc_perm _ _)).
    rewrite filter_all by exact Hkeep. apply succeeded_count.
  - intros stocks analyze min_total_points progress_callback limit. cbv zeta.
    unfold analyze_stocks_comprehensive.
    destruct stocks as [|s0 stocks'] eqn:Es.
    + assert (E0 : scan_total [] limit = 0%nat) by (destruct limit as [[|l]|]; reflexivity).
      rewrite E0. cbn.
      repeat split; try constructor.
      destruct progress_callback; [discriminate|]. reflexivity.
    + rewrite <- Es. rewrite !scan_loop_eq. cbn [fst snd].
      split; [apply sort_desc_perm|].
      split; [apply sort_desc_sorted, score_gt_asym|].
      split; [reflexivity|].
      split.
      * intro Hkeep.
        rewrite (Permutation_length (sort_desc_perm _ _)).
        rewrite filter_all by exact Hkeep.
        rewrite succeeded_count, enumerate_length. reflexivity.
      * intros -> item. reflexivity.
Qed.

(** ** Volume analysis of one symbol *)

Section VolumeGuard.

Variable sqrt : Q -> Q.

Lemma rolling_mean_at_finite w (l : list Q) i :
  rolling_mean_at w (map Fin l) i = NaN
  \/ exists q, rolling_mean_at w (map Fin l) i = Fin q.
Proof.
  rewrite rolling_mean_at_Fin.
  destruct (w =? 0)%nat; [left; reflexivity|].
  destruct (i + 1 <? w)%nat; [left; reflexivity|].
  right. eexists. reflexivity.
Qed.

Lemma rolling_mean_last_finite w (l : list Q) :
  last_fl (rolling_mean w (map Fin l)) = NaN
  \/ exists q, last_fl (rolling_mean w (map Fin l)) = Fin q.
Proof.
  unfold last_fl. rewrite last_as_nth.
  destruct (rolling_mean w (map Fin l)) as [|x xs] eqn:E; [left; reflexivity|].
  rewrite <- E. unfold rolling_mean.
  assert (Hlen : (0 < length (map Fin l))%nat).
  { assert (H : length (rolling_mean w (map Fin l)) = length (map Fin l))
      by apply rolling_mean_length.
    rewrite E in H. simpl in H. lia. }
  rewrite length_map, length_seq.
  rewrite nth_map_seq by lia. apply rolling_mean_at_finite.
Qed.

Ltac break_pairs H :=
  repeat match type of H with
  | context [match ?x with pair _ _ => _ end] => destruct x
  end.

Lemma analyze_frame_some now sym p data r :
  Scanner.analyze_frame sqrt now sym p data = Some r ->
  let volume_sma := last_fl (rolling_mean (Scanner.sma_period p) (map Fin (col volume data))) in
  let current_volume := last (col volume data) 0 in
  ScanResult.current_volume r = Fin current_volume
  /\ ScanResult.volume_sma r = volume_sma
  /\ ScanResult.volume_ratio r = fdiv (Fin current_volume) volume_sma
  /\ ScanResult.last_update r = now
  /\ isna volume_sma = false /\ fzero volume_sma = false
  /\ (Scanner.sma_period p <= length data)%nat.
Proof.
  unfold Scanner.analyze_frame. cbv zeta.
  destruct (length data <? Scanner.sma_period p)%nat eqn:Elen; [discriminate|].
  apply Nat.ltb_ge in Elen.
  destruct (Scanner.ewm_mean (Scanner.ema_short p) _); [|discriminate].
  destruct (Scanner.ewm_mean (Scanner.ema_long p) _); [|discriminate].
  destruct (Scanner.ewm_mean (Scanner.macd_fast p) _); [|discriminate].
  destruct (Scanner.ewm_mean (Scanner.macd_slow p) _); [|discriminate].
  destruct (Scanner.ewm_mean (Scanner.macd_signal p) _); [|discriminate].
  destruct data as [|b data']; [discriminate|].
  set (data := b :: data') in *.
  intro H. break_pairs H.
  match type of H with
  | (if ?c then _ else _) = _ => destruct c eqn:Eguard; [discriminate|]
  end.
  injection H as <-. cbn.
  apply orb_false_iff in Eguard. destruct Eguard as [Eg1 Eg2].
  apply orb_false_iff in Eg1. destruct Eg1 as [_ Eg1].
  repeat split; try assumption.
Qed.

(** The result differs from the one computed at time 0 in its time stamp
    only. *)
Lemma analyze_frame_time now sym p data :
  Scanner.analyze_frame sqrt now sym p data
  = option_map (ScanResult.with_time now)
      (Scanner.analyze_frame sqrt 0%Z sym p data).
Proof.
  unfold Scanner.analyze_frame. cbv zeta.
  destruct (length data <? Scanner.sma_period p)%nat; [reflexivity|].
  destruct (Scanner.ewm_mean (Scanner.ema_short p) _); [|reflexivity].
  destruct (Scanner.ewm_mean (Scanner.ema_long p) _); [|reflexivity].
  destruct (Scanner.ewm_mean (Scanner.macd_fast p) _); [|reflexivity].
  destruct (Scanner.ewm_mean (Scanner.macd_slow p) _); [|reflexivity].
  destruct (Scanner.ewm_mean (Scanner.macd_signal p) _); [|reflexivity].
  destruct data as [|b data']; [reflexivity|].
  set (data := b :: data') in *.
  repeat match goal with
  | |- context [match ?x with pair _ _ => _ end] => destruct x
  end.
  match goal with
  | |- (if ?c then _ else _) = _ => destruct c; reflexivity
  end.
Qed.

End VolumeGuard.

(** C10.  A result of [analyze_stock_volume] carries a volume SMA that is a
    number other than 0, and its volume ratio is the latest volume divided
    by it.  Whenever the SMA at the last bar is NaN or 0 the function
    returns [None]. *)
Theorem volume_ratio_well_defined (sqrt : Q -> Q) (now : Z)
    (fetched : option DataFrame) (sym : string) (p : Scanner.Params) :
  (forall r, Scanner.analyze_stock_volume sqrt now fetched sym p = Some r ->
     exists cv sma,
       ScanResult.current_volume r = Fin cv
       /\ ScanResult.volume_sma r = Fin sma
       /\ ~ sma == 0
       /\ ScanResult.volume_ratio r = Fin (cv / sma))
  /\ (forall data, fetched = Some data ->
        let volume_sma :=
          last_fl (rolling_mean (Scanner.sma_period p) (map Fin (col volume data))) in
        isna volume_sma = true \/ fzero volume_sma = true ->
        Scanner.analyze_stock_volume sqrt now fetched sym p = None).
Proof.
  split.
  - intros r Hr. destruct fetched as [data|]; [|discriminate]. simpl in Hr.
    destruct (analyze_frame_some sqrt now sym p data r Hr)
      as (Hcv & Hsma & Hratio & _ & Hna & Hz & _).
    destruct (rolling_mean_last_finite (Scanner.sma_period p) (col volume data))
      as [E|(q & E)]; rewrite E in *; [discriminate|].
    exists (last (col volume data) 0), q.
    split; [exact Hcv|]. split; [exact Hsma|].
    assert (Hq : ~ q == 0).
    { intro Hq. apply Qzero_bool_true in Hq. simpl in Hz. congruence. }
    split; [exact Hq|].
    rewrite Hratio. unfold fdiv. rewrite (Qzero_bool_false q Hq). reflexivity.
  - intros data -> volume_sma Hbad. simpl.
    destruct (Scanner.analyze_frame sqrt now sym p data) as [r|] eqn:E; [|reflexivity].
    destruct (analyze_frame_some sqrt now sym p data r E)
      as (_ & _ & _ & _ & Hna & Hz & _).
    fold volume_sma in Hna, Hz. destruct Hbad; congruence.
Qed.

(** C7 (as the code has it).  Two runs of [analyze_stock_volume] on the same
    fetched series and parameters agree on every field but [last_update],
    which holds the time of the run; with the same clock reading they are
    identical. *)
Theorem two_runs_agree_up_to_time (sqrt : Q -> Q) (now1 now2 : Z)
    (fetched : option DataFrame) (sym : string) (p : Scanner.Params) :
  option_map ScanResult.without_time
    (Scanner.analyze_stock_volume sqrt now1 fetched sym p)
  = option_map ScanResult.without_time
      (Scanner.analyze_stock_volume sqrt now2 fetched sym p)
  /\ (forall r, Scanner.analyze_stock_volume sqrt now1 fetched sym p = Some r ->
        ScanResult.last_update r = now1)
  /\ (now1 = now2 ->
      Scanner.analyze_stock_volume sqrt now1 fetched sym p
      = Scanner.analyze_stock_volume sqrt now2 fetched sym p)
  /\ (forall r1 r2,
        Scanner.analyze_stock_volume sqrt now1 fetched sym p = Some r1 ->
        Scanner.analyze_stock_volume sqrt now2 fetched sym p = Some r2 ->
        now1 <> now2 -> r1 <> r2).
Proof.
  assert (Htime : forall now r,
            Scanner.analyze_stock_volume sqrt now fetched sym p = Some r ->
            ScanResult.last_update r = now).
  { intros now r Hr. destruct fetched as [data|]; [|discriminate]. simpl in Hr.
    apply (analyze_frame_some sqrt now sym p data r Hr). }
  split.
  { destruct fetched as [data|]; [|reflexivity]. simpl.
    rewrite (analyze_frame_time sqrt now1), (analyze_frame_time sqrt now2).
    destruct (Scanner.analyze_frame sqrt 0%Z sym p data); reflexivity. }
  split; [apply Htime|].
  split; [intros ->; reflexivity|].
  intros r1 r2 H1 H2 Hne Heq. apply Hne.
  rewrite <- (Htime now1 r1 H1), <- (Htime now2 r2 H2), Heq. reflexivity.
Qed.

(** C7, counterexample.  The same twelve bars and the default parameters,
    run at clock readings 0 and 1: both runs return a result and the two
    results differ (twelve bars are fewer than the Bollinger period, so no
    square root is taken). *)
Lemma two_runs_differ :
  Scanner.analyze_stock_volume any_sqrt 0%Z (Some bars12) "AKBNK"
    Scanner.default_params <> None
  /\ Scanner.analyze_stock_volume any_sqrt 0%Z (Some bars12) "AKBNK"
       Scanner.default_params
     <> Scanner.analyze_stock_volume any_sqrt 1%Z (Some bars12) "AKBNK"
          Scanner.default_params.
Proof.
  split.
  - vm_compute. discriminate.
  - intro H.
    apply (f_equal (option_map ScanResult.last_update)) in H.
    vm_compute in H. discriminate.
Qed.

(** ** Instances on sample inputs *)

(** C1 on samples: a snapshot that meets every excellent bound of the default
    thresholds scores 30, one that meets no bound scores 0. *)
Lemma score_bounded_witness :
  all_excellent (thresholds_of None) excellent_snapshot = true
  /\ meets_none (thresholds_of None) poor_snapshot = true
  /\ (exists r, score "AKBNK" (thresholds_of None) excellent_snapshot = Ok r
                /\ total_points r = 30%nat
                /\ recommendation r = "Güçlü Al"%string)
  /\ (exists r, score "AKBNK" (thresholds_of None) poor_snapshot = Ok r
                /\ total_points r = 0%nat
                /\ recommendation r = "Güçlü Sat"%string).
Proof.
  assert (H1 : all_excellent (thresholds_of None) excellent_snapshot = true)
    by (vm_compute; reflexivity).
  assert (H2 : meets_none (thresholds_of None) poor_snapshot = true)
    by (vm_compute; reflexivity).
  split; [exact H1|]. split; [exact H2|]. split.
  - destruct (score_bounded "AKBNK" (thresholds_of None) excellent_snapshot)
      as (r & E & _ & _ & _ & _ & _ & _ & _ & _ & _ & _ & Hall & _).
    exists r. split; [exact E|]. exact (Hall H1).
  - destruct (score_bounded "AKBNK" (thresholds_of None) poor_snapshot)
      as (r & E & _ & _ & _ & _ & _ & _ & _ & _ & _ & _ & _ & Hnone).
    exists r. split; [exact E|]. exact (Hnone H2).
Defined.


(** C3 on samples: a strict local minimum that is returned, and a swing high
    that is a maximum among its neighbours. *)
Lemma swing_points_characterised_witness :
  In 3%nat (_find_local_minima [3; 1; 2; 0; 5] 1)
  /\ strict_min [3; 1; 2; 0; 5] 1 3
  /\ In (mkSwing 1 3 high_type) (_find_swing_points [1; 3; 2; 0; 5; 5; 5] 1)
  /\ weak_max [1; 3; 2; 0; 5; 5; 5] 1 1.
Proof.
  destruct (swing_points_characterised [3; 1; 2; 0; 5] 1) as (_ & Hmin & _ & _).
  destruct (swing_points_characterised [1; 3; 2; 0; 5; 5; 5] 1) as (Hsw & _ & _ & _).
  assert (H1 : In 3%nat (_find_local_minima [3; 1; 2; 0; 5] 1))
    by (vm_compute; tauto).
  assert (H2 : In (mkSwing 1 3 high_type) (_find_swing_points [1; 3; 2; 0; 5; 5; 5] 1))
    by (vm_compute; tauto).
  split; [exact H1|]. split; [apply Hmin; exact H1|]. split; [exact H2|].
  apply Hsw in H2. destruct H2 as (_ & _ & [[_ Hmax]|[Hlow _]]).
  - exact Hmax.
  - discriminate Hlow.
Defined.

(** C5 on samples: three bars with rising closes. *)
Lemma obv_running_total_witness :
  volumes_nonneg rising_bars
  /\ strictly_rising rising_bars
  /\ nth 0 (_calculate_obv rising_bars) 0 <= nth 1 (_calculate_obv rising_bars) 0
  /\ nth 1 (_calculate_obv rising_bars) 0 = nth 0 (_calculate_obv rising_bars) 0 + 5.
Proof.
  assert (Hv : volumes_nonneg rising_bars).
  { intros i Hi. destruct i as [|[|[|i]]]; simpl in *; try lra; lia. }
  assert (Hr : strictly_rising rising_bars).
  { intros i Hi. destruct i as [|[|i]]; simpl in *; try lra; lia. }
  destruct (obv_running_total rising_bars) as (_ & _ & Hrec & Hup & _).
  split; [exact Hv|]. split; [exact Hr|]. split.
  - apply (Hup Hv Hr). simpl. lia.
  - assert (Hi : (1 < length rising_bars)%nat) by (simpl; lia).
    destruct (Hrec 0%nat Hi) as (Hadd & _ & _). apply Hadd. simpl. lra.
Defined.


(** C7 on samples: twelve bars analysed at clock readings 0 and 1. *)
Lemma two_runs_agree_up_to_time_witness :
  exists r1 r2,
    Scanner.analyze_stock_volume any_sqrt 0%Z (Some bars12) "AKBNK"
      Scanner.default_params = Some r1
    /\ Scanner.analyze_stock_volume any_sqrt 1%Z (Some bars12) "AKBNK"
         Scanner.default_params = Some r2
    /\ r1 <> r2
    /\ ScanResult.without_time r1 = ScanResult.without_time r2.
Proof.
  destruct (two_runs_agree_up_to_time any_sqrt 0%Z 1%Z (Some bars12) "AKBNK"
              Scanner.default_params) as (Hsame & _ & _ & Hdiff).
  destruct (Scanner.analyze_stock_volume any_sqrt 0%Z (Some bars12) "AKBNK"
              Scanner.default_params) as [r1|] eqn:E1;
    [|exfalso; vm_compute in E1; discriminate].
  destruct (Scanner.analyze_stock_volume any_sqrt 1%Z (Some bars12) "AKBNK"
              Scanner.default_params) as [r2|] eqn:E2;
    [|exfalso; vm_compute in E2; discriminate].
  exists r1, r2. split; [reflexivity|]. split; [reflexivity|]. split.
  - apply Hdiff; [reflexivity|reflexivity|discriminate].
  - simpl in Hsame.
    apply (f_equal (fun o => match o with
                             | Some x => x
                             | None => ScanResult.without_time r1
                             end)) in Hsame.
    exact Hsame.
Defined.

(** C10 on samples: twelve bars with the default parameters. *)
Lemma volume_ratio_well_defined_witness :
  exists r cv sma,
    Scanner.analyze_stock_volume any_sqrt 0%Z (Some bars12) "AKBNK"
      Scanner.default_params = Some r
    /\ ScanResult.volume_sma r = Fin sma
    /\ ~ sma == 0
    /\ ScanResult.volume_ratio r = Fin (cv / sma).
Proof.
  destruct (volume_ratio_well_defined any_sqrt 0%Z (Some bars12) "AKBNK"
              Scanner.default_params) as (Hsome & _).
  destruct (Scanner.analyze_stock_volume any_sqrt 0%Z (Some bars12) "AKBNK"
              Scanner.default_params) as [r|] eqn:E;
    [|exfalso; vm_compute in E; discriminate].
  destruct (Hsome r eq_refl) as (cv & sma & _ & H1 & H2 & H3).
  exists r, cv, sma. repeat split; assumption.
Defined.

(** C9 on samples: ten symbols, three of which raise; seven results and three
    printed lines. *)
Lemma batch_skips_failures_witness :
  length (filter (failed (comprehensive_item sample_analysis None 10))
            (enumerate_from_1 ten_symbols 10)) = 3%nat
  /\ length (fst (analyze_stocks_comprehensive ten_symbols sample_analysis 0 None None))
     = 7%nat
  /\ length (snd (analyze_stocks_comprehensive ten_symbols sample_analysis 0 None None))
     = 3%nat.
Proof.
  destruct batch_skips_failures as (_ & H).
  specialize (H ten_symbols sample_analysis 0%nat None None). cbv zeta in H.
  destruct H as (_ & _ & Hlog & Hcount & _).
  split; [vm_compute; reflexivity|]. split.
  - rewrite Hcount; [vm_compute; reflexivity|].
    intros r _. reflexivity.
  - rewrite Hlog. vm_compute. reflexivity.
Defined.

(** C8, counterexample.  A symbol with sixty bars of price history whose
    [info] has neither P/E figure is dropped: the result is [None]. *)
Lemma missing_pe_drops_symbol :
  trailingPE info_no_pe = None
  /\ forwardPE info_no_pe = None
  /\ stock_data (provider_of info_no_pe) "AKBNK" = Some flat_data
  /\ analyze_single_stock (provider_of info_no_pe) "AKBNK" None = Ok None.
Proof. repeat split. Qed.

(** The result for a symbol whose [info] holds a P/E and a P/B only. *)
Lemma ratios_only_scored :
  exists r, analyze_single_stock (provider_of info_ratios_only) "AKBNK" None
            = Ok (Some r)
            /\ points_for (fundamental_breakdown r) "Borç/Özkaynak" = Some 2%nat.
Proof. vm_compute. eexists. split; reflexivity. Qed.

(** C8 on samples: a scored symbol whose [info] holds a P/E and a P/B only. *)
Lemma missing_fields_score_zero_witness :
  exists r,
    analyze_single_stock (provider_of info_ratios_only) "AKBNK" None = Ok (Some r)
    /\ points_for (fundamental_breakdown r) "ROE (%)" = Some 0%nat
    /\ points_for (fundamental_breakdown r) "Net Kâr Marjı (%)" = Some 0%nat
    /\ points_for (fundamental_breakdown r) "FD/FAVÖK" = Some 0%nat
    /\ points_for (fundamental_breakdown r) "Cari Oran" = Some 0%nat.
Proof.
  destruct ratios_only_scored as (r & Hr & _).
  destruct (missing_fields_score_zero (provider_of info_ratios_only) "AKBNK" None)
    as (_ & _ & Hpts).
  cbv zeta in Hpts.
  destruct (Hpts r info_ratios_only Hr eq_refl) as (Hm & Hroe & Hev & _ & _ & Hcr & _).
  exists r. split; [exact Hr|].
  split; [apply Hroe; [reflexivity|reflexivity|reflexivity]|].
  split; [apply Hm; [reflexivity|reflexivity|reflexivity]|].
  split; [apply Hev; [reflexivity|left; reflexivity]|].
  apply Hcr. left. reflexivity.
Defined.


(** C9, counterexample.  One symbol whose analysis succeeds with a volume
    ratio of 1: nothing fails, yet [batch_analyze] with the default minimum
    ratio 1.5 returns no result for it. *)
Lemma batch_filters_results :
  failed flat_analysis "AKBNK"%string = false
  /\ match Scanner.analyze_stock_volume any_sqrt 0%Z (Some flat10) "AKBNK"
             Scanner.default_params with
     | Some r => fl_eq (ScanResult.volume_ratio r) (Fin 1)
     | None => False
     end
  /\ batch_analyze flat_analysis ["AKBNK"%string] 1.5 = ([], []).
Proof. repeat split; vm_compute; reflexivity. Qed.

(* ================================================================== *)
(** * Further properties of the code *)

(** ** The cleaned frame *)

Lemma insert_by_time_perm x l : Permutation (insert_by_time x l) (x :: l).
Proof.
  induction l as [|y l IH]; [reflexivity|]. simpl.
  destruct (fst x <=? fst y)%Z; [reflexivity|].
  rewrite IH. apply perm_swap.
Qed.

Lemma sort_index_perm l : Permutation (sort_index l) l.
Proof.
  induction l as [|x l IH]; [reflexivity|]. simpl.
  rewrite insert_by_time_perm. constructor. exact IH.
Qed.

Lemma insert_by_time_sorted x l :
  Sorted (fun a b => (fst a <= fst b)%Z) l ->
  Sorted (fun a b => (fst a <= fst b)%Z) (insert_by_time x l).
Proof.
  intro Hs. induction l as [|y l IH]; [repeat constructor|].
  simpl. destruct (fst x <=? fst y)%Z eqn:E.
  - apply Z.leb_le in E. constructor; [exact Hs|]. constructor. exact E.
  - apply Z.leb_gt in E. apply Sorted_inv in Hs. destruct Hs as [Hs Hd].
    constructor; [apply IH; exact Hs|].
    destruct l as [|z l]; simpl.
    + constructor. lia.
    + destruct (fst x <=? fst z)%Z.
      * constructor. lia.
      * apply HdRel_inv in Hd. constructor. exact Hd.
Qed.

Lemma sort_index_sorted l : Sorted (fun a b => (fst a <= fst b)%Z) (sort_index l).
Proof.
  induction l as [|x l IH]; [constructor|]. simpl.
  apply insert_by_time_sorted. exact IH.
Qed.

Lemma kept_rows_In rows t b :
  In (t, b) (kept_rows rows) <-> exists r, In r rows /\ clean_row r = Some (t, b).
Proof.
  unfold kept_rows. rewrite in_flat_map. split.
  - intros (r & Hr & H). exists r. split; [exact Hr|].
    destruct (clean_row r) as [tb|]; simpl in H; [|contradiction].
    destruct H as [->|[]]. reflexivity.
  - intros (r & Hr & E). exists r. split; [exact Hr|]. rewrite E. left. reflexivity.
Qed.

(** X1.  [_clean_data] returns the rows of the history that pass its
    filters, each once, ordered by time stamp: the frame is the bars of a
    list of stamped rows that is sorted by time, is a permutation of the
    rows kept, and holds a row exactly when some row of the history cleans
    to it.  Every bar of the frame has five positive columns and
    [low <= high]. *)
Theorem clean_data_sorted_by_time (rows : list RawRow) :
  exists stamped : list (Z * Bar),
    _clean_data rows = map snd stamped
    /\ Sorted (fun a b => (fst a <= fst b)%Z) stamped
    /\ Permutation stamped (kept_rows rows)
    /\ (forall t b, In (t, b) stamped <->
          exists r, In r rows /\ clean_row r = Some (t, b))
    /\ (forall b, In b (_clean_data rows) -> well_formed_bar b)
    /\ (length (_clean_data rows) <= length rows)%nat.
Proof.
  exists (sort_index (kept_rows rows)).
  split; [reflexivity|]. split; [apply sort_index_sorted|].
  split; [apply sort_index_perm|]. split; [|split].
  - intros t b. rewrite <- kept_rows_In. split; intro H.
    + eapply Permutation_in; [apply sort_index_perm|exact H].
    + eapply Permutation_in; [symmetry; apply sort_index_perm|exact H].
  - apply clean_data_well_formed.
  - unfold _clean_data. rewrite length_map.
    fold (kept_rows rows). rewrite (Permutation_length (sort_index_perm _)).
    unfold kept_rows. induction rows as [|r rows IH]; [simpl; lia|].
    cbn [flat_map]. rewrite length_app. destruct (clean_row r); simpl in *; lia.
Qed.

Lemma clean_row_raw_of tb :
  well_formed_bar (snd tb) -> clean_row (raw_of tb) = Some tb.
Proof.
  destruct tb as [t [o h l c v]]. unfold well_formed_bar, clean_row, raw_of.
  cbn [fst snd open high low close volume raw_open raw_high raw_low raw_close
       raw_volume timestamp].
  intros (Ho & Hh & Hl & Hc & Hv & Hlh).
  apply Qlt_bool_iff in Ho, Hh, Hl, Hc, Hv. apply Qle_bool_iff in Hlh.
  rewrite Ho, Hh, Hl, Hc, Hv, Hlh. reflexivity.
Qed.

(** A monotonic index is left as it is, rows with equal stamps included. *)
Lemma sort_index_monotonic_id l :
  StronglySorted (fun a b => (fst a <= fst b)%Z) l -> sort_index l = l.
Proof.
  induction 1 as [|x l Hs IH Hf]; [reflexivity|].
  simpl. rewrite IH. destruct l as [|y l]; [reflexivity|]. simpl.
  apply Forall_inv in Hf. apply Z.leb_le in Hf. rewrite Hf. reflexivity.
Qed.

Lemma sort_index_sorted_id l :
  StronglySorted (fun a b => (fst a < fst b)%Z) l -> sort_index l = l.
Proof.
  intro Hs. apply sort_index_monotonic_id.
  induction Hs as [|x l Hs IH Hf]; constructor; [exact IH|].
  eapply Forall_impl; [|exact Hf]. intros y Hy. simpl in Hy. lia.
Qed.

(** X2.  A frame that is already clean passes through [_clean_data]
    unchanged: when the bars are well formed and their time stamps increase
    strictly, cleaning the same rows again returns the same bars in the same
    order. *)
Theorem clean_data_fixpoint (stamped : list (Z * Bar)) :
  StronglySorted (fun a b => (fst a < fst b)%Z) stamped ->
  (forall tb, In tb stamped -> well_formed_bar (snd tb)) ->
  _clean_data (map raw_of stamped) = map snd stamped.
Proof.
  intros Hs Hw. unfold _clean_data. f_equal.
  assert (Hk : flat_map (fun r => match clean_row r with Some b => [b] | None => [] end)
                 (map raw_of stamped) = stamped).
  { clear Hs. induction stamped as [|tb l IH]; [reflexivity|].
    cbn [map flat_map]. rewrite clean_row_raw_of by (apply Hw; left; reflexivity).
    simpl. f_equal. apply IH. intros; apply Hw; right; assumption. }
  rewrite Hk. apply sort_index_sorted_id. exact Hs.
Qed.

(** ** Swing points and local minima: order and spacing *)

Lemma seq_strongly_sorted start len : StronglySorted lt (seq start len).
Proof.
  revert start. induction len as [|len IH]; intro start; [constructor|].
  simpl. constructor; [apply IH|].
  apply Forall_forall. intros x Hx. apply in_seq in Hx. lia.
Qed.

Lemma filter_strongly_sorted {A} (R : A -> A -> Prop) (f : A -> bool) l :
  StronglySorted R l -> StronglySorted R (filter f l).
Proof.
  induction 1 as [|a l Hs IH Hf]; [constructor|]. simpl.
  destruct (f a); [|exact IH].
  constructor; [exact IH|].
  apply Forall_forall. intros x Hx. apply filter_In in Hx.
  rewrite Forall_forall in Hf. apply Hf, Hx.
Qed.

Lemma swing_indices prices w l :
  map index (flat_map (swing_at prices w) l)
  = filter (fun i => is_high prices w i || is_low prices w i) l.
Proof.
  induction l as [|i l IH]; [reflexivity|]. simpl.
  rewrite map_app, IH. unfold swing_at.
  destruct (is_high prices w i || is_low prices w i); reflexivity.
Qed.

(** X3.  [_find_swing_points] returns its points in the order of the bars:
    the indices increase strictly (so no bar is returned twice), each point
    carries the price of its bar, and there are at most
    [len(prices) - 2 * window] of them. *)
Theorem swing_points_ordered (prices : list Q) (window : nat) :
  StronglySorted lt (map index (_find_swing_points prices window))
  /\ (forall p, In p (_find_swing_points prices window) ->
        price p = iloc prices (index p))
  /\ (length (_find_swing_points prices window)
      <= length prices - 2 * window)%nat.
Proof.
  unfold _find_swing_points. split; [|split].
  - rewrite swing_indices. apply filter_strongly_sorted, seq_strongly_sorted.
  - intros p Hp. apply in_flat_map in Hp. destruct Hp as (i & _ & Hp).
    unfold swing_at in Hp.
    destruct (is_high prices window i || is_low prices window i); [|contradiction].
    destruct Hp as [<-|[]]. reflexivity.
  - rewrite <- (length_map index), swing_indices.
    etransitivity; [apply filter_length_le|]. rewrite length_seq. lia.
Qed.

(** X4.  The indices [_find_local_minima] returns increase strictly, and two
    of them are never within [window] bars of one another: each is strictly
    below all its neighbours, so neither can be a neighbour of the other.
    With a window of one bar or more every local minimum is also a swing
    point of type low of the same series and window. *)
Theorem local_minima_spaced (series : list Q) (window : nat) :
  StronglySorted lt (_find_local_minima series window)
  /\ (forall i j, In i (_find_local_minima series window) ->
        In j (_find_local_minima series window) ->
        (i < j)%nat -> (window < j - i)%nat)
  /\ ((0 < window)%nat ->
      forall i, In i (_find_local_minima series window) ->
        In (mkSwing i (iloc series i) low_type) (_find_swing_points series window)).
Proof.
  split; [|split].
  - apply filter_strongly_sorted, seq_strongly_sorted.
  - intros i j Hi Hj Hlt.
    unfold _find_local_minima in Hi, Hj.
    apply filter_In in Hi. destruct Hi as (Hi & Hmi).
    apply filter_In in Hj. destruct Hj as (Hj & Hmj).
    apply in_seq in Hi. apply in_seq in Hj.
    apply is_minimum_iff in Hmi; [|lia]. apply is_minimum_iff in Hmj; [|lia].
    destruct (Nat.le_gt_cases (j - i) window) as [Hle|Hgt]; [|exact Hgt].
    exfalso.
    assert (H1 : iloc series i < iloc series j) by (apply Hmi; unfold neighbour; lia).
    assert (H2 : iloc series j < iloc series i) by (apply Hmj; unfold neighbour; lia).
    lra.
  - intros Hw i Hi. unfold _find_local_minima in Hi.
    apply filter_In in Hi. destruct Hi as (Hi & Hm).
    unfold _find_swing_points. apply in_flat_map. exists i. split; [exact Hi|].
    apply in_seq in Hi.
    apply is_minimum_iff in Hm; [|lia].
    assert (Hlow : is_low series window i = true).
    { apply is_low_iff; [lia|]. intros j Hj. apply Qlt_le_weak, Hm, Hj. }
    assert (Hhigh : is_high series window i = false).
    { apply not_true_is_false. intro Hh. apply is_high_iff in Hh; [|lia].
      assert (Hn : neighbour window i (i + 1)) by (unfold neighbour; lia).
      specialize (Hh _ Hn). specialize (Hm _ Hn). lra. }
    unfold swing_at. rewrite Hlow, Hhigh. simpl. left. reflexivity.
Qed.

(** ** Harmonic matcher: tolerance, price scale, ambiguity *)

Lemma near_mono ratio target t t' :
  t <= t' -> near ratio target (t / 100) = true -> near ratio target (t' / 100) = true.
Proof.
  rewrite !near_iff. intros Ht H.
  assert (t / 100 <= t' / 100).
  { unfold Qdiv. apply Qmult_le_compat_r; [exact Ht|]. vm_compute. discriminate. }
  lra.
Qed.

Ltac near_mono_tac Ht :=
  repeat match goal with
  | H : _ && _ = true |- _ => apply andb_true_iff in H; destruct H
  | H : _ || _ = true |- _ => apply orb_true_iff in H; destruct H
  | H : near _ _ _ = true |- _ => apply (near_mono _ _ _ _ Ht) in H
  end.

Lemma checks_mono (t t' : Q) (r : Ratios) :
  t <= t' ->
  (gartley_checks r t = true -> gartley_checks r t' = true)
  /\ (bat_checks r t = true -> bat_checks r t' = true)
  /\ (butterfly_checks r t = true -> butterfly_checks r t' = true)
  /\ (crab_checks r t = true -> crab_checks r t' = true).
Proof.
  intro Ht.
  unfold gartley_checks, bat_checks, butterfly_checks, crab_checks. cbv zeta.
  repeat match goal with |- _ /\ _ => split end; intro H;
    near_mono_tac Ht;
    repeat match goal with
    | H : ?x = true |- context [?x] => rewrite H
    end; rewrite ?orb_true_r; reflexivity.
Qed.

Lemma check_pattern_mono (checks : Ratios -> Q -> bool) (t t' : Q) points :
  (forall r, checks r t = true -> checks r t' = true) ->
  check_pattern checks points t = true -> check_pattern checks points t' = true.
Proof.
  intro Hm. unfold check_pattern.
  destruct (length points <? 5)%nat; [discriminate|].
  destruct (map price points) as [|X [|A [|B [|C [|D [|E l]]]]]]; try discriminate.
  apply Hm.
Qed.

(** X5.  The harmonic detector is monotone in its tolerance: a frame that
    matches a pattern at tolerance [t] matches it at every larger
    tolerance.  The pattern type "Otomatik" matches exactly when one of
    Gartley, Bat, Butterfly or Crab does, and no other pattern name matches
    anything. *)
Theorem harmonic_tolerance_monotone (data : DataFrame) (pattern_type : string)
    (t t' : Q) (lookback_period : nat) :
  t <= t' ->
  (_detect_harmonic_pattern data pattern_type t lookback_period = true ->
   _detect_harmonic_pattern data pattern_type t' lookback_period = true)
  /\ _detect_harmonic_pattern data "Otomatik" t lookback_period
     = _detect_harmonic_pattern data "Gartley" t lookback_period
       || _detect_harmonic_pattern data "Bat" t lookback_period
       || _detect_harmonic_pattern data "Butterfly" t lookback_period
       || _detect_harmonic_pattern data "Crab" t lookback_period
  /\ (_detect_harmonic_pattern data pattern_type t lookback_period = true ->
      In pattern_type ["Otomatik"; "Gartley"; "Bat"; "Butterfly"; "Crab"]%string).
Proof.
  intro Ht. unfold _detect_harmonic_pattern.
  destruct ((length data <? lookback_period)%nat || (lookback_period <? 20)%nat);
    [repeat split; discriminate|].
  cbv zeta.
  destruct (length (_find_swing_points (col close (tail data lookback_period)) 5) <? 5)%nat;
    [repeat split; discriminate|].
  set (points := last5 _).
  pose proof (fun r => checks_mono t t' r Ht) as Hm.
  assert (Hg : _check_gartley_pattern points t = true ->
               _check_gartley_pattern points t' = true)
    by (apply check_pattern_mono; intro r; apply (Hm r)).
  assert (Hb : _check_bat_pattern points t = true ->
               _check_bat_pattern points t' = true)
    by (apply check_pattern_mono; intro r; apply (Hm r)).
  assert (Hf : _check_butterfly_pattern points t = true ->
               _check_butterfly_pattern points t' = true)
    by (apply check_pattern_mono; intro r; apply (Hm r)).
  assert (Hc : _check_crab_pattern points t = true ->
               _check_crab_pattern points t' = true)
    by (apply check_pattern_mono; intro r; apply (Hm r)).
  split; [|split].
  - destruct (String.eqb pattern_type "Otomatik").
    { rewrite !orb_true_iff. intros [[[H|H]|H]|H]; auto. }
    destruct (String.eqb pattern_type "Gartley"); [exact Hg|].
    destruct (String.eqb pattern_type "Bat"); [exact Hb|].
    destruct (String.eqb pattern_type "Butterfly"); [exact Hf|].
    destruct (String.eqb pattern_type "Crab"); [exact Hc|].
    discriminate.
  - reflexivity.
  - destruct (String.eqb_spec pattern_type "Otomatik") as [->|_]; [simpl; tauto|].
    destruct (String.eqb_spec pattern_type "Gartley") as [->|_]; [simpl; tauto|].
    destruct (String.eqb_spec pattern_type "Bat") as [->|_]; [simpl; tauto|].
    destruct (String.eqb_spec pattern_type "Butterfly") as [->|_]; [simpl; tauto|].
    destruct (String.eqb_spec pattern_type "Crab") as [->|_]; [simpl; tauto|].
    discriminate.
Qed.

Lemma near_bounds ratio target tol :
  near ratio target tol = true -> target - tol <= ratio /\ ratio <= target + tol.
Proof.
  rewrite near_iff. intro H. apply Qabs_Qle_condition in H. lra.
Qed.

Lemma tolerance_ratio_lt t b : t < b * 100 -> t / 100 < b.
Proof.
  intro H. apply Qlt_shift_div_r; [reflexivity|exact H].
Qed.

Ltac near_facts :=
  repeat match goal with
  | H : _ && _ = true |- _ => apply andb_true_iff in H; destruct H
  | H : _ || _ = true |- _ => apply orb_true_iff in H; destruct H
  | H : near _ _ _ = true |- _ => apply near_bounds in H
  end.

Lemma checks_exclusive (r : Ratios) (t : Q) :
  t < 5.9 ->
  (gartley_checks r t = true -> bat_checks r t = false)
  /\ (gartley_checks r t = true -> butterfly_checks r t = false)
  /\ (gartley_checks r t = true -> crab_checks r t = false)
  /\ (bat_checks r t = true -> butterfly_checks r t = false)
  /\ (bat_checks r t = true -> crab_checks r t = false)
  /\ (butterfly_checks r t = true -> crab_checks r t = false).
Proof.
  intro Ht.
  assert (Htol : t / 100 < 0.059) by (apply tolerance_ratio_lt; lra).
  unfold gartley_checks, bat_checks, butterfly_checks, crab_checks. cbv zeta.
  revert Htol. generalize (t / 100). intros tol Htol.
  repeat match goal with |- _ /\ _ => split end;
    intro H1; apply not_true_is_false; intro H2; near_facts; lra.
Qed.

(** X6.  Below a tolerance of 5.9 the four templates exclude one another: no
    list of swing points matches two of Gartley, Bat, Butterfly and Crab, so
    at the default tolerance 5 an automatic detection names one pattern. *)
Theorem harmonic_patterns_exclusive (points : list SwingPoint) (t : Q) :
  t < 5.9 ->
  (length (filter (fun check => check points t)
             [_check_gartley_pattern; _check_bat_pattern;
              _check_butterfly_pattern; _check_crab_pattern]) <= 1)%nat.
Proof.
  intro Ht.
  unfold _check_gartley_pattern, _check_bat_pattern, _check_butterfly_pattern,
    _check_crab_pattern.
  cbn [filter]. unfold check_pattern.
  destruct (length points <? 5)%nat; [simpl; lia|].
  destruct (map price points) as [|X [|A [|B [|C [|D [|E l]]]]]]; try (simpl; lia).
  destruct (checks_exclusive (leg_ratios X A B C D) t Ht)
    as (H1 & H2 & H3 & H4 & H5 & H6).
  destruct (gartley_checks _ t) eqn:Eg.
  - rewrite (H1 eq_refl), (H2 eq_refl), (H3 eq_refl). simpl. lia.
  - destruct (bat_checks _ t) eqn:Eb.
    + rewrite (H4 eq_refl), (H5 eq_refl). simpl. lia.
    + destruct (butterfly_checks _ t) eqn:Ef.
      * rewrite (H6 eq_refl). simpl. lia.
      * destruct (crab_checks _ t); simpl; lia.
Qed.

Lemma Qle_bool_compat a b a' b' : a == a' -> b == b' -> Qle_bool a b = Qle_bool a' b'.
Proof.
  intros Ha Hb. destruct (Qle_bool a' b') eqn:E.
  - apply Qle_bool_iff. apply Qle_bool_iff in E. lra.
  - apply not_true_is_false. intro H. apply Qle_bool_iff in H.
    assert (a' <= b') by lra. apply Qle_bool_iff in H0. congruence.
Qed.

Lemma near_compat r r' target tol : r == r' -> near r target tol = near r' target tol.
Proof.
  intro H. unfold near. apply Qle_bool_compat; [|reflexivity]. rewrite H. reflexivity.
Qed.

Lemma checks_compat r r' t :
  ratios_eq r r' ->
  gartley_checks r t = gartley_checks r' t
  /\ bat_checks r t = bat_checks r' t
  /\ butterfly_checks r t = butterfly_checks r' t
  /\ crab_checks r t = crab_checks r' t.
Proof.
  intros (H1 & H2 & H3 & H4).
  unfold gartley_checks, bat_checks, butterfly_checks, crab_checks. cbv zeta.
  repeat rewrite (near_compat _ _ _ _ H1).
  repeat rewrite (near_compat _ _ _ _ H2).
  repeat rewrite (near_compat _ _ _ _ H3).
  repeat rewrite (near_compat _ _ _ _ H4).
  repeat split.
Qed.

Lemma Qabs_scale k u v s : 0 < k -> Qabs ((k * u + s) - (k * v + s)) == k * Qabs (u - v).
Proof.
  intro Hk.
  setoid_replace ((k * u + s) - (k * v + s)) with (k * (u - v)) by ring.
  rewrite Qabs_Qmult. rewrite (Qabs_pos k) by lra. reflexivity.
Qed.

Lemma leg_ratio_scale k a b :
  0 < k ->
  (if Qlt_bool 0 (k * a) then (k * b) / (k * a) else 0)
  == (if Qlt_bool 0 a then b / a else 0).
Proof.
  intro Hk. destruct (Qlt_bool 0 a) eqn:E.
  - apply Qlt_bool_iff in E.
    assert (E' : Qlt_bool 0 (k * a) = true) by (apply Qlt_bool_iff; nra).
    rewrite E'. field. lra.
  - apply Qlt_bool_false in E.
    assert (E' : Qlt_bool 0 (k * a) = false) by (apply Qlt_bool_false; nra).
    rewrite E'. reflexivity.
Qed.

Lemma if_Qlt_compat a a' (x x' : Q) :
  a == a' -> x == x' ->
  (if Qlt_bool 0 a then x else 0) == (if Qlt_bool 0 a' then x' else 0).
Proof.
  intros Ha Hx. unfold Qlt_bool. rewrite (Qle_bool_compat a 0 a' 0 Ha (Qeq_refl 0)).
  destruct (Qle_bool a' 0); simpl; [reflexivity|exact Hx].
Qed.

Lemma leg_ratios_scale k s X A B C D :
  0 < k ->
  ratios_eq (leg_ratios (k * X + s) (k * A + s) (k * B + s) (k * C + s) (k * D + s))
            (leg_ratios X A B C D).
Proof.
  intro Hk. unfold ratios_eq, leg_ratios. cbn [AB_XA BC_AB CD_BC AD_XA].
  repeat match goal with |- _ /\ _ => split end;
    (etransitivity; [|apply (leg_ratio_scale k _ _ Hk)]);
    (apply if_Qlt_compat; [apply Qabs_scale; exact Hk|]);
    rewrite !(Qabs_scale k _ _ s Hk); reflexivity.
Qed.

Lemma flat_map_map_in {A B C} (F : B -> C) (f : A -> list C) (h : A -> list B) l :
  (forall a, In a l -> f a = map F (h a)) -> flat_map f l = map F (flat_map h l).
Proof.
  induction l as [|a l IH]; intro H; [reflexivity|]. simpl.
  rewrite map_app, H by (left; reflexivity). f_equal. apply IH.
  intros; apply H; right; assumption.
Qed.

Lemma forallb_ext_in {A} (f g : A -> bool) l :
  (forall a, In a l -> f a = g a) -> forallb f l = forallb g l.
Proof.
  induction l as [|a l IH]; intro H; [reflexivity|]. simpl.
  rewrite H by (left; reflexivity). f_equal. apply IH.
  intros; apply H; right; assumption.
Qed.

Lemma iloc_map (g : Q -> Q) prices j :
  (j < length prices)%nat -> iloc (map g prices) j = g (iloc prices j).
Proof.
  intro H. unfold iloc. rewrite (nth_indep _ 0 (g 0)) by (rewrite length_map; exact H).
  apply map_nth.
Qed.

(** The swing points of a series transformed by an order-preserving map are
    the swing points of the series, with transformed prices. *)
Lemma swing_points_map (g : Q -> Q) prices w :
  (forall a b, Qle_bool (g a) (g b) = Qle_bool a b) ->
  _find_swing_points (map g prices) w
  = map (fun p => mkSwing (index p) (g (price p)) (type p))
      (_find_swing_points prices w).
Proof.
  intro Hg. unfold _find_swing_points. rewrite length_map.
  apply flat_map_map_in. intros i Hi. apply in_seq in Hi.
  assert (Hn : forall j, In j (neighbours i w) -> (j < length prices)%nat).
  { intros j Hj. unfold neighbours in Hj. apply filter_In in Hj.
    destruct Hj as (Hj & _). apply in_seq in Hj. lia. }
  assert (Hh : is_high (map g prices) w i = is_high prices w i).
  { unfold is_high. apply forallb_ext_in. intros j Hj.
    rewrite (iloc_map g prices j) by (apply Hn; exact Hj).
    rewrite (iloc_map g prices i) by lia. apply Hg. }
  assert (Hl : is_low (map g prices) w i = is_low prices w i).
  { unfold is_low. apply forallb_ext_in. intros j Hj.
    rewrite (iloc_map g prices j) by (apply Hn; exact Hj).
    rewrite (iloc_map g prices i) by lia. apply Hg. }
  unfold swing_at. rewrite Hh, Hl.
  destruct (is_high prices w i || is_low prices w i); [|reflexivity].
  simpl. rewrite iloc_map by lia. reflexivity.
Qed.

Lemma tail_map {A B} (f : A -> B) (l : list A) k : tail (map f l) k = map f (tail l k).
Proof. unfold tail. rewrite length_map. apply skipn_map. Qed.

Lemma check_pattern_scale checks k s points t :
  0 < k ->
  (forall r r', ratios_eq r r' -> checks r t = checks r' t) ->
  check_pattern checks
    (map (fun p => mkSwing (index p) (k * price p + s) (type p)) points) t
  = check_pattern checks points t.
Proof.
  intros Hk Hc. unfold check_pattern. rewrite length_map.
  destruct (length points <? 5)%nat; [reflexivity|].
  rewrite map_map. cbn [price].
  destruct points as [|pX [|pA [|pB [|pC [|pD [|pE l]]]]]]; try reflexivity.
  cbn [map]. apply Hc. apply leg_ratios_scale. exact Hk.
Qed.

(** X7.  The harmonic detector does not depend on the unit of price: for a
    positive factor [k] and any shift [s], the frame whose prices are
    [k * price + s] matches a pattern exactly when the original frame
    does. *)
Theorem harmonic_detection_scale_invariant (data : DataFrame)
    (pattern_type : string) (tolerance : Q) (lookback_period : nat) (k s : Q) :
  0 < k ->
  _detect_harmonic_pattern (map (rescale k s) data) pattern_type tolerance
    lookback_period
  = _detect_harmonic_pattern data pattern_type tolerance lookback_period.
Proof.
  intro Hk. unfold _detect_harmonic_pattern. rewrite length_map.
  destruct ((length data <? lookback_period)%nat || (lookback_period <? 20)%nat);
    [reflexivity|].
  cbv zeta. rewrite tail_map. unfold col. rewrite map_map.
  change (map (fun x : Bar => close (rescale k s x)) (tail data lookback_period))
    with (map (fun x : Bar => k * close x + s) (tail data lookback_period)).
  rewrite <- (map_map close (fun c => k * c + s)).
  rewrite swing_points_map.
  2:{ intros a b. apply eq_true_iff_eq. rewrite !Qle_bool_iff. split; intro; nra. }
  rewrite length_map.
  destruct (length (_find_swing_points (map close (tail data lookback_period)) 5) <? 5)%nat;
    [reflexivity|].
  unfold last5. rewrite tail_map.
  unfold _check_gartley_pattern, _check_bat_pattern, _check_butterfly_pattern,
    _check_crab_pattern.
  rewrite !(check_pattern_scale _ k s _ tolerance Hk);
    try (intros r r' Hr; apply (checks_compat r r' tolerance Hr)).
  reflexivity.
Qed.

(** ** Exponential averages *)

Lemma alpha_range span :
  (1 <= span)%nat -> 0 < 2 / (of_nat_Q span + 1) /\ 2 / (of_nat_Q span + 1) <= 1.
Proof.
  intro H.
  assert (Hs : 1 <= of_nat_Q span).
  { unfold of_nat_Q. change 1 with (inject_Z 1). rewrite <- Zle_Qle. lia. }
  split.
  - apply Qlt_shift_div_l; lra.
  - apply Qle_shift_div_r; lra.
Qed.

Lemma ewm_from_length alpha prev xs : length (ewm_from alpha prev xs) = length xs.
Proof.
  revert prev. induction xs as [|x xs IH]; intro prev; [reflexivity|].
  simpl. rewrite IH. reflexivity.
Qed.

Lemma ewm_from_bounds alpha lo hi prev xs :
  0 <= alpha -> alpha <= 1 -> lo <= prev -> prev <= hi ->
  (forall x, In x xs -> lo <= x /\ x <= hi) ->
  forall y, In y (ewm_from alpha prev xs) -> lo <= y /\ y <= hi.
Proof.
  intros Ha0 Ha1. revert prev. induction xs as [|x xs IH]; intros prev Hl Hh Hx y Hy.
  - contradiction.
  - cbn [ewm_from] in Hy. cbv zeta in Hy.
    assert (Hxb : lo <= x /\ x <= hi) by (apply Hx; left; reflexivity).
    assert (Hyb : lo <= (1 - alpha) * prev + alpha * x
                  /\ (1 - alpha) * prev + alpha * x <= hi) by (split; nra).
    destruct Hy as [<-|Hy]; [exact Hyb|].
    apply (IH ((1 - alpha) * prev + alpha * x)); try tauto.
    intros; apply Hx; right; assumption.
Qed.

Lemma ema_some (series : list Q) (span : nat) :
  (1 <= span)%nat ->
  exists ys, _ema series span = Some ys
    /\ length ys = length series
    /\ nth 0 ys 0 = nth 0 series 0
    /\ forall lo hi, (forall x, In x series -> lo <= x /\ x <= hi) ->
         forall y, In y ys -> lo <= y /\ y <= hi.
Proof.
  intro E. unfold _ema.
  destruct (span <? 1)%nat eqn:E'; [apply Nat.ltb_lt in E'; lia|].
  eexists. split; [reflexivity|].
  destruct (alpha_range span E) as (Ha0 & Ha1).
  destruct series as [|x0 tl]; [repeat split; intros; contradiction|].
  split; [simpl; rewrite ewm_from_length; reflexivity|].
  split; [reflexivity|].
  intros lo hi Hb y [<-|Hy]; [apply Hb; left; reflexivity|].
  assert (H0 : lo <= x0 /\ x0 <= hi) by (apply Hb; left; reflexivity).
  apply (ewm_from_bounds (2 / (of_nat_Q span + 1)) lo hi x0 tl); try tauto; try lra.
  intros; apply Hb; right; assumption.
Qed.

(** X8.  [_ema] returns [None] exactly for a span below 1.  Otherwise the
    average has one value per input, starts at the first input, and every
    value lies between any two bounds of the inputs: the exponential average
    never leaves the range of the series, and on a constant series it is
    that constant. *)
Theorem ema_within_range (series : list Q) (span : nat) :
  (_ema series span = None <-> span = 0%nat)
  /\ forall ys, _ema series span = Some ys ->
       length ys = length series
       /\ nth 0 ys 0 = nth 0 series 0
       /\ forall lo hi, (forall x, In x series -> lo <= x /\ x <= hi) ->
            forall y, In y ys -> lo <= y /\ y <= hi.
Proof.
  destruct (Nat.lt_ge_cases span 1) as [E|E].
  - unfold _ema. replace (span <? 1)%nat with true by (symmetry; apply Nat.ltb_lt; exact E).
    split; [split; [intros _; lia|reflexivity]|discriminate].
  - destruct (ema_some series span E) as (ys & -> & H).
    split; [split; [discriminate|lia]|].
    intros ys' Hys. injection Hys as <-. exact H.
Qed.

Lemma ewm_adjust_length w num den xs :
  length (Scanner.ewm_adjust_from w num den xs) = length xs.
Proof.
  revert num den. induction xs as [|x xs IH]; intros num den; [reflexivity|].
  simpl. rewrite IH. reflexivity.
Qed.

Lemma ewm_adjust_bounds w lo hi num den xs :
  0 <= w -> 0 <= den -> lo * den <= num -> num <= hi * den ->
  (forall x, In x xs -> lo <= x /\ x <= hi) ->
  forall y, In y (Scanner.ewm_adjust_from w num den xs) -> lo <= y /\ y <= hi.
Proof.
  intros Hw. revert num den.
  induction xs as [|x xs IH]; intros num den Hd Hl Hh Hx y Hy.
  - contradiction.
  - cbn [Scanner.ewm_adjust_from] in Hy. cbv zeta in Hy.
    assert (Hxb : lo <= x /\ x <= hi) by (apply Hx; left; reflexivity).
    assert (Hd' : 0 < 1 + w * den) by nra.
    assert (Hl' : lo * (1 + w * den) <= x + w * num) by nra.
    assert (Hh' : x + w * num <= hi * (1 + w * den)) by nra.
    destruct Hy as [<-|Hy].
    + split.
      * apply Qle_shift_div_l; [exact Hd'|exact Hl'].
      * apply Qle_shift_div_r; [exact Hd'|exact Hh'].
    + apply (IH (x + w * num) (1 + w * den)); try assumption; try lra.
      intros; apply Hx; right; assumption.
Qed.

(** X9.  The exponential average [analyze_stock_volume] takes with
    [ewm(span).mean()] (pandas' default weighting) is defined for a span of
    1 or more, has one value per bar and stays within any bounds of the
    closes: the EMA columns of a frame never leave the range of its
    prices. *)
Theorem ewm_mean_within_range (xs : list Q) (span : nat) :
  (Scanner.ewm_mean span xs = None <-> span = 0%nat)
  /\ forall ys, Scanner.ewm_mean span xs = Some ys ->
       length ys = length xs
       /\ forall lo hi, (forall x, In x xs -> lo <= x /\ x <= hi) ->
            forall y, In y ys -> lo <= y /\ y <= hi.
Proof.
  unfold Scanner.ewm_mean. destruct (span <? 1)%nat eqn:E.
  - apply Nat.ltb_lt in E. split; [split; [intros _; lia|reflexivity]|discriminate].
  - apply Nat.ltb_ge in E. split; [split; [discriminate|lia]|].
    intros ys Hys. injection Hys as <-.
    destruct (alpha_range span E) as (Ha0 & Ha1).
    split; [apply ewm_adjust_length|].
    intros lo hi Hb y Hy.
    apply (ewm_adjust_bounds (1 - 2 / (of_nat_Q span + 1)) lo hi 0 0 xs);
      try assumption; lra.
Qed.

Lemma sub_series_length a b : length (sub_series a b) = Nat.min (length a) (length b).
Proof.
  revert b. induction a as [|x a IH]; intros [|y b]; simpl; try reflexivity.
  rewrite IH. reflexivity.
Qed.

Lemma sub_series_In a b z :
  In z (sub_series a b) -> exists x y, In x a /\ In y b /\ z = x - y.
Proof.
  revert b. induction a as [|x a IH]; intros [|y b] H; simpl in H; try contradiction.
  destruct H as [<-|H].
  - exists x, y. simpl. tauto.
  - destruct (IH b H) as (x' & y' & Hx & Hy & E). exists x', y'. simpl. tauto.
Qed.

(** X10.  [_macd] always returns its three series, each with one value per
    close, and the histogram is the line minus the signal bar by bar.  On a
    series of equal closes the line, the signal and the histogram are 0
    throughout, so the MACD line is never above its signal there. *)
Theorem macd_of_flat_closes (close_series : list Q) :
  exists line signal hist,
    _macd close_series = (Some line, Some signal, Some hist)
    /\ length line = length close_series
    /\ length signal = length close_series
    /\ length hist = length close_series
    /\ (forall i, (i < length close_series)%nat ->
          nth i hist 0 = nth i line 0 - nth i signal 0)
    /\ forall c, (forall x, In x close_series -> x == c) ->
         (forall x, In x line -> x == 0)
         /\ (forall x, In x signal -> x == 0)
         /\ (forall x, In x hist -> x == 0)
         /\ Qlt_bool (last signal 0) (last line 0) = false.
Proof.
  unfold _macd.
  destruct (ema_some close_series 12) as (ema12 & -> & L12 & _ & B12); [lia|].
  destruct (ema_some close_series 26) as (ema26 & -> & L26 & _ & B26); [lia|].
  destruct (ema_some (sub_series ema12 ema26) 9) as (signal & -> & L9 & _ & B9); [lia|].
  assert (Ll : length (sub_series ema12 ema26) = length close_series).
  { rewrite sub_series_length, L12, L26. apply Nat.min_id. }
  exists (sub_series ema12 ema26), signal, (sub_series (sub_series ema12 ema26) signal).
  split; [reflexivity|]. split; [exact Ll|].
  split; [rewrite L9; exact Ll|].
  split; [rewrite sub_series_length, L9, Ll; apply Nat.min_id|].
  split.
  - intros i Hi.
    assert (Hgen : forall a b j, (j < length a)%nat -> (j < length b)%nat ->
                     nth j (sub_series a b) 0 = nth j a 0 - nth j b 0).
    { induction a as [|x a IH]; intros [|y b] j Ha Hb; simpl in *; try lia.
      destruct j; [reflexivity|]. apply IH; lia. }
    apply Hgen; lia.
  - intros c Hc.
    assert (Hline : forall x, In x (sub_series ema12 ema26) -> x == 0).
    { intros z Hz. apply sub_series_In in Hz. destruct Hz as (x & y & Hx & Hy & ->).
      assert (c <= x /\ x <= c).
      { apply (B12 c c); [|exact Hx]. intros u Hu. rewrite (Hc u Hu). lra. }
      assert (c <= y /\ y <= c).
      { apply (B26 c c); [|exact Hy]. intros u Hu. rewrite (Hc u Hu). lra. }
      lra. }
    assert (Hsig : forall x, In x signal -> x == 0).
    { intros z Hz.
      assert (0 <= z /\ z <= 0).
      { apply (B9 0 0); [|exact Hz]. intros u Hu. rewrite (Hline u Hu). lra. }
      lra. }
    split; [exact Hline|]. split; [exact Hsig|]. split.
    + intros z Hz. apply sub_series_In in Hz. destruct Hz as (x & y & Hx & Hy & ->).
      rewrite (Hline x Hx), (Hsig y Hy). lra.
    + apply Qlt_bool_false.
      assert (Hlast : forall l : list Q, (forall x, In x l -> x == 0) -> last l 0 == 0).
      { intros l Hl. rewrite last_as_nth.
        destruct (Nat.lt_ge_cases (length l - 1) (length l)) as [Hi|Hi].
        - apply Hl, nth_In, Hi.
        - rewrite nth_overflow by exact Hi. reflexivity. }
      rewrite (Hlast _ Hline), (Hlast _ Hsig). lra.
Qed.

(** ** Growth rates *)




(** ** VWAP as a weighted mean *)



(** ** The RSI value the scanners and the scoring engine use *)

(** X13.  The value [_calculate_rsi] returns as the class ends up defining
    it: 50 for an empty series; otherwise the last raw RSI, which is NaN or
    lies in [0, 100].  It is NaN when the series is shorter than the period
    and when the last [period + 1] closes (all of them on a shorter
    series) are equal, where the series-valued definition holds 50.  A NaN
    RSI earns no point on the RSI criterion of the score. *)
Theorem rsi_last_value (prices : list Q) (period : nat) :
  let r := Scoring._calculate_rsi prices period in
  let n := length prices in
  (prices = [] -> r = Fin 50)
  /\ (prices <> [] -> r = NaN \/ in_range 0 100 r)
  /\ (prices <> [] ->
      fillna 50 r = last (Indicators._calculate_rsi prices period) NaN)
  /\ (prices <> [] -> (period = 0 \/ n < period)%nat -> r = NaN)
  /\ ((1 <= period)%nat -> (period <= n)%nat ->
      (forall j, (n - (period + 1) <= j)%nat -> (S j < n)%nat ->
         iloc prices (S j) == iloc prices j) ->
      r = NaN)
  /\ (forall th s, rsi s = NaN ->
        points_for (technical_rows th s) "RSI(14)" = Some 0%nat).
Proof.
  cbv zeta. split; [intros ->; reflexivity|].
  split.
  { intro Hne. rewrite scalar_rsi_as_last by exact Hne.
    assert (Hi : (length prices - 1 < length prices)%nat)
      by (destruct prices; [congruence|simpl; lia]).
    destruct (avg_nonneg prices period _ Hi) as [[-> ->]|(G & L & -> & -> & HG & HL)].
    - left. reflexivity.
    - apply rsi_of_range; assumption. }
  split.
  { intro Hne. rewrite scalar_rsi_as_last by exact Hne.
    assert (Hi : (length prices - 1 < length prices)%nat)
      by (destruct prices; [congruence|simpl; lia]).
    rewrite last_as_nth.
    replace (length (Indicators._calculate_rsi prices period)) with (length prices).
    - symmetry. apply rsi_series_nth. exact Hi.
    - unfold Indicators._calculate_rsi. rewrite length_map, rsi_raw_length. reflexivity. }
  split.
  { intros Hne Hc. rewrite scalar_rsi_as_last by exact Hne.
    assert (Hpos : (0 < length prices)%nat) by (destruct prices; [congruence|simpl; lia]).
    destruct (avg_cold prices period (length prices - 1)) as [-> _]; [lia|].
    reflexivity. }
  split.
  { intros Hp Hn Hflat.
    assert (Hne : prices <> []) by (destruct prices; [simpl in Hn; lia|discriminate]).
    rewrite scalar_rsi_as_last by exact Hne.
    rewrite avg_gain_warm, avg_loss_warm by lia.
    assert (Hq : 0 < of_nat_Q period) by (apply of_nat_Q_pos; lia).
    assert (Hz : forall j, In j (seq (length prices - 1 + 1 - period) period) ->
                   gain_at prices j == 0 /\ loss_at prices j == 0).
    { intros j Hj. apply in_seq in Hj. destruct j as [|k].
      - split; reflexivity.
      - assert (E : iloc prices (S k) == iloc prices k) by (apply Hflat; lia).
        unfold gain_at, loss_at. cbv zeta.
        assert (E1 : Qlt_bool 0 (iloc prices (S k) - iloc prices k) = false)
          by (apply Qlt_bool_false; lra).
        assert (E2 : Qlt_bool (iloc prices (S k) - iloc prices k) 0 = false)
          by (apply Qlt_bool_false; lra).
        rewrite E1, E2. split; lra. }
    apply rsi_of_loss_zero_gain_zero.
    - rewrite Qsum_zero; [field; lra|].
      intros x Hx. apply in_map_iff in Hx. destruct Hx as (j & <- & Hj). apply Hz, Hj.
    - rewrite Qsum_zero; [field; lra|].
      intros x Hx. apply in_map_iff in Hx. destruct Hx as (j & <- & Hj). apply Hz, Hj. }
  intros th s Hs. unfold technical_rows. cbv zeta. rewrite Hs.
  reflexivity.
Qed.

(** ** Scoring: parameters without effect, kept invariants, monotonicity *)

Lemma score_ignores_tolerances sym s
    a1 a2 a3 a4 a5 a6 a7 a8 a9 a10 a11 a12 b1 a13 b2 c1 c2 :
  score sym (mkThresholds a1 a2 a3 a4 a5 a6 a7 a8 a9 a10 a11 a12 b1 a13 b2) s
  = score sym (mkThresholds a1 a2 a3 a4 a5 a6 a7 a8 a9 a10 a11 a12 c1 a13 c2) s.
Proof. reflexivity. Qed.

(** X14.  The settings [sma_tolerance] and [macd_tolerance] that
    [analyze_single_stock] reads from [scoring_params] have no effect:
    whatever values they are given, for every symbol and provider the result
    is the one obtained without them. *)
Theorem tolerance_settings_unused (pv : Provider) (sym : string) (d : dict)
    (x y : Q) :
  analyze_single_stock pv sym
    (Some (("sma_tolerance"%string, x) :: ("macd_tolerance"%string, y) :: d))
  = analyze_single_stock pv sym (Some d).
Proof.
  unfold analyze_single_stock. cbv zeta.
  destruct (get_fundamental_data _ _) as [f|]; [|reflexivity].
  destruct (stock_data pv sym) as [data|]; [|reflexivity].
  destruct (length data <? 50)%nat; [reflexivity|].
  destruct (_macd (col close data)) as [[ml ms] mh].
  unfold thresholds_of.
  cbn [get String.eqb Ascii.eqb Bool.eqb].
  rewrite (score_ignores_tolerances sym _ _ _ _ _ _ _ _ _ _ _ _ _ x _ y
             (get d "sma_tolerance" 2.0) (get d "macd_tolerance" 0.01)).
  reflexivity.
Qed.

Lemma strict_check_between v hi :
  strict_check v hi = true -> strictly_between hi v.
Proof.
  unfold strict_check, strictly_between. destruct v as [x|]; [|rewrite andb_false_r; discriminate].
  rewrite !andb_true_iff. intros (_ & H1 & H2).
  destruct x as [q| | |]; simpl in H1, H2; try discriminate.
  apply Qlt_bool_iff in H1, H2. exists q. repeat split; assumption.
Qed.

Lemma py_or_default_some v d : exists x, py_or v (Some d) = Some x.
Proof.
  unfold py_or. destruct (truthy v) eqn:E; [|eexists; reflexivity].
  destruct v as [x|]; [eexists; reflexivity|discriminate].
Qed.

(** X15.  What [get_fundamental_data] guarantees about a symbol it returns
    data for: the price history is not empty, the P/E is a number strictly
    between 0 and 1000, the P/B a number strictly between 0 and 100, and
    return on equity, debt to equity, revenue growth, profit margin and
    dividend yield are all present (0 where [info] has none).  A result of
    [analyze_single_stock] carries such a P/E and P/B and comes from a
    history of 50 bars or more. *)
Theorem fundamentals_kept_in_range (pv : Provider) (sym : string)
    (scoring_params : option dict) :
  (forall data info f, get_fundamental_data data info = Some f ->
     (exists b d, data = Some (b :: d))
     /\ strictly_between 1000 (pe_ratio f)
     /\ strictly_between 100 (pb_ratio f)
     /\ roe f <> None /\ debt_equity_ratio f <> None
     /\ revenue_growth f <> None /\ profit_margin f <> None
     /\ dividend_yield f <> None)
  /\ (forall r, analyze_single_stock pv sym scoring_params = Ok (Some r) ->
        strictly_between 1000 (r_pe_ratio r)
        /\ strictly_between 100 (r_pb_ratio r)
        /\ symbol r = sym
        /\ exists data, stock_data pv sym = Some data /\ (50 <= length data)%nat).
Proof.
  assert (H1 : forall data info f, get_fundamental_data data info = Some f ->
     (exists b d, data = Some (b :: d))
     /\ strictly_between 1000 (pe_ratio f)
     /\ strictly_between 100 (pb_ratio f)
     /\ roe f <> None /\ debt_equity_ratio f <> None
     /\ revenue_growth f <> None /\ profit_margin f <> None
     /\ dividend_yield f <> None).
  { intros data info f H. unfold get_fundamental_data in H.
    destruct data as [[|b d]|]; try discriminate.
    split; [exists b, d; reflexivity|].
    unfold fundamentals_of_info in H. destruct info as [i|]; [|discriminate].
    destruct (strict_check (py_or (trailingPE i) (forwardPE i)) 1000) eqn:Epe;
      [|discriminate].
    destruct (strict_check (priceToBook i) 100) eqn:Epb; [|discriminate].
    injection H as <-. cbn.
    split; [apply strict_check_between; exact Epe|].
    split; [apply strict_check_between; exact Epb|].
    destruct (py_or_default_some (returnOnEquity i) (Fin 0)) as (x1 & ->).
    destruct (py_or_default_some (debtToEquity i) (Fin 0)) as (x2 & ->).
    destruct (py_or_default_some (revenueGrowth i) (Fin 0)) as (x3 & ->).
    destruct (py_or_default_some (profitMargins i) (Fin 0)) as (x4 & ->).
    destruct (py_or_default_some (dividendYield i) (Fin 0)) as (x5 & ->).
    repeat split; discriminate. }
  split; [exact H1|].
  intros r Hr. unfold analyze_single_stock in Hr. cbv zeta in Hr.
  destruct (get_fundamental_data _ _) as [f|] eqn:Ef; [|discriminate].
  destruct (H1 _ _ _ Ef) as (_ & Hpe & Hpb & _).
  destruct (stock_data pv sym) as [data|]; [|discriminate].
  destruct (length data <? 50)%nat eqn:El; [discriminate|].
  apply Nat.ltb_ge in El.
  destruct (_macd (col close data)) as [[ml ms] mh].
  unfold score in Hr. rewrite fundamental_rows_eq in Hr. cbn [bind] in Hr.
  cbv zeta in Hr. injection Hr as <-. cbn.
  split; [exact Hpe|]. split; [exact Hpb|]. split; [reflexivity|].
  exists data. split; [reflexivity|exact El].
Qed.

(** X16.  A symbol whose [info] has no debt-to-equity figure (or has 0) is
    scored as if it had no debt: whenever the "excellent" debt threshold is
    positive, the criterion Borç/Özkaynak of its result awards the full 2
    points. *)
Theorem missing_debt_scores_full (pv : Provider) (sym : string)
    (scoring_params : option dict) (r : ScoreResult) (i : Info) :
  analyze_single_stock pv sym scoring_params = Ok (Some r) ->
  ticker_info pv sym = Some i ->
  debtToEquity i = None \/ debtToEquity i = Some (Fin 0) ->
  0 < debt_excellent (thresholds_of scoring_params) ->
  points_for (fundamental_breakdown r) "Borç/Özkaynak" = Some 2%nat.
Proof.
  intros Hr Hi Hd Hth.
  destruct (analyze_single_stock_some pv sym scoring_params r Hr)
    as (f & s & Hf & <- & _ & _ & _ & _ & _ & ->).
  rewrite Hi in Hf.
  destruct (fundamentals_of_info_some _ _ Hf)
    as (i' & Ei & _ & _ & _ & _ & _ & Hde & _).
  injection Ei as <-.
  unfold fundamental_points_of. cbv zeta.
  match goal with |- context [rows_of fundamental_names
                                [?p0; ?p1; ?p2; ?p3; ?p4; ?p5; ?p6; ?p7; ?p8; ?p9]] =>
    destruct (points_for_names p0 p1 p2 p3 p4 p5 p6 p7 p8 p9)
      as (_ & _ & _ & _ & _ & _ & _ & E7 & _)
  end.
  cbv zeta in E7. rewrite E7. f_equal.
  assert (Hz : debt_equity_ratio (fundamentals s) = Some (Fin 0)).
  { rewrite Hde. destruct Hd as [->| ->]; reflexivity. }
  rewrite Hz. unfold meets, flt.
  replace (Qlt_bool 0 (debt_excellent (thresholds_of scoring_params))) with true
    by (symmetry; apply Qlt_bool_iff; exact Hth).
  reflexivity.
Qed.

Lemma tier_points_mono e g e' g' :
  (e = true -> e' = true) -> (g = true -> g' = true) ->
  (tier_points e g <= tier_points e' g')%nat.
Proof.
  intros He Hg. destruct e, g, e', g'; simpl; try lia;
    try (specialize (He eq_refl); discriminate);
    try (specialize (Hg eq_refl); discriminate).
Qed.

Lemma meets_le_mono (op : fl -> fl -> bool) v v' t :
  (op = fle \/ op = flt) -> ratio_le v' v ->
  meets op v t = true -> meets op v' t = true.
Proof.
  intros Hop Hle. unfold meets, ratio_le in *.
  destruct v as [[x| | |]|], v' as [[x'| | |]|]; try contradiction; try tauto.
  destruct Hop as [-> | ->]; simpl.
  - rewrite !Qle_bool_iff. lra.
  - rewrite !Qlt_bool_iff. lra.
Qed.

Lemma recommend_rank_mono n m :
  (n <= m)%nat -> (rank (recommend n) <= rank (recommend m))%nat.
Proof.
  intro H. unfold recommend.
  repeat match goal with
  | |- context [(?a <=? ?b)%nat] => destruct (Nat.leb_spec a b)
  end; try lia; vm_compute; lia.
Qed.

(** X17.  Lowering a valuation ratio never costs points.  When the P/E, the
    P/B, the debt-to-equity ratio and EV/EBITDA of a snapshot are replaced by
    finite values that are not larger (a missing value staying missing), with
    everything else unchanged, the total score does not decrease, the
    technical points stay the same and the recommendation does not get
    worse. *)
Theorem lower_ratios_never_lower_score (sym : string) (th : Thresholds)
    (s : Snapshot) (pe pb de ev : pyfloat) :
  ratio_le pe (pe_ratio (fundamentals s)) ->
  ratio_le pb (pb_ratio (fundamentals s)) ->
  ratio_le de (debt_equity_ratio (fundamentals s)) ->
  ratio_le ev (ev_ebitda s) ->
  exists r r',
    score sym th s = Ok r
    /\ score sym th (with_ratios s pe pb de ev) = Ok r'
    /\ (total_points r <= total_points r')%nat
    /\ technical_points r' = technical_points r
    /\ (rank (recommendation r) <= rank (recommendation r'))%nat.
Proof.
  intros Hpe Hpb Hde Hev.
  unfold score. rewrite !fundamental_rows_eq. cbn [bind]. cbv zeta.
  do 2 eexists. split; [reflexivity|]. split; [reflexivity|].
  cbn [total_points technical_points recommendation].
  rewrite !sum_points_list_sum.
  destruct (technical_rows_points th s) as (Ht & _).
  destruct (technical_rows_points th (with_ratios s pe pb de ev)) as (Ht' & _).
  rewrite Ht, Ht'.
  assert (Etech : technical_points_of th (with_ratios s pe pb de ev)
                  = technical_points_of th s) by reflexivity.
  rewrite Etech.
  assert (Hmap : forall names pts, length names = length pts ->
            map Puan (rows_of names pts) = pts).
  { intros names pts. revert names. induction pts as [|p pts IH]; intros [|n names] Hl;
      simpl in *; try reflexivity; try lia.
    unfold rows_of in *. simpl. f_equal. apply IH. lia. }
  rewrite !Hmap by reflexivity.
  pose proof (fundamental_sum_le th s) as Hcap.
  pose proof (fundamental_sum_le th (with_ratios s pe pb de ev)) as Hcap'.
  destruct (20 <? list_sum (fundamental_points_of th s))%nat eqn:E1;
    [apply Nat.ltb_lt in E1; lia|].
  destruct (20 <? list_sum (fundamental_points_of th (with_ratios s pe pb de ev)))%nat
    eqn:E2; [apply Nat.ltb_lt in E2; lia|].
  assert (Hfund : (list_sum (fundamental_points_of th s)
                   <= list_sum (fundamental_points_of th (with_ratios s pe pb de ev)))%nat).
  { unfold fundamental_points_of, with_ratios. cbv zeta.
    cbn [fundamentals pe_ratio pb_ratio roe debt_equity_ratio revenue_growth
         profit_margin dividend_yield ev_ebitda rev_growth_3y ni_growth_3y
         current_ratio ocf_last ni_vals list_sum fold_right].
    pose proof (tier_points_mono _ _ _ _
                  (meets_le_mono fle _ _ (pe_excellent th) (or_introl eq_refl) Hpe)
                  (meets_le_mono fle _ _ (pe_good th) (or_introl eq_refl) Hpe)) as M1.
    pose proof (tier_points_mono _ _ _ _
                  (meets_le_mono flt _ _ (pb_excellent th) (or_intror eq_refl) Hpb)
                  (meets_le_mono fle _ _ (pb_good th) (or_introl eq_refl) Hpb)) as M2.
    pose proof (tier_points_mono _ _ _ _
                  (meets_le_mono flt _ _ 6 (or_intror eq_refl) Hev)
                  (meets_le_mono fle _ _ 8 (or_introl eq_refl) Hev)) as M3.
    pose proof (tier_points_mono _ _ _ _
                  (meets_le_mono flt _ _ (debt_excellent th) (or_intror eq_refl) Hde)
                  (meets_le_mono fle _ _ (debt_good th) (or_introl eq_refl) Hde)) as M4.
    lia. }
  split; [lia|]. split; [reflexivity|].
  apply recommend_rank_mono. lia.
Qed.

Lemma tail_const {A B} (v : B) (l : list A) k j d :
  nth j (tail (map (fun _ => v) l) k) d = v \/ nth j (tail (map (fun _ => v) l) k) d = d.
Proof.
  unfold tail.
  destruct (Nat.lt_ge_cases j (length (skipn (length (map (fun _ : A => v) l) - k) (map (fun _ => v) l)))) as [H|H].
  - left. 
    assert (Hin : In (nth j (skipn (length (map (fun _ : A => v) l) - k) (map (fun _ => v) l)) d)
                     (map (fun _ => v) l)).
    { eapply (In_slice _ (length (map (fun _ : A => v) l) - k) (length (map (fun _ : A => v) l))).
      unfold slice. rewrite firstn_all2. apply nth_In; exact H. rewrite length_skipn. lia. }
    apply in_map_iff in Hin. destruct Hin as (x & Hx & _). symmetry. exact Hx.
  - right. apply nth_overflow. exact H.
Qed.

Lemma fle_refl x : is_nan x = false -> fle x x = true.
Proof.
  destruct x as [q| | |]; simpl; try congruence; intros _.
  apply Qle_bool_iff. lra.
Qed.

Lemma neighbours_nonempty i w : (0 < w)%nat -> In (i + 1)%nat (neighbours i w).
Proof.
  intro H. unfold neighbours. apply filter_In. split.
  - apply in_seq. lia.
  - apply negb_true_iff, Nat.eqb_neq. lia.
Qed.

Lemma local_minima_const {A} (v : fl) (l : list A) k w :
  (0 < w)%nat -> is_nan v = false ->
  Scanner.local_minima_fl (tail (map (fun _ => v) l) k) w = [].
Proof.
  intros Hw Hv. unfold Scanner.local_minima_fl.
  set (s := tail (map (fun _ => v) l) k).
  assert (Hlen : forall j, (j < length s)%nat -> nth j s NaN = v).
  { intros j Hj. unfold s, tail in *.
    assert (Hin : In (nth j (skipn (length (map (fun _ : A => v) l) - k) (map (fun _ => v) l)) NaN)
                     (map (fun _ => v) l)).
    { eapply (In_slice _ (length (map (fun _ : A => v) l) - k) (length (map (fun _ : A => v) l))).
      unfold slice. rewrite firstn_all2. apply nth_In; exact Hj. rewrite length_skipn. lia. }
    apply in_map_iff in Hin. destruct Hin as (x & Hx & _). symmetry. exact Hx. }
  match goal with |- filter ?f ?c = [] => 
    assert (Hf : forall i, In i c -> f i = false) end.
  { intros i Hi. apply in_seq in Hi.
    apply not_true_is_false. intro Hall.
    rewrite forallb_forall in Hall.
    specialize (Hall _ (neighbours_nonempty i w Hw)).
    rewrite !Hlen in Hall by lia. rewrite fle_refl in Hall by exact Hv. discriminate. }
  induction (seq w (length s - w - w)) as [|i c IH]; [reflexivity|].
  simpl. rewrite Hf by (left; reflexivity). apply IH. intros; apply Hf; right; assumption.
Qed.

Lemma rsi_divergence_constant_column (data : DataFrame) (v : fl) (period : nat) (min_strength : Q) :
  Scanner._detect_rsi_divergence data (map (fun _ => v) data) period min_strength = false.
Proof.
  unfold Scanner._detect_rsi_divergence.
  destruct (length data <? period)%nat; [reflexivity|]. cbv zeta.
  destruct (is_nan v) eqn:Ev.
  - destruct v; try discriminate.
    match goal with |- (if ?c then _ else _) = _ => destruct c; [reflexivity|] end.
    assert (Hn : forall j, nth j (tail (map (fun _ : Bar => NaN) data) period) NaN = NaN).
    { intro j. destruct (tail_const NaN data period j NaN); assumption. }
    rewrite !Hn. unfold fgt. simpl flt. rewrite andb_false_r. reflexivity.
  - rewrite (local_minima_const v data period 3) by (try lia; exact Ev).
    simpl length. rewrite orb_true_r. reflexivity.
Qed.

Section Flags.
Variable sqrt : Q -> Q.

Ltac break_pairs_eqn H :=
  repeat match type of H with
  | context [match ?x with pair _ _ => _ end] => destruct x eqn:?
  end.

(** The flags of a result in terms of the frame: each is the value of its
    check, guarded by the length test of its block. *)
Lemma analyze_frame_flags now sym p data r :
  Scanner.analyze_frame sqrt now sym p data = Some r ->
  let n := length data in
  let volumes := col volume data in
  let rsi_col :=
    map (fun _ : Bar => Scoring._calculate_rsi (col close data) (Scanner.rsi_period p)) data in
  ScanResult.volume_progression_check r
  = (Scanner.periods_to_check p + 1 <=? n)%nat
    && Scanner.strictly_increasing (tail volumes (Scanner.periods_to_check p + 1))
  /\ ScanResult.rsi_divergence_detected r
     = (Scanner.divergence_period p <=? n)%nat
       && Scanner._detect_rsi_divergence data rsi_col (Scanner.divergence_period p)
            (Scanner.min_divergence_strength p)
  /\ ScanResult.rsi_oversold r
     = (Scanner.divergence_period p <=? n)%nat
       && fle (Scanner.fmin_skipna (Scanner.last_k rsi_col (Scanner.divergence_period p)))
              (Fin (Scanner.rsi_oversold_threshold p))
  /\ ScanResult.rsi r = last_fl rsi_col
  /\ ScanResult.data_points r = n
  /\ ScanResult.breakout_confirmed r
     = (Scanner.triangle_period p <=? n)%nat
       && fst (Scanner._check_breakout_with_volume data (last volumes 0)
                 (Scanner.breakout_volume_increase p))
  /\ (ScanResult.breakout_direction_correct r = true ->
      ScanResult.breakout_confirmed r = true)
  /\ ScanResult.harmonic_pattern_detected r
     = (Scanner.fib_lookback_period p <=? n)%nat
       && _detect_harmonic_pattern data (Scanner.harmonic_pattern_type p)
            (Scanner.harmonic_tolerance p) (Scanner.fib_lookback_period p)
  /\ data <> [].
Proof.
  unfold Scanner.analyze_frame. cbv zeta.
  destruct (length data <? Scanner.sma_period p)%nat eqn:Elen; [discriminate|].
  destruct (Scanner.ewm_mean (Scanner.ema_short p) _); [|discriminate].
  destruct (Scanner.ewm_mean (Scanner.ema_long p) _); [|discriminate].
  destruct (Scanner.ewm_mean (Scanner.macd_fast p) _); [|discriminate].
  destruct (Scanner.ewm_mean (Scanner.macd_slow p) _); [|discriminate].
  destruct (Scanner.ewm_mean (Scanner.macd_signal p) _); [|discriminate].
  destruct data as [|b data']; [discriminate|].
  set (data := b :: data') in *.
  intro H. break_pairs_eqn H.
  match type of H with
  | (if ?c then _ else _) = _ => destruct c eqn:Eguard; [discriminate|]
  end.
  injection H as <-.
  cbn [ScanResult.volume_progression_check ScanResult.rsi_divergence_detected
       ScanResult.rsi ScanResult.data_points ScanResult.rsi_oversold
       ScanResult.breakout_confirmed ScanResult.breakout_direction_correct
       ScanResult.harmonic_pattern_detected].
  repeat match goal with |- _ /\ _ => split end; try reflexivity.
  - match goal with
    | E : (if (Scanner.periods_to_check p + 1 <=? _)%nat then _ else _) = (?a, _) |- ?a = _ =>
        revert E
    end.
    destruct (Scanner.periods_to_check p + 1 <=? length data)%nat.
    + destruct (Scanner.strictly_increasing _); intro E; injection E as <- _; reflexivity.
    + destruct (3 <=? length data)%nat; intro E; injection E as <- _; reflexivity.
  - match goal with
    | E : (if (Scanner.divergence_period p <=? _)%nat then _ else _) = (_, _, _, _) |- _ =>
        revert E
    end.
    destruct (Scanner.divergence_period p <=? length data)%nat;
      intro E; injection E as <- _ _ _; reflexivity.
  - match goal with
    | E : (if (Scanner.divergence_period p <=? _)%nat then _ else _) = (_, _, _, _) |- _ =>
        revert E
    end.
    destruct (Scanner.divergence_period p <=? length data)%nat;
      intro E; injection E as _ <- _ _; reflexivity.
  - match goal with
    | E : (if (Scanner.triangle_period p <=? _)%nat then _ else _) = (_, _, _, _) |- _ =>
        revert E
    end.
    destruct (Scanner.triangle_period p <=? length data)%nat.
    + destruct (Scanner._check_breakout_with_volume _ _ _) as [confirmed detected].
      intro E; injection E as _ _ <- _; reflexivity.
    + intro E; injection E as _ _ <- _; reflexivity.
  - match goal with
    | E : (if (Scanner.triangle_period p <=? _)%nat then _ else _) = (_, _, _, _) |- _ =>
        revert E
    end.
    destruct (Scanner.triangle_period p <=? length data)%nat.
    + destruct (Scanner._check_breakout_with_volume _ _ _) as [confirmed detected].
      intro E; injection E as _ _ <- <-.
      repeat match goal with
      | |- context [String.eqb ?a ?b] => destruct (String.eqb a b)
      end; try discriminate; try tauto;
      intro Hd; apply andb_true_iff in Hd; tauto.
    + intro E; injection E as _ _ <- <-. discriminate.
  - match goal with
    | E : (if (Scanner.fib_lookback_period p <=? _)%nat then _ else _) = (_, _, _, _) |- _ =>
        revert E
    end.
    destruct (Scanner.fib_lookback_period p <=? length data)%nat;
      intro E; injection E as _ <- _ _; reflexivity.
  - discriminate.
Qed.
End Flags.

Lemma strictly_increasing_iff (l : list Q) :
  Scanner.strictly_increasing l = true
  <-> forall i, (S i < length l)%nat -> iloc l i < iloc l (S i).
Proof.
  induction l as [|x [|y l] IH].
  - simpl. split; [intros _ i H; lia|reflexivity].
  - simpl. split; [intros _ i H; lia|reflexivity].
  - change (Scanner.strictly_increasing (x :: y :: l))
      with (if Qle_bool y x then false else Scanner.strictly_increasing (y :: l)).
    destruct (Qle_bool y x) eqn:E.
    + split; [discriminate|]. intro H. apply Qle_bool_iff in E.
      specialize (H 0%nat). unfold iloc in H. simpl in H.
      assert (x < y) by (apply H; lia). lra.
    + rewrite IH. split.
      * intros H [|i] Hi.
        -- unfold iloc. simpl.
           destruct (Qlt_le_dec x y) as [Hlt|Hle]; [exact Hlt|].
           apply Qle_bool_iff in Hle. congruence.
        -- apply (H i). simpl in *. lia.
      * intros H i Hi. apply (H (S i)). simpl in *. lia.
Qed.

Lemma fmin_skipna_const (v : fl) (l : list fl) :
  l <> [] -> (forall x, In x l -> x = v) -> Scanner.fmin_skipna l = v.
Proof.
  intros Hne Hall. unfold Scanner.fmin_skipna.
  destruct l as [|x l]; [congruence|]. clear Hne.
  assert (Hx : x = v) by (apply Hall; left; reflexivity). subst x.
  cbn [fold_left]. destruct (is_nan v) eqn:Ev.
  - destruct v; try discriminate.
    assert (Hl : forall x, In x l -> x = NaN) by (intros; apply Hall; right; assumption).
    clear Hall. induction l as [|y l IH]; [reflexivity|].
    cbn [fold_left]. rewrite (Hl y) by (left; reflexivity). simpl is_nan. cbv iota.
    apply IH. intros; apply Hl; right; assumption.
  - cbn [is_nan].
    assert (Hl : forall x, In x l -> x = v) by (intros; apply Hall; right; assumption).
    clear Hall. induction l as [|y l IH]; [reflexivity|].
    cbn [fold_left]. rewrite (Hl y) by (left; reflexivity). rewrite Ev.
    assert (Hf : flt v v = false).
    { destruct (flt v v) eqn:E; [|reflexivity]. apply flt_asym in E as E'. congruence. }
    rewrite Hf. apply IH. intros; apply Hl; right; assumption.
Qed.

Lemma In_tail {A} (l : list A) k x : In x (tail l k) -> In x l.
Proof.
  unfold tail. intro H.
  apply (In_slice l (length l - k) (length l)). unfold slice.
  rewrite firstn_all2; [exact H|]. rewrite length_skipn. lia.
Qed.

Lemma tail_nonempty {A} (l : list A) k : l <> [] -> (0 < k)%nat -> tail l k <> [].
Proof.
  intros Hl Hk E. apply (f_equal (@length A)) in E. unfold tail in E.
  rewrite length_skipn in E. cbn [length] in E.
  assert (0 < length l)%nat by (destruct l; [congruence|simpl; lia]). lia.
Qed.

Lemma last_k_const {A} (v : fl) (l : list A) k :
  l <> [] ->
  Scanner.last_k (map (fun _ => v) l) k <> []
  /\ forall x, In x (Scanner.last_k (map (fun _ => v) l) k) -> x = v.
Proof.
  intro Hl.
  assert (Hm : map (fun _ : A => v) l <> []) by (destruct l; [congruence|discriminate]).
  assert (Hin : forall x, In x (map (fun _ : A => v) l) -> x = v).
  { intros x Hx. apply in_map_iff in Hx. destruct Hx as (a & <- & _). reflexivity. }
  unfold Scanner.last_k. destruct (k =? 0)%nat eqn:Ek.
  - split; assumption.
  - apply Nat.eqb_neq in Ek. split.
    + apply tail_nonempty; [exact Hm|lia].
    + intros x Hx. apply Hin. eapply In_tail. exact Hx.
Qed.

Lemma last_fl_const {A} (v : fl) (l : list A) :
  l <> [] -> last_fl (map (fun _ => v) l) = v.
Proof.
  intro Hl. unfold last_fl.
  destruct (exists_last Hl) as (l' & a & ->).
  rewrite map_app. simpl. apply last_last.
Qed.

(** X18.  In a result of [analyze_stock_volume] the RSI column is one number
    repeated on every bar (the value the later definition of
    [_calculate_rsi] returns), so the divergence check finds no two RSI lows
    that differ: [rsi_divergence_detected] is false on every frame and for
    every parameter set, and [rsi_oversold] is the comparison of the current
    RSI with the threshold, guarded by the length test of the block. *)
Theorem rsi_divergence_never_detected (sqrt : Q -> Q) (now : Z)
    (fetched : option DataFrame) (sym : string) (p : Scanner.Params)
    (r : ScanResult.t) :
  Scanner.analyze_stock_volume sqrt now fetched sym p = Some r ->
  ScanResult.rsi_divergence_detected r = false
  /\ ScanResult.rsi_oversold r
     = (Scanner.divergence_period p <=? ScanResult.data_points r)%nat
       && fle (ScanResult.rsi r) (Fin (Scanner.rsi_oversold_threshold p)).
Proof.
  destruct fetched as [data|]; [|discriminate]. simpl. intro H.
  destruct (analyze_frame_flags sqrt now sym p data r H)
    as (_ & Hdiv & Hover & Hrsi & Hn & _ & _ & _ & Hne).
  split.
  - rewrite Hdiv, rsi_divergence_constant_column. apply andb_false_r.
  - rewrite Hover, Hrsi, Hn.
    destruct (last_k_const (Scoring._calculate_rsi (col close data) (Scanner.rsi_period p))
                data (Scanner.divergence_period p) Hne) as (Hk1 & Hk2).
    rewrite (fmin_skipna_const _ _ Hk1 Hk2), (last_fl_const _ _ Hne). reflexivity.
Qed.

(** X19.  Whatever the frame and the parameters, the scan
    [rsi_divergence_breakout] of the user interface selects no symbol, and
    neither does the placeholder [future_scan_3]. *)
Theorem rsi_divergence_scan_selects_nothing (sqrt : Q -> Q) (now : Z)
    (fetched : option DataFrame) (sym : string) (p : Scanner.Params)
    (min_volume_multiplier : Q) (kwargs : Kwargs) :
  run_analysis_selects (Scanner.analyze_stock_volume sqrt now fetched sym p)
    min_volume_multiplier "rsi_divergence_breakout" kwargs = false
  /\ run_analysis_selects (Scanner.analyze_stock_volume sqrt now fetched sym p)
       min_volume_multiplier "future_scan_3" kwargs = false.
Proof.
  destruct (Scanner.analyze_stock_volume sqrt now fetched sym p) as [r|] eqn:E;
    [|split; reflexivity].
  destruct fetched as [data|]; [|discriminate]. simpl in E.
  destruct (analyze_frame_flags sqrt now sym p data r E)
    as (_ & Hdiv & _).
  rewrite rsi_divergence_constant_column, andb_false_r in Hdiv.
  unfold run_analysis_selects.
  destruct (fgt (ScanResult.current_volume r) (Fin 0)); [|split; reflexivity].
  cbv zeta. unfold apply_scan_criteria. cbn [String.eqb Ascii.eqb Bool.eqb andb].
  rewrite Hdiv. split; reflexivity.
Qed.

Lemma tail_length {A} (l : list A) k : length (tail l k) = Nat.min k (length l).
Proof. unfold tail. rewrite length_skipn. lia. Qed.

Lemma tail_nth {A} (l : list A) k i d :
  nth i (tail l k) d = nth (length l - k + i) l d.
Proof. unfold tail. apply nth_skipn. Qed.

Lemma last_tail {A} (l : list A) k d : (0 < k)%nat -> last (tail l k) d = last l d.
Proof.
  intro Hk. rewrite !last_as_nth, tail_nth, tail_length.
  destruct l as [|x l]; [simpl; destruct (Nat.min k 0 - 1)%nat; reflexivity|].
  f_equal. simpl length. lia.
Qed.

Lemma last_col (f : Bar -> Q) (data : DataFrame) :
  data <> [] -> last (col f data) 0 = f (last data bar0).
Proof.
  intro H. destruct (exists_last H) as (l & b & ->).
  unfold col. rewrite map_app. simpl. rewrite !last_last. reflexivity.
Qed.

(** X20.  For a symbol that [analyze_stock_volume] returns a result for, the
    scan [3_period_increase] of the user interface selects it exactly when
    the latest volume is positive, the latest volume divided by its moving
    average reaches the multiplier, and the last [periods_to_check + 1]
    volumes exist and rise strictly from bar to bar. *)
Theorem volume_increase_scan_selects (sqrt : Q -> Q) (now : Z) (data : DataFrame)
    (sym : string) (p : Scanner.Params) (min_volume_multiplier : Q)
    (kwargs : Kwargs) (r : ScanResult.t) :
  Scanner.analyze_stock_volume sqrt now (Some data) sym p = Some r ->
  let n := length data in
  let k := Scanner.periods_to_check p in
  exists sma,
    ScanResult.volume_sma r = Fin sma
    /\ ~ sma == 0
    /\ ScanResult.current_volume r = Fin (volume (row data (n - 1)))
    /\ (run_analysis_selects (Some r) min_volume_multiplier "3_period_increase" kwargs
        = true
        <-> 0 < volume (row data (n - 1))
            /\ min_volume_multiplier <= volume (row data (n - 1)) / sma
            /\ (k + 1 <= n)%nat
            /\ forall i, (n - (k + 1) <= i)%nat -> (S i < n)%nat ->
                 volume (row data i) < volume (row data (S i))).
Proof.
  simpl. intro H.
  destruct (analyze_frame_flags sqrt now sym p data r H)
    as (Hprog & _ & _ & _ & _ & _ & _ & _ & Hne).
  destruct (analyze_frame_some sqrt now sym p data r H)
    as (Hcv & Hsma & _ & _ & Hna & Hz & _).
  destruct (rolling_mean_last_finite (Scanner.sma_period p) (col volume data))
    as [E|(sma & E)]; rewrite E in *; [discriminate|].
  assert (Hq : ~ sma == 0).
  { intro Hq. apply Qzero_bool_true in Hq. simpl in Hz. congruence. }
  assert (Hlast : last (col volume data) 0 = volume (row data (length data - 1))).
  { rewrite last_as_nth. unfold col, row. rewrite length_map.
    rewrite (nth_indep _ 0 (volume bar0)); [apply map_nth|].
    rewrite length_map. destruct data; [congruence|simpl; lia]. }
  rewrite Hlast in Hcv.
  exists sma. split; [exact Hsma|]. split; [exact Hq|]. split; [exact Hcv|].
  unfold run_analysis_selects, apply_scan_criteria, both_criteria.
  cbn [String.eqb Ascii.eqb Bool.eqb andb]. cbv zeta.
  rewrite Hcv, Hsma, Hprog. unfold fgt, fge. cbn [flt fle fdiv].
  rewrite (Qzero_bool_false sma Hq).
  set (cv := volume (row data (length data - 1))).
  destruct (Qlt_bool 0 cv) eqn:Ecv.
  - apply Qlt_bool_iff in Ecv.
    rewrite !andb_true_iff, Qle_bool_iff, Nat.leb_le, strictly_increasing_iff.
    split.
    + intros (Hr & Hk & Hinc). split; [exact Ecv|]. split; [exact Hr|].
      split; [exact Hk|]. intros i Hi1 Hi2.
      specialize (Hinc (i - (length data - (Scanner.periods_to_check p + 1)))%nat).
      unfold iloc, col in Hinc. rewrite !tail_nth, tail_length, !length_map in Hinc.
      replace (length data - (Scanner.periods_to_check p + 1)
               + (i - (length data - (Scanner.periods_to_check p + 1))))%nat
        with i in Hinc by lia.
      replace (length data - (Scanner.periods_to_check p + 1)
               + S (i - (length data - (Scanner.periods_to_check p + 1))))%nat
        with (S i) in Hinc by lia.
      change 0 with (volume bar0) in Hinc. rewrite !map_nth in Hinc.
      apply Hinc. lia.
    + intros (_ & Hr & Hk & Hinc). split; [exact Hr|]. split; [exact Hk|].
      intros i Hi. unfold iloc, col in *.
      rewrite !tail_nth, tail_length, !length_map in *.
      change 0 with (volume bar0). rewrite !map_nth.
      replace (length data - (Scanner.periods_to_check p + 1) + S i)%nat
        with (S (length data - (Scanner.periods_to_check p + 1) + i)) by lia.
      apply Hinc; lia.
  - apply Qlt_bool_false in Ecv. split; [discriminate|]. intros (Hpos & _). lra.
Qed.

Lemma fold_Qmax_spec (l : list Q) (x : Q) :
  In (fold_left Scanner.Qmax l x) (x :: l)
  /\ forall y, In y (x :: l) -> y <= fold_left Scanner.Qmax l x.
Proof.
  revert x. induction l as [|z l IH]; intro x.
  - simpl. split; [left; reflexivity|]. intros y [<-|[]]. lra.
  - cbn [fold_left]. destruct (IH (Scanner.Qmax x z)) as (Hin & Hle). split.
    + destruct Hin as [E|Hin].
      * rewrite <- E. unfold Scanner.Qmax.
        destruct (Qlt_bool x z); [right; left; reflexivity|left; reflexivity].
      * right. right. exact Hin.
    + intros y Hy.
      assert (Hm : x <= Scanner.Qmax x z /\ z <= Scanner.Qmax x z).
      { unfold Scanner.Qmax. destruct (Qlt_bool x z) eqn:E.
        - apply Qlt_bool_iff in E. lra.
        - apply Qlt_bool_false in E. lra. }
      pose proof (Hle _ (or_introl eq_refl)) as H0.
      destruct Hy as [<-|[<-|Hy]]; [lra|lra|].
      apply Hle. right. exact Hy.
Qed.

Lemma fold_Qmin_spec (l : list Q) (x : Q) :
  In (fold_left Scanner.Qmin l x) (x :: l)
  /\ forall y, In y (x :: l) -> fold_left Scanner.Qmin l x <= y.
Proof.
  revert x. induction l as [|z l IH]; intro x.
  - simpl. split; [left; reflexivity|]. intros y [<-|[]]. lra.
  - cbn [fold_left]. destruct (IH (Scanner.Qmin x z)) as (Hin & Hle). split.
    + destruct Hin as [E|Hin].
      * rewrite <- E. unfold Scanner.Qmin.
        destruct (Qlt_bool z x); [right; left; reflexivity|left; reflexivity].
      * right. right. exact Hin.
    + intros y Hy.
      assert (Hm : Scanner.Qmin x z <= x /\ Scanner.Qmin x z <= z).
      { unfold Scanner.Qmin. destruct (Qlt_bool z x) eqn:E.
        - apply Qlt_bool_iff in E. lra.
        - apply Qlt_bool_false in E. lra. }
      pose proof (Hle _ (or_introl eq_refl)) as H0.
      destruct Hy as [<-|[<-|Hy]]; [lra|lra|].
      apply Hle. right. exact Hy.
Qed.

(** The maximum of a non-empty series is one of its entries and bounds
    them all; so for the minimum. *)
Lemma fmax_spec (l : list Q) :
  l <> [] ->
  exists m, Scanner.fmax l = Fin m /\ In m l /\ forall y, In y l -> y <= m.
Proof.
  destruct l as [|x l]; [congruence|]. intros _.
  exists (fold_left Scanner.Qmax l x). split; [reflexivity|]. apply fold_Qmax_spec.
Qed.

Lemma fmin_spec (l : list Q) :
  l <> [] ->
  exists m, Scanner.fmin l = Fin m /\ In m l /\ forall y, In y l -> m <= y.
Proof.
  destruct l as [|x l]; [congruence|]. intros _.
  exists (fold_left Scanner.Qmin l x). split; [reflexivity|]. apply fold_Qmin_spec.
Qed.

Lemma fmean_cases (l : list Q) :
  (l = [] /\ Scanner.fmean l = NaN) \/ (l <> [] /\ Scanner.fmean l = Fin (Qmean l)).
Proof. destruct l; [left|right]; split; try reflexivity; congruence. Qed.

(** X21.  What a confirmed breakout means.  When
    [_check_breakout_with_volume] confirms, the frame has five bars or more,
    the mean volume of the four bars before the last is positive and the
    given volume exceeds it by the threshold percentage, and the last close
    is either above the high of each of those four bars (direction "up") or
    below the low of each of them (direction "down"). *)
Theorem confirmed_breakout_sound (data : DataFrame) (current_volume threshold : Q) :
  fst (Scanner._check_breakout_with_volume data current_volume threshold) = true ->
  let before := Scanner.but_last (tail data 5) in
  let avg := Qmean (map volume before) in
  let last_close := close (last data bar0) in
  (5 <= length data)%nat
  /\ 0 < avg
  /\ threshold <= (current_volume - avg) / avg * 100
  /\ ((snd (Scanner._check_breakout_with_volume data current_volume threshold)
       = Some "up"%string
       /\ forall b, In b before -> high b < last_close)
      \/ (snd (Scanner._check_breakout_with_volume data current_volume threshold)
          = Some "down"%string
          /\ forall b, In b before -> last_close < low b)).
Proof.
  unfold Scanner._check_breakout_with_volume.
  destruct (length data <? 5)%nat eqn:Elen; [discriminate|].
  apply Nat.ltb_ge in Elen. cbv zeta.
  assert (Hne : data <> []) by (destruct data; [simpl in Elen; lia|discriminate]).
  assert (Hbl : forall f : Bar -> Q,
             Scanner.but_last (col f (tail data 5))
             = map f (Scanner.but_last (tail data 5))).
  { intro f. unfold Scanner.but_last, col. rewrite length_map. apply firstn_map. }
  assert (Hb4 : Scanner.but_last (tail data 5) <> []).
  { intro E. apply (f_equal (@length Bar)) in E. unfold Scanner.but_last in E.
    rewrite length_firstn, !tail_length in E. cbn [length] in E. lia. }
  rewrite !Hbl.
  assert (Hlc : last (col close (tail data 5)) 0 = close (last data bar0)).
  { unfold col. rewrite <- (last_col close data Hne). unfold col.
    replace (map close (tail data 5)) with (tail (map close data) 5).
    - apply last_tail. lia.
    - unfold tail. rewrite length_map. apply skipn_map. }
  rewrite Hlc.
  set (before := Scanner.but_last (tail data 5)) in *.
  assert (Hmne : forall f : Bar -> Q, map f before <> []).
  { intros f E. apply Hb4. destruct before; [reflexivity|discriminate]. }
  destruct (fmean_cases (map volume before)) as [(E & _)|(_ & ->)];
    [exfalso; exact (Hmne _ E)|].
  destruct (fmax_spec (map high before) (Hmne _)) as (mh & -> & Hmh & Hmax).
  destruct (fmin_spec (map low before) (Hmne _)) as (ml & -> & Hml & Hmin).
  unfold fgt, fge. cbn [flt fle fsub fadd fneg].
  set (avg := Qmean (map volume before)).
  destruct (Qlt_bool 0 avg) eqn:Eavg.
  - apply Qlt_bool_iff in Eavg.
    assert (Hz : Qzero_bool avg = false) by (apply Qzero_bool_false; lra).
    cbn [fdiv]. rewrite Hz. cbn [fmul fle].
    destruct (Qlt_bool mh (close (last data bar0))) eqn:Eup.
    + cbn [fst snd]. rewrite andb_true_r. intro Hv. apply Qle_bool_iff in Hv.
      split; [exact Elen|]. split; [exact Eavg|]. split.
      * setoid_replace ((current_volume - avg) / avg)
          with ((current_volume + - avg) / avg) by reflexivity. exact Hv.
      * left. split; [reflexivity|]. intros b Hb. apply Qlt_bool_iff in Eup.
        assert (high b <= mh) by (apply Hmax, in_map, Hb). lra.
    + destruct (Qlt_bool (close (last data bar0)) ml) eqn:Edown.
      * cbn [fst snd]. rewrite andb_true_r. intro Hv. apply Qle_bool_iff in Hv.
        split; [exact Elen|]. split; [exact Eavg|]. split.
        -- setoid_replace ((current_volume - avg) / avg)
             with ((current_volume + - avg) / avg) by reflexivity. exact Hv.
        -- right. split; [reflexivity|]. intros b Hb. apply Qlt_bool_iff in Edown.
           assert (ml <= low b) by (apply Hmin, in_map, Hb). lra.
      * cbn [fst]. rewrite andb_false_r. discriminate.
  - destruct (Qlt_bool mh (close (last data bar0)));
      [|destruct (Qlt_bool (close (last data bar0)) ml)]; cbn [fst andb]; discriminate.
Qed.

(** ** Orchestrator: ties and limits *)

Section Stable.

Context {R : Type}.
Variable gt : R -> R -> bool.
Variable P : R -> bool.
Hypothesis tied : forall a b, P a = true -> P b = true -> gt a b = false.

Lemma insert_desc_filter x l :
  filter P (insert_desc gt x l) = filter P (x :: l).
Proof.
  induction l as [|y l IH]; [reflexivity|].
  cbn [insert_desc]. destruct (gt y x) eqn:E; [|reflexivity].
  cbn [filter] in *. destruct (P y) eqn:Py.
  - destruct (P x) eqn:Px.
    + rewrite (tied y x Py Px) in E. discriminate.
    + rewrite IH. reflexivity.
  - exact IH.
Qed.

(** The sort keeps elements that are tied with one another in the order
    they had. *)
Lemma sort_desc_stable l : filter P (sort_desc gt l) = filter P l.
Proof.
  induction l as [|x l IH]; [reflexivity|].
  cbn [sort_desc fold_right]. fold (sort_desc gt l).
  rewrite insert_desc_filter. cbn [filter]. rewrite IH. reflexivity.
Qed.

End Stable.

(** X22.  Both orchestrators sort stably: results with the same key keep the
    order in which the symbols were scanned.  In [batch_analyze] the results
    with a given volume ratio, and in [analyze_stocks_comprehensive] the
    results with given total and fundamental points, appear in the returned
    list in the order of the symbol list. *)
Theorem batch_sort_is_stable :
  (forall (analyze : string -> outcome (option ScanResult.t))
          (symbols : list string) (min_volume_ratio q : Q),
     filter (ratio_is q) (fst (batch_analyze analyze symbols min_volume_ratio))
     = filter (ratio_is q)
         (filter (volume_keep min_volume_ratio) (succeeded analyze symbols)))
  /\ (forall (stocks : list string)
             (analyze : string -> outcome (option ScoreResult))
             (min_total_points : nat)
             (progress_callback : option (nat -> nat -> string -> outcome unit))
             (limit : option nat) (total fundamental : nat),
        let n := scan_total stocks limit in
        filter (key_is total fundamental)
          (fst (analyze_stocks_comprehensive stocks analyze min_total_points
                  progress_callback limit))
        = filter (key_is total fundamental)
            (filter (points_keep min_total_points)
               (succeeded (comprehensive_item analyze progress_callback n)
                  (enumerate_from_1 stocks n)))).
Proof.
  split.
  - intros analyze symbols min_volume_ratio q.
    unfold batch_analyze. rewrite scan_loop_eq. cbn [fst].
    apply sort_desc_stable. intros a b Ha Hb.
    unfold ratio_is, volume_ratio_gt, fgt in *.
    destruct (ScanResult.volume_ratio a) as [x| | |]; try discriminate.
    destruct (ScanResult.volume_ratio b) as [y| | |]; try discriminate.
    apply Qeq_bool_iff in Ha, Hb. simpl. apply Qlt_bool_false. lra.
  - intros stocks analyze min_total_points progress_callback limit total fundamental.
    cbv zeta. unfold analyze_stocks_comprehensive.
    destruct stocks as [|s0 stocks'] eqn:Es.
    + assert (E0 : scan_total [] limit = 0%nat) by (destruct limit as [[|l]|]; reflexivity).
      rewrite E0. reflexivity.
    + rewrite <- Es. rewrite scan_loop_eq. cbn [fst].
      apply sort_desc_stable. intros a b Ha Hb.
      unfold key_is, score_gt in *.
      apply andb_true_iff in Ha, Hb. destruct Ha as [Ha1 Ha2], Hb as [Hb1 Hb2].
      apply Nat.eqb_eq in Ha1, Ha2, Hb1, Hb2.
      rewrite Ha1, Ha2, Hb1, Hb2, !Nat.ltb_irrefl, andb_false_r. reflexivity.
Qed.

(** X23.  A [limit] makes [analyze_stocks_comprehensive] look at the first
    [limit] symbols only: the returned results and the printed lines are
    those of the same call, without a limit, on the list cut to its first
    [limit] symbols; the progress callback is told the same total. *)
Theorem comprehensive_limit_is_prefix (stocks : list string)
    (analyze : string -> outcome (option ScoreResult))
    (min_total_points : nat)
    (progress_callback : option (nat -> nat -> string -> outcome unit))
    (limit : nat) :
  analyze_stocks_comprehensive stocks analyze min_total_points progress_callback
    (Some limit)
  = analyze_stocks_comprehensive (firstn limit stocks) analyze min_total_points
      progress_callback None.
Proof.
  unfold analyze_stocks_comprehensive, scan_total, enumerate_from_1.
  destruct stocks as [|s0 stocks']; [rewrite firstn_nil; reflexivity|].
  destruct limit as [|l]; [reflexivity|].
  cbn [firstn length Nat.min]. rewrite length_firstn.
  cbn [firstn]. rewrite firstn_firstn.
  replace (Nat.min (Nat.min l (length stocks')) l) with (Nat.min l (length stocks'))
    by lia.
  reflexivity.
Qed.

(** ** Summary statistics *)








(** ** Fundamental screen *)

Lemma Sorted_firstn {A} (R : A -> A -> Prop) (l : list A) n :
  Sorted R l -> Sorted R (firstn n l).
Proof.
  intro Hs. revert n. induction Hs as [|x l Hs IH Hd]; intro n.
  - rewrite firstn_nil. constructor.
  - destruct n as [|n]; [constructor|]. cbn [firstn].
    constructor; [apply IH|].
    destruct Hd as [|y l' Hxy]; [rewrite firstn_nil; constructor|].
    destruct n; [constructor|]. cbn [firstn]. constructor. exact Hxy.
Qed.

Lemma In_firstn {A} (l : list A) n x : In x (firstn n l) -> In x l.
Proof.
  intro H. rewrite <- (firstn_skipn n l). apply in_or_app. left. exact H.
Qed.

Lemma before_asym reverse key a b :
  Screen.before reverse key a b = true -> Screen.before reverse key b a = false.
Proof.
  unfold Screen.before. destruct (key a) as [x|], (key b) as [y|]; try discriminate.
  destruct reverse; unfold fgt; apply flt_asym.
Qed.

Lemma sort_fundamental_In results scan_type r :
  In r (Screen._sort_fundamental_results results scan_type) <-> In r results.
Proof.
  unfold Screen._sort_fundamental_results.
  destruct (Screen.sort_key scan_type) as [[reverse key]|]; [|tauto].
  destruct (forallb _ results); [|tauto].
  split; intro H.
  - eapply Permutation_in; [apply sort_desc_perm|exact H].
  - eapply Permutation_in; [symmetry; apply sort_desc_perm|exact H].
Qed.

Lemma enumerate_In stocks i sym :
  In (i, sym) (enumerate_from_1 stocks (length stocks)) -> In sym stocks.
Proof.
  unfold enumerate_from_1. intro H. apply in_combine_r in H.
  eapply In_firstn. exact H.
Qed.

(** A record that passes the criteria of a scan type has a sort key that is
    a number: every field the key reads has been compared with a bound. *)
Lemma passes_key_number data scan_type params reverse key :
  Screen.sort_key scan_type = Some (reverse, key) ->
  Screen._passes_fundamental_criteria data scan_type params = true ->
  exists x, key data = Some x /\ is_nan x = false.
Proof.
  unfold Screen.sort_key, Screen._passes_fundamental_criteria. cbv zeta.
  destruct (flt _ _ || fgt _ _); [intros _ H; discriminate H|].
  repeat match goal with
  | |- context [String.eqb scan_type ?s] => destruct (String.eqb scan_type s)
  end;
  intros Hk Hp; try discriminate Hk; injection Hk as <- <-;
  unfold Screen.between, Screen.at_most, Screen.at_least, fge,
    Screen.add_opt, Screen.sub_opt in *;
  repeat match goal with
  | H : context [match ?f (Screen.ratios data) with _ => _ end] |- _ =>
      destruct (f (Screen.ratios data)) as [[]|]
  end;
  repeat match goal with
  | H : context [fle (?f data) _] |- _ => destruct (f data)
  | H : context [fle _ (?f data)] |- _ => destruct (f data)
  end;
  cbn in Hp; try discriminate Hp;
  rewrite ?andb_false_r in Hp; try discriminate Hp;
  eexists; (split; [reflexivity|reflexivity]).
Qed.

(** X25.  What [screen_stocks_fundamental] returns: at most 50 records; each
    is the data fetched for one of the symbols, passes the criteria of the
    scan type and has a market capitalisation that is neither below the
    minimum nor above the maximum (in millions); and for a scan type that
    has a sort key, the key of every record returned is a number (present,
    not NaN) and the list is in the order of that key, ascending or
    descending as the scan type asks. *)
Theorem screen_results_sound (stocks : list string)
    (fetch : string -> option Screen.MarketData) (scan_type : string)
    (params : dict)
    (progress_callback : option (nat -> nat -> string -> outcome unit)) :
  let out :=
    Screen.screen_stocks_fundamental stocks fetch scan_type params
      progress_callback in
  (length out <= 50)%nat
  /\ (forall r, In r out ->
        Screen._passes_fundamental_criteria r scan_type params = true
        /\ (exists sym, In sym stocks /\ fetch sym = Some r)
        /\ flt (Screen.market_cap_est r)
             (Fin (get params "min_market_cap" 100 * 1000000)) = false
        /\ fgt (Screen.market_cap_est r)
             (Fin (get params "max_market_cap" 100000 * 1000000)) = false)
  /\ (forall reverse key,
        Screen.sort_key scan_type = Some (reverse, key) ->
        (forall r, In r out -> exists x, key r = Some x /\ is_nan x = false)
        /\ Sorted (fun a b => Screen.before reverse key b a = false) out).
Proof.
  cbv zeta. unfold Screen.screen_stocks_fundamental.
  destruct stocks as [|s0 stocks'] eqn:Es.
  { split; [simpl; lia|]. split; [intros r []|].
    intros; split; [intros r []|constructor]. }
  rewrite <- Es. clear Es s0 stocks'. rewrite scan_loop_eq. cbn [fst].
  set (results := filter _ (succeeded _ _)).
  assert (Hres : forall r, In r results ->
            Screen._passes_fundamental_criteria r scan_type params = true
            /\ exists sym, In sym stocks /\ fetch sym = Some r).
  { intros r Hr. unfold results in Hr. apply filter_In in Hr.
    destruct Hr as (Hr & Hp). split; [exact Hp|].
    apply succeeded_In in Hr. destruct Hr as ([i sym] & Hin & Hw).
    exists sym. split; [eapply enumerate_In; exact Hin|].
    unfold Screen.screen_item in Hw. cbn [fst snd] in Hw.
    destruct progress_callback as [f|].
    - destruct (f i (length stocks) sym); cbn [bind] in Hw; [|discriminate].
      injection Hw as Hw. exact Hw.
    - cbn [bind] in Hw. injection Hw as Hw. exact Hw. }
  split; [rewrite length_firstn; lia|]. split.
  - intros r Hr. apply In_firstn, sort_fundamental_In in Hr.
    destruct (Hres r Hr) as (Hp & Hsym). split; [exact Hp|]. split; [exact Hsym|].
    unfold Screen._passes_fundamental_criteria in Hp. cbv zeta in Hp.
    destruct (flt (Screen.market_cap_est r) _ || fgt (Screen.market_cap_est r) _)
      eqn:Ecap; [discriminate|].
    apply orb_false_iff in Ecap. exact Ecap.
  - intros reverse key Hk. split.
    + intros r Hr. apply In_firstn, sort_fundamental_In in Hr.
      destruct (Hres r Hr) as (Hp & _).
      exact (passes_key_number r scan_type params reverse key Hk Hp).
    + apply Sorted_firstn.
      unfold Screen._sort_fundamental_results. rewrite Hk.
      assert (Hall : forallb (fun x => not_none (key x)) results = true).
      { apply forallb_forall. intros r Hr. destruct (Hres r Hr) as (Hp & _).
        destruct (passes_key_number r scan_type params reverse key Hk Hp)
          as (x & -> & _). reflexivity. }
      rewrite Hall. apply sort_desc_sorted. apply before_asym.
Qed.

Ltac screen_unfold H :=
  unfold Screen._passes_fundamental_criteria in H; cbv zeta in H;
  cbn [String.eqb Ascii.eqb Bool.eqb] in H.

(** X26.  The combined value screen lies between the screens it combines:
    with the same parameters a record that passes [combined_value] passes
    [value], and a record that passes [low_pe], [low_pb], [high_roe] and
    [low_debt] passes [combined_value] (which checks the upper bounds of
    P/E, P/B and debt and the lower bound of ROE only).  A scan type the
    function does not know filters on market capitalisation only. *)
Theorem combined_value_between (data : Screen.MarketData) (params : dict) :
  (Screen._passes_fundamental_criteria data "combined_value" params = true ->
   Screen._passes_fundamental_criteria data "value" params = true)
  /\ (Screen._passes_fundamental_criteria data "low_pe" params = true ->
      Screen._passes_fundamental_criteria data "low_pb" params = true ->
      Screen._passes_fundamental_criteria data "high_roe" params = true ->
      Screen._passes_fundamental_criteria data "low_debt" params = true ->
      Screen._passes_fundamental_criteria data "combined_value" params = true)
  /\ (forall scan_type,
        Screen.sort_key scan_type = None ->
        Screen._passes_fundamental_criteria data scan_type params
        = negb (flt (Screen.market_cap_est data)
                  (Fin (get params "min_market_cap" 100 * 1000000))
                || fgt (Screen.market_cap_est data)
                     (Fin (get params "max_market_cap" 100000 * 1000000)))).
Proof.
  split; [|split].
  - intro H. screen_unfold H.
    unfold Screen._passes_fundamental_criteria. cbv zeta.
    cbn [String.eqb Ascii.eqb Bool.eqb].
    destruct (flt _ _ || fgt _ _); [discriminate|].
    rewrite !andb_true_iff in H. destruct H as (((H1 & H2) & _) & _).
    rewrite H1, H2. reflexivity.
  - intros H1 H2 H3 H4. screen_unfold H1. screen_unfold H2. screen_unfold H3.
    screen_unfold H4.
    unfold Screen._passes_fundamental_criteria. cbv zeta.
    cbn [String.eqb Ascii.eqb Bool.eqb].
    destruct (flt _ _ || fgt _ _); [discriminate|].
    unfold Screen.between, Screen.at_most, Screen.at_least, fge in *.
    destruct (pe_ratio _) as [pe|]; [|discriminate].
    destruct (pb_ratio _) as [pb|]; [|discriminate].
    destruct (roe _) as [r|]; [|discriminate].
    destruct (debt_equity_ratio _) as [de|]; [|discriminate].
    apply andb_true_iff in H1, H2, H3, H4.
    destruct H1 as [_ ->], H2 as [_ ->], H3 as [-> _], H4 as [_ ->]. reflexivity.
  - intros scan_type Hk. unfold Screen._passes_fundamental_criteria. cbv zeta.
    destruct (flt _ _ || fgt _ _); [reflexivity|]. cbn [negb].
    unfold Screen.sort_key in Hk. cbv zeta in Hk.
    repeat match type of Hk with
    | (if String.eqb scan_type ?s then _ else _) = None =>
        destruct (String.eqb scan_type s); [discriminate|]
    end.
    reflexivity.
Qed.

(** ** Ticker lists *)

Lemma compare_lt_iff a b : String.compare a b = Lt <-> OrderedTypeEx.String_as_OT.lt a b.
Proof. apply OrderedTypeEx.String_as_OT.cmp_lt. Qed.

Lemma compare_gt_lt a b : String.compare a b = Gt -> OrderedTypeEx.String_as_OT.lt b a.
Proof.
  intro H. apply compare_lt_iff. rewrite String.compare_antisym, H. reflexivity.
Qed.

Lemma compare_refl a : String.compare a a = Eq.
Proof. apply OrderedTypeEx.String_as_OT.cmp_eq. reflexivity. Qed.

Lemma insert_sorted_In s x l :
  In x (Tickers.insert_sorted s l) <-> x = s \/ In x l.
Proof.
  induction l as [|t l IH]; simpl.
  - split; [intros [<-|[]]; left; reflexivity|intros [->|[]]; left; reflexivity].
  - destruct (String.compare s t) eqn:E.
    + apply String.compare_eq_iff in E. subst t. simpl. split; [tauto|].
      intros [->|H]; [left; reflexivity|exact H].
    + simpl. split; [intros [<-|H]; tauto|intros [->|H]; tauto].
    + simpl. rewrite IH. split; [intros [<-|[->|H]]; tauto|intros [->|[<-|H]]; tauto].
Qed.

Lemma sorted_set_In x l : In x (Tickers.sorted_set l) <-> In x l.
Proof.
  induction l as [|s l IH]; [reflexivity|].
  cbn [Tickers.sorted_set fold_right]. fold (Tickers.sorted_set l).
  rewrite insert_sorted_In, IH. simpl. split; [intros [->|H]; tauto|intros [<-|H]; tauto].
Qed.

Lemma insert_sorted_sorted s l :
  StronglySorted OrderedTypeEx.String_as_OT.lt l ->
  StronglySorted OrderedTypeEx.String_as_OT.lt (Tickers.insert_sorted s l).
Proof.
  induction 1 as [|t l Hs IH Hf]; [repeat constructor|].
  simpl. destruct (String.compare s t) eqn:E.
  - constructor; assumption.
  - apply compare_lt_iff in E. constructor; [constructor; assumption|].
    constructor; [exact E|].
    apply Forall_forall. intros x Hx. rewrite Forall_forall in Hf.
    eapply OrderedTypeEx.String_as_OT.lt_trans; [exact E|apply Hf, Hx].
  - apply compare_gt_lt in E. constructor; [exact IH|].
    apply Forall_forall. intros x Hx. apply insert_sorted_In in Hx.
    destruct Hx as [->|Hx]; [exact E|]. rewrite Forall_forall in Hf. apply Hf, Hx.
Qed.

Lemma sorted_set_sorted l : StronglySorted OrderedTypeEx.String_as_OT.lt (Tickers.sorted_set l).
Proof.
  induction l as [|s l IH]; [constructor|].
  cbn [Tickers.sorted_set fold_right]. apply insert_sorted_sorted. exact IH.
Qed.

(** A list that is already in strict order is its own sorted set. *)
Lemma sorted_set_id l :
  StronglySorted OrderedTypeEx.String_as_OT.lt l -> Tickers.sorted_set l = l.
Proof.
  induction 1 as [|t l Hs IH Hf]; [reflexivity|].
  cbn [Tickers.sorted_set fold_right]. fold (Tickers.sorted_set l). rewrite IH.
  destruct l as [|u l]; [reflexivity|]. simpl.
  apply Forall_inv in Hf. apply compare_lt_iff in Hf. rewrite Hf. reflexivity.
Qed.

Lemma map_id_in {A} (f : A -> A) l : (forall x, In x l -> f x = x) -> map f l = l.
Proof.
  induction l as [|x l IH]; intro H; [reflexivity|]. simpl.
  rewrite H by (left; reflexivity). f_equal. apply IH.
  intros; apply H; right; assumption.
Qed.

Lemma filter_id_in {A} (f : A -> bool) l :
  (forall x, In x l -> f x = true) -> filter f l = l.
Proof.
  induction l as [|x l IH]; intro H; [reflexivity|]. simpl.
  rewrite H by (left; reflexivity). f_equal. apply IH.
  intros; apply H; right; assumption.
Qed.

Lemma is_ticker_weaken s : Tickers.is_ticker 2 s = true -> Tickers.is_ticker 1 s = true.
Proof.
  unfold Tickers.is_ticker. rewrite !andb_true_iff, !Nat.leb_le.
  intros ((H1 & H2) & H3). repeat split; try assumption. lia.
Qed.

Lemma keep_line_ticker skip exclude s :
  Tickers.keep_line skip exclude s = true ->
  Tickers.is_ticker 2 s = true /\ Tickers.member s exclude = false.
Proof.
  unfold Tickers.keep_line. rewrite !andb_true_iff, !negb_true_iff. tauto.
Qed.

Lemma ticker_no_comment s :
  Tickers.is_ticker 2 s = true -> String.prefix "#" s = false /\ String.eqb s "" = false.
Proof.
  unfold Tickers.is_ticker. rewrite !andb_true_iff, !Nat.leb_le.
  intros ((H1 & H2) & H3). destruct s as [|c s]; [simpl in H1; lia|].
  split; [|reflexivity].
  cbn [Tickers.all_upper_alnum] in H3. apply andb_true_iff in H3.
  destruct H3 as (Hc & _).
  cbn [String.prefix].
  match goal with
  | |- context [Ascii.ascii_dec ?a c] =>
      destruct (Ascii.ascii_dec a c) as [<-|Hne]; [discriminate Hc|]
  end.
  reflexivity.
Qed.

Section TickerFacts.

Variable normalize : string -> string.

Lemma collected_In skip exclude lines s :
  In s (Tickers.sorted_set
          (filter (Tickers.keep_line skip exclude) (map normalize lines)))
  <-> (exists line, In line lines /\ normalize line = s)
      /\ Tickers.keep_line skip exclude s = true.
Proof.
  rewrite sorted_set_In, filter_In, in_map_iff.
  split; intros ((line & H1 & H2) & H3).
  - split; [exists line; tauto|exact H3].
  - split; [exists line; tauto|exact H3].
Qed.

End TickerFacts.

(** X27.  [parse_symbols] returns the tickers of a text in strictly
    increasing order, so none twice: a string is returned exactly when some
    line normalises to it, it is 2 to 6 characters of [[A-Z0-9]] and it is
    not one of the tags REIT and CEF.  Parsing its own output again changes
    nothing, given that normalising leaves such a ticker as it is. *)
Theorem parse_symbols_sorted_unique (normalize : string -> string)
    (lines : list string) :
  let out := Tickers.parse_symbols normalize lines in
  StronglySorted OrderedTypeEx.String_as_OT.lt out
  /\ NoDup out
  /\ (forall s, In s out <->
        (exists line, In line lines /\ normalize line = s)
        /\ Tickers.is_ticker 2 s = true
        /\ s <> "REIT"%string /\ s <> "CEF"%string)
  /\ ((forall s, Tickers.is_ticker 2 s = true -> normalize s = s) ->
      Tickers.parse_symbols normalize out = out).
Proof.
  cbv zeta.
  assert (Hs : StronglySorted OrderedTypeEx.String_as_OT.lt
                 (Tickers.parse_symbols normalize lines))
    by apply sorted_set_sorted.
  assert (Hin : forall s, In s (Tickers.parse_symbols normalize lines) <->
        (exists line, In line lines /\ normalize line = s)
        /\ Tickers.is_ticker 2 s = true
        /\ s <> "REIT"%string /\ s <> "CEF"%string).
  { intro s. unfold Tickers.parse_symbols. rewrite collected_In.
    unfold Tickers.keep_line, Tickers.member. cbn [existsb andb].
    rewrite !andb_true_iff, !negb_true_iff, !orb_false_iff.
    split.
    - intros (Hl & ((_ & _) & (_ & _ & Hr & Hc & _)) & Ht).
      split; [exact Hl|]. split; [exact Ht|].
      apply String.eqb_neq in Hr, Hc. split; assumption.
    - intros (Hl & Ht & Hr & Hc). split; [exact Hl|].
      destruct (ticker_no_comment s Ht) as (_ & He).
      assert (Hlen : (2 <= String.length s)%nat).
      { unfold Tickers.is_ticker in Ht. rewrite !andb_true_iff, !Nat.leb_le in Ht. tauto. }
      repeat split; try assumption.
      + destruct (String.eqb_spec s "G"); [subst; simpl in Hlen; lia|reflexivity].
      + destruct (String.eqb_spec s "D"); [subst; simpl in Hlen; lia|reflexivity].
      + destruct (String.eqb_spec s "REIT"); [contradiction|reflexivity].
      + destruct (String.eqb_spec s "CEF"); [contradiction|reflexivity]. }
  split; [exact Hs|]. split.
  { clear Hin. induction Hs as [|t l Hs IH Hf]; constructor; [|exact IH].
    intro Ht. rewrite Forall_forall in Hf. specialize (Hf t Ht).
    apply compare_lt_iff in Hf. rewrite compare_refl in Hf. discriminate. }
  split; [exact Hin|].
  intro Hfix. set (out := Tickers.parse_symbols normalize lines) in *.
  unfold Tickers.parse_symbols at 1.
  assert (Hm : map normalize out = out).
  { apply map_id_in. intros s Hs'. apply Hfix. apply Hin in Hs'. tauto. }
  rewrite Hm.
  assert (Hf : filter (Tickers.keep_line false ["G"; "D"; "REIT"; "CEF"]%string) out
               = out).
  { apply filter_id_in. intros s Hs'. unfold out, Tickers.parse_symbols in Hs'.
    apply collected_In in Hs'. tauto. }
  rewrite Hf. apply sorted_set_id. exact Hs.
Qed.

(** X28.  The ticker file written by [tools/parse_tickers.py] read back by
    [_load_override_tickers_file]: the header line, which is a comment, and
    the parsed tickers give the parsed tickers again, in the same order,
    except ETF, FON and FUND, which the loader excludes and the parser does
    not. *)
Theorem override_file_round_trip (normalize : string -> string)
    (header : string) (lines : list string) :
  String.prefix "#" (normalize header) = true ->
  (forall s, Tickers.is_ticker 2 s = true -> normalize s = s) ->
  Tickers._load_override_tickers_file normalize
    (Some (header :: Tickers.parse_symbols normalize lines))
  = filter (fun s => negb (Tickers.member s ["ETF"; "FON"; "FUND"]%string))
      (Tickers.parse_symbols normalize lines).
Proof.
  intros Hh Hfix. unfold Tickers._load_override_tickers_file.
  set (out := Tickers.parse_symbols normalize lines).
  assert (Hs : StronglySorted OrderedTypeEx.String_as_OT.lt out)
    by apply sorted_set_sorted.
  assert (Hk : forall s, In s out ->
             Tickers.is_ticker 2 s = true
             /\ Tickers.member s ["G"; "D"; "REIT"; "CEF"]%string = false).
  { intros s Hin. unfold out, Tickers.parse_symbols in Hin.
    apply collected_In in Hin. destruct Hin as (_ & Hin).
    apply keep_line_ticker in Hin. exact Hin. }
  cbn [map filter].
  assert (Hhead : Tickers.keep_line true
                    ["REIT"; "CEF"; "ETF"; "WARRANT"; "FON"; "FUND"]%string
                    (normalize header) = false).
  { unfold Tickers.keep_line. rewrite Hh. cbn [andb negb].
    rewrite andb_false_r. reflexivity. }
  rewrite Hhead.
  assert (Hm : map normalize out = out).
  { apply map_id_in. intros s Hin. apply Hfix, Hk, Hin. }
  rewrite Hm.
  assert (Hf : filter (Tickers.keep_line true
                         ["REIT"; "CEF"; "ETF"; "WARRANT"; "FON"; "FUND"]%string) out
               = filter (fun s => negb (Tickers.member s ["ETF"; "FON"; "FUND"]%string))
                   out).
  { apply filter_ext_in. intros s Hin. destruct (Hk s Hin) as (Ht & Hx).
    destruct (ticker_no_comment s Ht) as (Hc & He).
    unfold Tickers.keep_line. rewrite Ht, Hc, He. cbn [andb negb].
    rewrite andb_true_r. f_equal.
    unfold Tickers.member in *. cbn [existsb] in *.
    rewrite !orb_false_iff in Hx. destruct Hx as (_ & _ & Hr & Hcef & _).
    rewrite Hr, Hcef. cbn [orb].
    assert (Hw : String.eqb s "WARRANT" = false).
    { destruct (String.eqb_spec s "WARRANT") as [->|]; [discriminate Ht|reflexivity]. }
    rewrite Hw. reflexivity. }
  rewrite Hf. apply sorted_set_id.
  clear -Hs. induction Hs as [|t l Hs IH Hfa]; [constructor|].
  cbn [filter]. destruct (negb _); [|exact IH].
  constructor; [exact IH|].
  apply Forall_forall. intros x Hx. apply filter_In in Hx.
  rewrite Forall_forall in Hfa. apply Hfa, Hx.
Qed.

(** X29.  [get_bist_stocks] prefers an override file of 50 tickers or more,
    then a scanner list of 550 entries or more, and otherwise returns the
    merged list, which is in strictly increasing order and holds exactly the
    strings of 1 to 6 characters of [[A-Z0-9]] that an entry of one of the
    three sources normalises to.  Whenever the scanner list holds such
    strings only, so does the list returned. *)
Theorem bist_stock_list_valid (normalize : string -> string)
    (file : option (list string))
    (scanner_list components_list manual_list : list string) :
  let override := Tickers._load_override_tickers_file normalize file in
  let out := Tickers.get_bist_stocks normalize file scanner_list components_list
               manual_list in
  ((50 <= length override)%nat -> out = override)
  /\ ((length override < 50)%nat -> (550 <= length scanner_list)%nat ->
      out = scanner_list)
  /\ ((length override < 50)%nat -> (length scanner_list < 550)%nat ->
      StronglySorted OrderedTypeEx.String_as_OT.lt out
      /\ forall s, In s out <->
           Tickers.is_ticker 1 s = true
           /\ exists raw, In raw (scanner_list ++ components_list ++ manual_list)
                          /\ normalize raw = s)
  /\ ((forall s, In s scanner_list -> Tickers.is_ticker 1 s = true) ->
      forall s, In s out -> Tickers.is_ticker 1 s = true).
Proof.
  cbv zeta. unfold Tickers.get_bist_stocks. cbv zeta.
  set (override := Tickers._load_override_tickers_file normalize file).
  set (merged := Tickers.sorted_set _).
  assert (Hmerged : forall s, In s merged <->
           Tickers.is_ticker 1 s = true
           /\ exists raw, In raw (scanner_list ++ components_list ++ manual_list)
                          /\ normalize raw = s).
  { intro s. unfold merged. rewrite sorted_set_In, filter_In, in_map_iff.
    split.
    - intros ((raw & E & Hin) & Ht). split; [exact Ht|]. exists raw. tauto.
    - intros (Ht & raw & Hin & E). split; [exists raw; tauto|exact Ht]. }
  assert (Hover : forall s, In s override -> Tickers.is_ticker 1 s = true).
  { intros s Hs. apply is_ticker_weaken. unfold override in Hs.
    unfold Tickers._load_override_tickers_file in Hs.
    destruct file as [lines|]; [|contradiction].
    apply collected_In in Hs. destruct Hs as (_ & Hs).
    apply keep_line_ticker in Hs. tauto. }
  split; [|split; [|split]].
  - intro H. apply Nat.leb_le in H. rewrite H. reflexivity.
  - intros H1 H2. apply Nat.leb_gt in H1. apply Nat.leb_le in H2.
    rewrite H1, H2. reflexivity.
  - intros H1 H2. apply Nat.leb_gt in H1, H2. rewrite H1, H2.
    split; [apply sorted_set_sorted|exact Hmerged].
  - intros Hscan s.
    destruct (50 <=? length override)%nat; [apply Hover|].
    destruct (550 <=? length scanner_list)%nat; [apply Hscan|].
    intro Hs. apply Hmerged in Hs. tauto.
Qed.

(** ** Further instances on sample inputs *)

(** X18 on samples: twenty-four bars whose lows make a lower low between bars
    9 and 17; the divergence block runs (20 bars are needed) and the flag is
    false. *)
Lemma rsi_divergence_never_detected_witness :
  _find_local_minima (col low (tail wave_bars 20)) 3 = [5; 13]%nat
  /\ exists r,
       Scanner.analyze_stock_volume any_sqrt 0%Z (Some wave_bars) "AKBNK"
         short_span_params = Some r
       /\ (Scanner.divergence_period short_span_params
           <= ScanResult.data_points r)%nat
       /\ ScanResult.rsi_divergence_detected r = false.
Proof.
  split; [vm_compute; reflexivity|].
  destruct (Scanner.analyze_stock_volume any_sqrt 0%Z (Some wave_bars) "AKBNK"
              short_span_params) as [r|] eqn:E;
    [|exfalso; vm_compute in E; discriminate].
  exists r. split; [reflexivity|]. split.
  - assert (H : option_map ScanResult.data_points (Some r) = Some 24%nat)
      by (rewrite <- E; vm_compute; reflexivity).
    injection H as ->. vm_compute. lia.
  - apply (rsi_divergence_never_detected any_sqrt 0%Z (Some wave_bars) "AKBNK"
             short_span_params r E).
Defined.

(** X20 on samples: twelve bars with rising volumes, multiplier 1.2. *)
Lemma volume_increase_scan_selects_witness :
  exists r sma,
    Scanner.analyze_stock_volume any_sqrt 0%Z (Some bars12) "AKBNK"
      short_span_params = Some r
    /\ ScanResult.volume_sma r = Fin sma
    /\ run_analysis_selects (Some r) 1.2 "3_period_increase"
         (mkKwargs None None None None) = true
    /\ 1.2 <= volume (row bars12 11) / sma
    /\ volume (row bars12 10) < volume (row bars12 11).
Proof.
  destruct (Scanner.analyze_stock_volume any_sqrt 0%Z (Some bars12) "AKBNK"
              short_span_params) as [r|] eqn:E;
    [|exfalso; vm_compute in E; discriminate].
  destruct (volume_increase_scan_selects any_sqrt 0%Z bars12 "AKBNK"
              short_span_params 1.2 (mkKwargs None None None None) r E)
    as (sma & Hsma & _ & _ & Hiff).
  assert (Hsel : run_analysis_selects (Some r) 1.2 "3_period_increase"
                   (mkKwargs None None None None) = true).
  { rewrite <- E. vm_compute. reflexivity. }
  exists r, sma. split; [reflexivity|]. split; [exact Hsma|]. split; [exact Hsel|].
  apply Hiff in Hsel. destruct Hsel as (_ & Hratio & _ & Hrise).
  split; [exact Hratio|]. apply (Hrise 10%nat); simpl; lia.
Defined.

(** X21 on samples: six bars ending in a close of 15 above highs of 11, on a
    volume of 400 against an average of 125. *)
Lemma confirmed_breakout_sound_witness :
  fst (Scanner._check_breakout_with_volume breakout_bars 400 40) = true
  /\ 0 < Qmean (map volume (Scanner.but_last (tail breakout_bars 5)))
  /\ 40 <= (400 - Qmean (map volume (Scanner.but_last (tail breakout_bars 5))))
           / Qmean (map volume (Scanner.but_last (tail breakout_bars 5))) * 100.
Proof.
  assert (H : fst (Scanner._check_breakout_with_volume breakout_bars 400 40) = true)
    by (vm_compute; reflexivity).
  split; [exact H|].
  destruct (confirmed_breakout_sound breakout_bars 400 40 H) as (_ & H1 & H2 & _).
  split; [exact H1|exact H2].
Defined.

(** X5 on samples: thirty-one bars whose five swing points hit the Bat targets
    exactly; matched at tolerance 0, hence at tolerance 5. *)
Lemma harmonic_tolerance_monotone_witness :
  _detect_harmonic_pattern bat_bars "Bat" 0 31 = true
  /\ _detect_harmonic_pattern bat_bars "Bat" 5 31 = true.
Proof.
  assert (H0 : _detect_harmonic_pattern bat_bars "Bat" 0 31 = true)
    by (vm_compute; reflexivity).
  split; [exact H0|].
  assert (Ht : 0 <= 5) by lra.
  destruct (harmonic_tolerance_monotone bat_bars "Bat" 0 5 31 Ht) as (Hm & _).
  exact (Hm H0).
Defined.

(** X6 on samples: the five swing points of the Bat sample at the default
    tolerance 5 match the Bat template and therefore not the Gartley one. *)
Lemma harmonic_patterns_exclusive_witness :
  _check_bat_pattern (_find_swing_points bat_closes 5) 5 = true
  /\ _check_gartley_pattern (_find_swing_points bat_closes 5) 5 = false.
Proof.
  assert (Hb : _check_bat_pattern (_find_swing_points bat_closes 5) 5 = true)
    by (vm_compute; reflexivity).
  split; [exact Hb|].
  assert (Ht : 5 < 5.9) by lra.
  pose proof (harmonic_patterns_exclusive (_find_swing_points bat_closes 5) 5 Ht) as H.
  cbn [filter] in H. rewrite Hb in H.
  destruct (_check_gartley_pattern (_find_swing_points bat_closes 5) 5);
    [|reflexivity].
  exfalso. simpl in H. lia.
Defined.

(** X7 on samples: the Bat sample quoted in a unit a hundred times smaller and
    shifted by 3 is still detected. *)
Lemma harmonic_detection_scale_invariant_witness :
  _detect_harmonic_pattern (map (rescale 100 3) bat_bars) "Otomatik" 5 31 = true.
Proof.
  assert (Hk : 0 < 100) by lra.
  rewrite (harmonic_detection_scale_invariant bat_bars "Otomatik" 5 31 100 3 Hk).
  vm_compute. reflexivity.
Defined.



(** X2 on samples: three clean bars stamped 1, 2 and 5 come back unchanged. *)
Lemma clean_data_fixpoint_witness :
  _clean_data (map raw_of clean_stamped) = map snd clean_stamped.
Proof.
  apply clean_data_fixpoint.
  - repeat constructor; simpl; lia.
  - intros tb [<-|[<-|[<-|[]]]]; vm_compute; repeat split; discriminate.
Defined.

(** X16 on samples: a symbol whose [info] holds a P/E and a P/B only. *)
Lemma missing_debt_scores_full_witness :
  exists r,
    analyze_single_stock (provider_of info_ratios_only) "AKBNK" None = Ok (Some r)
    /\ points_for (fundamental_breakdown r) "Borç/Özkaynak" = Some 2%nat.
Proof.
  destruct ratios_only_scored as (r & E & _).
  exists r. split; [exact E|].
  apply (missing_debt_scores_full (provider_of info_ratios_only) "AKBNK" None r
           info_ratios_only E eq_refl).
  - left. reflexivity.
  - vm_compute. reflexivity.
Defined.

(** X17 on samples: the snapshot that meets no bound, with its P/E lowered from
    500 to 5 and its P/B from 50 to 0.5, scores 4 instead of 0. *)
Lemma lower_ratios_never_lower_score_witness :
  exists r r',
    score "AKBNK" (thresholds_of None) poor_snapshot = Ok r
    /\ score "AKBNK" (thresholds_of None)
         (with_ratios poor_snapshot (Some (Fin 5)) (Some (Fin 0.5)) (Some (Fin 5)) None)
       = Ok r'
    /\ (total_points r <= total_points r')%nat
    /\ total_points r' = 4%nat.
Proof.
  destruct (lower_ratios_never_lower_score "AKBNK" (thresholds_of None) poor_snapshot
              (Some (Fin 5)) (Some (Fin 0.5)) (Some (Fin 5)) None)
    as (r & r' & E & E' & Hle & _); try (vm_compute; try discriminate; exact I).
  exists r, r'. split; [exact E|]. split; [exact E'|]. split; [exact Hle|].
  assert (H : Ok r' = score "AKBNK" (thresholds_of None)
         (with_ratios poor_snapshot (Some (Fin 5)) (Some (Fin 0.5)) (Some (Fin 5)) None))
    by (symmetry; exact E').
  vm_compute in H. injection H as ->. reflexivity.
Defined.


(** X28 on samples: a ticker list holding THYAO, AKBNK (twice), ETF, REIT and a
    company name, written with its header and read back; the loader drops
    ETF. *)
Lemma override_file_round_trip_witness :
  Tickers.parse_symbols (fun s => s) ticker_lines = ["AKBNK"; "ETF"; "THYAO"]%string
  /\ Tickers._load_override_tickers_file (fun s => s)
       (Some (ticker_header :: Tickers.parse_symbols (fun s => s) ticker_lines))
     = ["AKBNK"; "THYAO"]%string.
Proof.
  split; [vm_compute; reflexivity|].
  rewrite (override_file_round_trip (fun s => s) ticker_header ticker_lines).
  - vm_compute. reflexivity.
  - vm_compute. reflexivity.
  - intros s _. reflexivity.
Defined.
